(** * LumiRum IoT client: a shallow embedding of the control core

    The development follows [src/iot/src/main.cpp] and [src/iot/src/config.h].
    The target is the ESP32-C3 (RISC-V, ILP32): [int], [long] and
    [unsigned long] are 32 bits wide, [float] is IEEE-754 binary32.  Integers
    are carried as [Z] and the wrap-around of the 32-bit types is written out
    where the operands are not bounded by construction.  [time_t] is a signed
    64-bit count of seconds and is carried as [Z].

    The globals of the sketch ([state], [schedule], [isInConfigMode], the
    [static] variables of the handlers) form the record [World], together
    with the two clocks of the device and a log of what the sketch hands to
    its collaborators.  What a function reads from the pins, the serial port
    or the network is passed to it as an argument; a blocking network call
    reports the clock readings that hold when it returns.

    Left out: the text printed on [Serial], and the rendering of [state] on
    the LED ring ([updateLighting], [convertColorTempToRGB]), which reads the
    state and writes none of it. *)

From Stdlib Require Import ZArith Bool List Lia String Ascii.
From Stdlib Require Import Floats.SpecFloat.
From stdpp Require Import base list.
Import ListNotations.

Local Open Scope Z_scope.

(** ** Machine arithmetic *)

Definition two32 : Z := 4294967296.
Definition two31 : Z := 2147483648.

(** [unsigned long] and [uint32_t]: arithmetic modulo 2^32. *)
Definition wrap32 (z : Z) : Z := z mod two32.

(** [int] and [long]: conversion to the signed 32-bit range. *)
Definition to_int (z : Z) : Z := (z + two31) mod two32 - two31.

(** [labs] of stdlib.h takes and returns a [long]. *)
Definition labs (z : Z) : Z := to_int (Z.abs (to_int z)).

(** [abs] on an [int] argument. *)
Definition abs (z : Z) : Z := Z.abs z.

(** Arduino's [map(x, in_min, in_max, out_min, out_max)], with the
    truncating division of C. *)
Module Arduino.
Definition map (x in_min in_max out_min out_max : Z) : Z :=
  Z.quot ((x - in_min) * (out_max - out_min)) (in_max - in_min) + out_min.
End Arduino.

(** *** binary32 *)

Definition prec32 : Z := 24.
Definition emax32 : Z := 128.

Definition float_of_Z (z : Z) : spec_float :=
  binary_normalize prec32 emax32 z 0 false.
Definition fdiv : spec_float -> spec_float -> spec_float := SFdiv prec32 emax32.
Definition fmul : spec_float -> spec_float -> spec_float := SFmul prec32 emax32.

(** [(int)f]: truncation toward zero.  The C standard leaves the
    conversion of a value outside the range of [int] undefined; here it
    saturates, and a NaN gives 0. *)
Definition int_of_float (f : spec_float) : Z :=
  match f with
  | S754_zero _ => 0
  | S754_nan => 0
  | S754_infinity s => if s then - two31 else two31 - 1
  | S754_finite s m e =>
      let mag := if 0 <=? e then Zpos m * 2 ^ e else Zpos m / 2 ^ (- e) in
      let v := if s then - mag else mag in
      Z.max (- two31) (Z.min (two31 - 1) v)
  end.

Definition float_is_zero (f : spec_float) : bool :=
  match f with S754_zero _ => true | _ => false end.

Definition float_is_finite_nonzero (f : spec_float) : bool :=
  match f with S754_finite _ _ _ => true | _ => false end.

(** *** time.h *)

Record tm := mkTm { tm_hour : Z; tm_min : Z; tm_sec : Z }.

(** [gmtime_r]: the time-of-day fields of a UTC instant (POSIX time has
    no leap seconds). *)
Definition gmtime_r (t : Z) : tm :=
  let s := t mod 86400 in
  {| tm_hour := s / 3600; tm_min := (s mod 3600) / 60; tm_sec := s mod 60 |}.



(** ** config.h *)

Definition API_KEY_LENGTH : Z := 64.
Definition API_DEVICE_KEY : string :=
  "OjEYR18aTyNiKMEP8o7XLDD3Rv47rUVVzPBIsxrdB0iOb3PMMmpcsRPiWIDJdRb2".
Definition TELEMETRY : bool := true.
Definition API_MAX_SCHEDULE_SIZE : Z := 96.
Definition API_MIN_TEMP_CONSTRAINT_K : Z := 1800.
Definition ANALOG_MAX_VALUE : Z := 4095.
Definition BUTTON_DEBOUNCE_MS : Z := 200.
Definition SCHEDULE_REFRESH_INTERVAL_MS : Z := 3600000.
Definition TELEMETRY_DEBOUNCE_MS : Z := 2000.
Definition TIME_JUMP_REFETCH_THRESHOLD_SEC : Z := 3600.
Definition MIN_COLOR_TEMP_K : Z := 1000.
Definition DEFAULT_COLOR_TEMP_K : Z := 3500.
Definition BRIGHTNESS_OFF_THRESHOLD_PERCENT : Z := 10.
Definition BRIGHTNESS_CHANGE_THRESHOLD_PERCENT : Z := 5.

Definition HTTP_CODE_OK : Z := 200.
Definition HTTP_CODE_CREATED : Z := 201.
Definition HTTP_CODE_UNAUTHORIZED : Z := 401.

(** Levels of a digital pin. *)
Definition HIGH : bool := true.
Definition LOW : bool := false.

(** ** Data model (the structs of main.cpp) *)

Record DeviceState := mkDeviceState {
  modeAuto : bool;
  lightIsOn : bool;
  currentBrightnessPercent : Z;
  currentColorTemp : Z;
  motionLastSeenMs : Z;
  lastKnownTimeSeconds : Z;
  scheduleLoaded : bool;
  scheduleExpiredWarned : bool
}.

Definition initialState : DeviceState :=
  {| modeAuto := true; lightIsOn := false; currentBrightnessPercent := 0;
     currentColorTemp := DEFAULT_COLOR_TEMP_K; motionLastSeenMs := 0;
     lastKnownTimeSeconds := 0; scheduleLoaded := false;
     scheduleExpiredWarned := false |}.

Record Point := mkPoint { timestamp : Z; colorTemp : Z }.

Global Instance Point_inhabited : Inhabited Point := populate (mkPoint 0 0).

Record LightingSchedule := mkSchedule {
  profileId : Z;
  sleepStartUtcSeconds : Z;
  sleepEndUtcSeconds : Z;
  minColorTemp : Z;
  maxColorTemp : Z;
  nightModeEnabled : bool;
  motionTimeoutSeconds : Z;
  generatedAt : Z;
  validUntil : Z;
  points : list Point;      (* Point points[API_MAX_SCHEDULE_SIZE] *)
  pointCount : Z
}.

Definition initialSchedule : LightingSchedule :=
  {| profileId := 0; sleepStartUtcSeconds := 0; sleepEndUtcSeconds := 0;
     minColorTemp := DEFAULT_COLOR_TEMP_K; maxColorTemp := 6500;
     nightModeEnabled := false; motionTimeoutSeconds := 300;
     generatedAt := 0; validUntil := 0;
     points := replicate (Z.to_nat API_MAX_SCHEDULE_SIZE) (mkPoint 0 0);
     pointCount := 0 |}.

(** The two clocks of the device: [millis()] and [time(nullptr)]. *)
Record Clock := mkClock { millis : Z; utc : Z }.

(** What the sketch hands to its collaborators. *)
Inductive Event :=
| EvTelemetry (eventType : string) (motionDetected : bool)
    (* sendTelemetry(eventType, motionDetected) was called *)
| EvPost (eventType : string) (motionDetected lightOn : bool)
    (brightness : Z) (colorTempField : option Z)
    (* the JSON document that http.POST carried *)
| EvFetch
    (* fetchSchedule() was called *)
| EvServerBegin.
    (* the configuration portal was started *)

Record World := mkWorld {
  state : DeviceState;
  schedule : LightingSchedule;
  isInConfigMode : bool;
  currentApiKey : string;
  storedApiKey : string;          (* preferences, key "apikey" *)
  lastScheduleCheckMs : Z;
  lastTelemetryMs : Z;
  lastButtonState : bool;
  lastButtonPressMs : Z;
  clock : Clock;
  events : list Event             (* most recent first *)
}.

Definition bootWorld (c : Clock) (nvs : string) : World :=
  {| state := initialState; schedule := initialSchedule;
     isInConfigMode := false; currentApiKey := ""; storedApiKey := nvs;
     lastScheduleCheckMs := 0; lastTelemetryMs := 0;
     lastButtonState := HIGH; lastButtonPressMs := 0;
     clock := c; events := [] |}.

(** *** Field updates *)

Definition withState (f : DeviceState -> DeviceState) (w : World) : World :=
  mkWorld (f (state w)) (schedule w) (isInConfigMode w) (currentApiKey w)
    (storedApiKey w) (lastScheduleCheckMs w) (lastTelemetryMs w)
    (lastButtonState w) (lastButtonPressMs w) (clock w) (events w).

Definition withSchedule (s : LightingSchedule) (w : World) : World :=
  mkWorld (state w) s (isInConfigMode w) (currentApiKey w)
    (storedApiKey w) (lastScheduleCheckMs w) (lastTelemetryMs w)
    (lastButtonState w) (lastButtonPressMs w) (clock w) (events w).

Definition withConfigMode (b : bool) (w : World) : World :=
  mkWorld (state w) (schedule w) b (currentApiKey w)
    (storedApiKey w) (lastScheduleCheckMs w) (lastTelemetryMs w)
    (lastButtonState w) (lastButtonPressMs w) (clock w) (events w).

Definition withLastScheduleCheckMs (v : Z) (w : World) : World :=
  mkWorld (state w) (schedule w) (isInConfigMode w) (currentApiKey w)
    (storedApiKey w) v (lastTelemetryMs w)
    (lastButtonState w) (lastButtonPressMs w) (clock w) (events w).

Definition withLastTelemetryMs (v : Z) (w : World) : World :=
  mkWorld (state w) (schedule w) (isInConfigMode w) (currentApiKey w)
    (storedApiKey w) (lastScheduleCheckMs w) v
    (lastButtonState w) (lastButtonPressMs w) (clock w) (events w).

Definition withLastButtonState (b : bool) (w : World) : World :=
  mkWorld (state w) (schedule w) (isInConfigMode w) (currentApiKey w)
    (storedApiKey w) (lastScheduleCheckMs w) (lastTelemetryMs w)
    b (lastButtonPressMs w) (clock w) (events w).

Definition withLastButtonPressMs (v : Z) (w : World) : World :=
  mkWorld (state w) (schedule w) (isInConfigMode w) (currentApiKey w)
    (storedApiKey w) (lastScheduleCheckMs w) (lastTelemetryMs w)
    (lastButtonState w) v (clock w) (events w).

Definition withClock (c : Clock) (w : World) : World :=
  mkWorld (state w) (schedule w) (isInConfigMode w) (currentApiKey w)
    (storedApiKey w) (lastScheduleCheckMs w) (lastTelemetryMs w)
    (lastButtonState w) (lastButtonPressMs w) c (events w).

Definition emit (e : Event) (w : World) : World :=
  mkWorld (state w) (schedule w) (isInConfigMode w) (currentApiKey w)
    (storedApiKey w) (lastScheduleCheckMs w) (lastTelemetryMs w)
    (lastButtonState w) (lastButtonPressMs w) (clock w) (e :: events w).

Definition setModeAuto (b : bool) (s : DeviceState) : DeviceState :=
  mkDeviceState b (lightIsOn s) (currentBrightnessPercent s)
    (currentColorTemp s) (motionLastSeenMs s) (lastKnownTimeSeconds s)
    (scheduleLoaded s) (scheduleExpiredWarned s).

Definition setLightIsOn (b : bool) (s : DeviceState) : DeviceState :=
  mkDeviceState (modeAuto s) b (currentBrightnessPercent s)
    (currentColorTemp s) (motionLastSeenMs s) (lastKnownTimeSeconds s)
    (scheduleLoaded s) (scheduleExpiredWarned s).

Definition setBrightness (v : Z) (s : DeviceState) : DeviceState :=
  mkDeviceState (modeAuto s) (lightIsOn s) v
    (currentColorTemp s) (motionLastSeenMs s) (lastKnownTimeSeconds s)
    (scheduleLoaded s) (scheduleExpiredWarned s).

Definition setColorTemp (v : Z) (s : DeviceState) : DeviceState :=
  mkDeviceState (modeAuto s) (lightIsOn s) (currentBrightnessPercent s)
    v (motionLastSeenMs s) (lastKnownTimeSeconds s)
    (scheduleLoaded s) (scheduleExpiredWarned s).

Definition setMotionLastSeenMs (v : Z) (s : DeviceState) : DeviceState :=
  mkDeviceState (modeAuto s) (lightIsOn s) (currentBrightnessPercent s)
    (currentColorTemp s) v (lastKnownTimeSeconds s)
    (scheduleLoaded s) (scheduleExpiredWarned s).

Definition setLastKnownTimeSeconds (v : Z) (s : DeviceState) : DeviceState :=
  mkDeviceState (modeAuto s) (lightIsOn s) (currentBrightnessPercent s)
    (currentColorTemp s) (motionLastSeenMs s) v
    (scheduleLoaded s) (scheduleExpiredWarned s).

Definition setScheduleLoaded (b : bool) (s : DeviceState) : DeviceState :=
  mkDeviceState (modeAuto s) (lightIsOn s) (currentBrightnessPercent s)
    (currentColorTemp s) (motionLastSeenMs s) (lastKnownTimeSeconds s)
    b (scheduleExpiredWarned s).

Definition setScheduleExpiredWarned (b : bool) (s : DeviceState) : DeviceState :=
  mkDeviceState (modeAuto s) (lightIsOn s) (currentBrightnessPercent s)
    (currentColorTemp s) (motionLastSeenMs s) (lastKnownTimeSeconds s)
    (scheduleLoaded s) b.

(** ** Inputs from the collaborators *)

(** A timestamp member of the schedule document, seen through
    [strptime] and [mktime]. *)
Inductive JsonTime :=
| TimeMissing                 (* no such member: the [const char*] is null *)
| TimeMalformed (junk : Z)    (* [strptime] fails, [tm] stays unset, [mktime] yields [junk] *)
| TimeValid (t : Z).          (* a YYYY-MM-DDTHH:MM:SS text denoting the instant [t] *)

Record JsonPoint := mkJsonPoint { jp_utc : JsonTime; jp_temp : option Z }.

(** The deserialized schedule document; [None] is a missing member. *)
Record JsonDoc := mkJsonDoc {
  profile_id : option Z;
  sleep_start_utc_seconds : option Z;
  sleep_end_utc_seconds : option Z;
  min_color_temp : option Z;
  max_color_temp : option Z;
  night_mode_enabled : option bool;
  motion_timeout_seconds : option Z;
  generated_at : JsonTime;
  valid_until : JsonTime;
  schedule_array : list JsonPoint
}.

(** The result of [deserializeJson(doc, payload)]. *)
Inductive Deserialized :=
| DeserializationError
| JsonOk (doc : JsonDoc).

(** What [fetchSchedule] meets on the network. *)
Record GetReply := mkGetReply {
  getWifiUp : bool;           (* WiFi.status() == WL_CONNECTED *)
  getCode : Z;                (* http.GET() *)
  getBody : Deserialized;     (* http.getString(), deserialized *)
  getClock : Clock            (* the clocks when the call returns *)
}.

(** What [sendTelemetry] meets on the network. *)
Record PostReply := mkPostReply {
  postWifiUp : bool;
  postCode : Z;               (* http.POST(jsonPayload) *)
  postClock : Clock
}.

(** A line read from the serial port, already classified. *)
Inductive SerialCommand :=
| CmdStatus
| CmdFetch
| CmdResetKey
| CmdTime (parsed : option Z)  (* "time ...": [None] when [strptime] returns NULL *)
| CmdUnknown.

(** A request met by [server.handleClient()]. *)
Inductive WebRequest :=
| NoRequest
| GetRoot
| PostSave (apikey : option string)
| OtherRequest.

(** Why the running sketch stops. *)
Inductive Halt :=
| RestartKeySaved (key : string)   (* /save accepted a credential, ESP.restart() *)
| RestartKeyReset                  (* serial reset_key, ESP.restart() *)
| NullDereference.                 (* strptime on a null string *)

(** A pass either goes on with a world or stops in one. *)
Inductive Outcome :=
| Running (w : World)
| Halted (h : Halt) (w : World).

Definition worldOf (o : Outcome) : World :=
  match o with
  | Running w => w
  | Halted _ w => w
  end.

Definition andThen (o : Outcome) (k : World -> Outcome) : Outcome :=
  match o with
  | Running w => k w
  | Halted h w => Halted h w
  end.

Notation "'run' w <- o ; k" := (andThen o (fun w => k))
  (at level 10, w name, o at level 100, k at level 200).

(** ArduinoJson conversions: a missing or unrepresentable member converts
    to the zero of the requested type. *)
Definition as_int (v : option Z) : Z :=
  match v with
  | Some z => if (- two31 <=? z) && (z <? two31) then z else 0
  | None => 0
  end.

Definition as_uint32 (v : option Z) : Z :=
  match v with
  | Some z => if (0 <=? z) && (z <? two32) then z else 0
  | None => 0
  end.

Definition as_bool (v : option bool) : bool :=
  match v with Some b => b | None => false end.

(** [strptime(str, "%Y-%m-%dT%H:%M:%S", &tm)] followed by [mktime(&tm)]. *)
Definition parseTime (t : JsonTime) : option Z :=
  match t with
  | TimeMissing => None
  | TimeMalformed junk => Some junk
  | TimeValid v => Some v
  end.

(** [millis()] *)
Definition millisNow (w : World) : Z := wrap32 (millis (clock w)).

(** [time(nullptr)] *)
Definition timeNow (w : World) : Z := utc (clock w).

(** ** enterConfigMode

    The routes it installs on the web server are those of [handleClient]
    below. *)

Definition enterConfigMode (w : World) : World :=
  if isInConfigMode w then w
  else
    let w := withConfigMode true w in
    let w := withState (setLightIsOn true) w in
    let w := withState (setColorTemp MIN_COLOR_TEMP_K) w in
    let w := withState (setBrightness 50) w in
    emit EvServerBegin w.

(** ** sendTelemetry *)

Definition sendTelemetry (eventType : string) (motionDetected : bool)
    (r : PostReply) (w : World) : World :=
  let w := emit (EvTelemetry eventType motionDetected) w in
  if negb TELEMETRY then w
  else if wrap32 (millisNow w - lastTelemetryMs w) <? TELEMETRY_DEBOUNCE_MS then w
  else
    let w := withLastTelemetryMs (millisNow w) w in
    if negb (postWifiUp r) then w
    else
      let colorField :=
        if API_MIN_TEMP_CONSTRAINT_K <=? currentColorTemp (state w)
        then Some (currentColorTemp (state w)) else None in
      let w := emit (EvPost eventType motionDetected (lightIsOn (state w))
                       (currentBrightnessPercent (state w)) colorField) w in
      let w := withClock (postClock r) w in
      if postCode r =? HTTP_CODE_UNAUTHORIZED then enterConfigMode w
      else w.

(** ** isNightTime *)

Definition daySeconds (t : Z) : Z :=
  let timeinfo := gmtime_r t in
  wrap32 (tm_hour timeinfo * 3600 + tm_min timeinfo * 60 + tm_sec timeinfo).

Definition isNightTime (w : World) : bool :=
  let secondsSinceMidnight := daySeconds (timeNow w) in
  let sch := schedule w in
  if sleepStartUtcSeconds sch <=? sleepEndUtcSeconds sch then
    (sleepStartUtcSeconds sch <=? secondsSinceMidnight) &&
    (secondsSinceMidnight <? sleepEndUtcSeconds sch)
  else
    (sleepStartUtcSeconds sch <=? secondsSinceMidnight) ||
    (secondsSinceMidnight <? sleepEndUtcSeconds sch).

(** ** getCurrentColorTemp *)

(** The guard of the interpolation branch. *)
Definition segmentMatches (currentDaySeconds daySeconds1 daySeconds2 : Z) : bool :=
  (daySeconds1 <=? currentDaySeconds) && (currentDaySeconds <? daySeconds2).

(** The divisor of the interpolation, a [uint32_t] difference. *)
Definition interpDivisor (daySeconds1 daySeconds2 : Z) : Z :=
  wrap32 (daySeconds2 - daySeconds1).

Definition interpolate (currentDaySeconds daySeconds1 daySeconds2 temp1 temp2 : Z) : Z :=
  let progress :=
    fdiv (float_of_Z (wrap32 (currentDaySeconds - daySeconds1)))
         (float_of_Z (interpDivisor daySeconds1 daySeconds2)) in
  to_int (temp1 + int_of_float (fmul progress (float_of_Z (to_int (temp2 - temp1))))).

(** The [for] loop over consecutive pairs, [n] iterations from index [i]. *)
Fixpoint scanSegments (pts : list Point) (currentDaySeconds : Z) (i n : nat)
    : option Z :=
  match n with
  | O => None
  | S n' =>
      let p1 := pts !!! i in
      let p2 := pts !!! S i in
      let daySeconds1 := daySeconds (timestamp p1) in
      let daySeconds2 := daySeconds (timestamp p2) in
      if segmentMatches currentDaySeconds daySeconds1 daySeconds2
      then Some (interpolate currentDaySeconds daySeconds1 daySeconds2
                   (colorTemp p1) (colorTemp p2))
      else scanSegments pts currentDaySeconds (S i) n'
  end.

Definition getCurrentColorTemp (w : World) : Z * World :=
  if negb (scheduleLoaded (state w)) || (pointCount (schedule w) =? 0)
  then (DEFAULT_COLOR_TEMP_K, w)
  else
    let now := timeNow w in
    if nightModeEnabled (schedule w) && isNightTime w
    then (MIN_COLOR_TEMP_K, w)
    else
      let w :=
        if (validUntil (schedule w) <? now) && negb (scheduleExpiredWarned (state w))
        then withState (setScheduleExpiredWarned true) w
        else w in
      let sch := schedule w in
      let currentDaySeconds := daySeconds now in
      match scanSegments (points sch) currentDaySeconds 0
              (Z.to_nat (pointCount sch - 1)) with
      | Some temp => (temp, w)
      | None => (colorTemp (points sch !!! Z.to_nat (pointCount sch - 1)), w)
      end.

(** ** fetchSchedule *)

(** The loop that stores the points: [src] holds the entries still to
    store, [i] is the index of the next one.  [strptime] is handed the
    text of each entry as it comes; at the first entry without one the
    loop faults, and the array holds what the earlier turns stored.  The
    result is the array and whether the loop ran to its end. *)
Fixpoint storePoints (src : list JsonPoint) (i : nat) (arr : list Point)
    : list Point * bool :=
  match src with
  | [] => (arr, true)
  | point :: rest =>
      match parseTime (jp_utc point) with
      | None => (arr, false)
      | Some t => storePoints rest (S i) (<[i := mkPoint t (as_int (jp_temp point))]> arr)
      end
  end.

Definition fetchSchedule (r : GetReply) (w : World) : Outcome :=
  let w := emit EvFetch w in
  if negb (getWifiUp r) then Running w
  else
    let w := withClock (getClock r) w in
    if getCode r =? HTTP_CODE_UNAUTHORIZED then Running (enterConfigMode w)
    else if getCode r =? HTTP_CODE_OK then
      match getBody r with
      | DeserializationError => Running w
      | JsonOk doc =>
          let old := schedule w in
          let sch :=
            {| profileId := as_int (profile_id doc);
               sleepStartUtcSeconds := as_uint32 (sleep_start_utc_seconds doc);
               sleepEndUtcSeconds := as_uint32 (sleep_end_utc_seconds doc);
               minColorTemp := as_int (min_color_temp doc);
               maxColorTemp := as_int (max_color_temp doc);
               nightModeEnabled := as_bool (night_mode_enabled doc);
               motionTimeoutSeconds := as_int (motion_timeout_seconds doc);
               generatedAt := generatedAt old;
               validUntil := validUntil old;
               points := points old;
               pointCount := pointCount old |} in
          match parseTime (generated_at doc), parseTime (valid_until doc) with
          | Some tGenerated, Some tValid =>
              let count :=
                Z.min (Z.of_nat (List.length (schedule_array doc))) API_MAX_SCHEDULE_SIZE in
              let stored :=
                storePoints (take (Z.to_nat count) (schedule_array doc)) 0 (points old) in
              let sch :=
                {| profileId := profileId sch;
                   sleepStartUtcSeconds := sleepStartUtcSeconds sch;
                   sleepEndUtcSeconds := sleepEndUtcSeconds sch;
                   minColorTemp := minColorTemp sch;
                   maxColorTemp := maxColorTemp sch;
                   nightModeEnabled := nightModeEnabled sch;
                   motionTimeoutSeconds := motionTimeoutSeconds sch;
                   generatedAt := tGenerated;
                   validUntil := tValid;
                   points := fst stored;
                   pointCount := count |} in
              let w := withSchedule sch w in
              if snd stored then
                let w := withState (setScheduleLoaded true) w in
                Running (withState (setScheduleExpiredWarned false) w)
              else Halted NullDereference w
          | _, _ => Halted NullDereference (withSchedule sch w)
          end
      end
    else Running w.

(** ** handleTimeJump *)

(** The jump test: [timeDiff > schedule.motionTimeoutSeconds]. *)
Definition timeJumpDeclared (w : World) : bool :=
  motionTimeoutSeconds (schedule w)
    <? labs (timeNow w - lastKnownTimeSeconds (state w)).

(** [timeSinceMotion], an [unsigned long]. *)
Definition timeSinceMotion (w : World) : Z :=
  wrap32 ((timeNow w - motionLastSeenMs (state w) / 1000) * 1000).

(** [(unsigned long)schedule.motionTimeoutSeconds * 1000] *)
Definition motionTimeoutMs (w : World) : Z :=
  wrap32 (wrap32 (motionTimeoutSeconds (schedule w)) * 1000).

Definition handleTimeJump (r : GetReply) (w : World) : Outcome :=
  let now := timeNow w in
  run w <-
    (if timeJumpDeclared w then
       let w :=
         if lightIsOn (state w) && modeAuto (state w) then
           if motionTimeoutMs w <? timeSinceMotion w
           then withState (setLightIsOn false) w
           else w
         else w in
       if lastKnownTimeSeconds (state w) + TIME_JUMP_REFETCH_THRESHOLD_SEC <? now
       then fetchSchedule r w
       else Running w
     else Running w);
  Running (withState (setLastKnownTimeSeconds now) w).

(** ** handleButton *)

(** The test that accepts a press. *)
Definition buttonAccepted (currentButtonState : bool) (w : World) : bool :=
  negb currentButtonState && lastButtonState w &&
  (BUTTON_DEBOUNCE_MS <? wrap32 (millisNow w - lastButtonPressMs w)).

Definition handleButton (currentButtonState : bool) (r : PostReply) (w : World)
    : World :=
  let w :=
    if buttonAccepted currentButtonState w then
      let w := withState (fun s => setModeAuto (negb (modeAuto s)) s) w in
      let w :=
        if modeAuto (state w) then withState (setLightIsOn false) w
        else
          let w := withState (setLightIsOn true) w in
          withState (setColorTemp DEFAULT_COLOR_TEMP_K) w in
      let w := sendTelemetry "mode_change" false r w in
      withLastButtonPressMs (millisNow w) w
    else w in
  withLastButtonState currentButtonState w.

(** ** handleMotion *)

Definition handleMotion (motionDetected : bool) (r : PostReply) (w : World)
    : World :=
  if negb (modeAuto (state w)) then w
  else if motionDetected then
    let w :=
      if negb (lightIsOn (state w))
      then sendTelemetry "motion_detected" true r w
      else w in
    let w := withState (setLightIsOn true) w in
    let w := withState (setMotionLastSeenMs (millisNow w)) w in
    let '(temp, w) := getCurrentColorTemp w in
    withState (setColorTemp temp) w
  else if lightIsOn (state w) &&
          (motionTimeoutMs w <? wrap32 (millisNow w - motionLastSeenMs (state w)))
  then
    let w := withState (setLightIsOn false) w in
    sendTelemetry "motion_timeout" false r w
  else w.

(** ** handleBrightnessPot *)

Definition handleBrightnessPot (potValue : Z) (w : World) : World :=
  let brightness := Arduino.map potValue 0 ANALOG_MAX_VALUE 0 100 in
  if brightness <=? BRIGHTNESS_OFF_THRESHOLD_PERCENT then
    let w :=
      if lightIsOn (state w) && negb (modeAuto (state w))
      then withState (setLightIsOn false) w
      else w in
    withState (setBrightness 0) w
  else
    let w :=
      if negb (modeAuto (state w)) && negb (lightIsOn (state w)) &&
         (BRIGHTNESS_OFF_THRESHOLD_PERCENT <? brightness)
      then withState (setLightIsOn true) w
      else w in
    if BRIGHTNESS_CHANGE_THRESHOLD_PERCENT
         <? abs (brightness - currentBrightnessPercent (state w))
    then withState (setBrightness brightness) w
    else w.

(** ** setSerialCommands *)

Definition withStoredApiKey (k : string) (w : World) : World :=
  mkWorld (state w) (schedule w) (isInConfigMode w) (currentApiKey w)
    k (lastScheduleCheckMs w) (lastTelemetryMs w)
    (lastButtonState w) (lastButtonPressMs w) (clock w) (events w).

Definition withCurrentApiKey (k : string) (w : World) : World :=
  mkWorld (state w) (schedule w) (isInConfigMode w) k
    (storedApiKey w) (lastScheduleCheckMs w) (lastTelemetryMs w)
    (lastButtonState w) (lastButtonPressMs w) (clock w) (events w).

(** [line] is [None] when [Serial.available() <= 0]. *)
Definition setSerialCommands (line : option SerialCommand) (r : GetReply)
    (w : World) : Outcome :=
  match line with
  | None => Running w
  | Some CmdStatus => Running w
  | Some CmdFetch => fetchSchedule r w
  | Some CmdResetKey => Halted RestartKeyReset (withStoredApiKey "" w)
  | Some (CmdTime None) => Running w
  | Some (CmdTime (Some t)) =>
      Running (withClock (mkClock (millis (clock w)) t) w)   (* settimeofday *)
  | Some CmdUnknown => Running w
  end.

(** ** The configuration portal *)

Definition isspace (c : ascii) : bool :=
  let n := nat_of_ascii c in
  (Nat.eqb n 32 || (Nat.leb 9 n && Nat.leb n 13))%bool.

Fixpoint trimLeft (s : string) : string :=
  match s with
  | String c rest => if isspace c then trimLeft rest else s
  | EmptyString => EmptyString
  end.

Fixpoint trimRight (s : string) : string :=
  match s with
  | String c rest =>
      match trimRight rest with
      | EmptyString => if isspace c then EmptyString else String c EmptyString
      | t => String c t
      end
  | EmptyString => EmptyString
  end.

(** [String::trim] *)
Definition trim (s : string) : string := trimRight (trimLeft s).

(** [server.handleClient()] with the routes that [enterConfigMode]
    installs. *)
Definition handleClient (req : WebRequest) (w : World) : Outcome :=
  match req with
  | PostSave (Some apikey) =>
      let newKey := trim apikey in
      if Z.of_nat (String.length newKey) =? API_KEY_LENGTH
      then Halted (RestartKeySaved newKey) (withStoredApiKey newKey w)
      else Running w
  | PostSave None => Running w
  | GetRoot => Running w
  | OtherRequest => Running w
  | NoRequest => Running w
  end.

(** ** loop *)

(** Everything one pass of [loop] reads from outside. *)
Record TickInput := mkTickInput {
  tickClock : Clock;                   (* the clocks when the pass starts *)
  webRequest : WebRequest;
  serialLine : option SerialCommand;
  serialFetchReply : GetReply;
  jumpFetchReply : GetReply;
  buttonLevel : bool;                  (* digitalRead(PIN_BUTTON) *)
  buttonPostReply : PostReply;
  motionLevel : bool;                  (* digitalRead(PIN_PIR_SENSOR) *)
  motionPostReply : PostReply;
  potValue : Z;                        (* analogRead(PIN_POTENTIOMETER) *)
  periodicFetchReply : GetReply
}.

Definition loop (i : TickInput) (w : World) : Outcome :=
  let w := withClock (tickClock i) w in
  if isInConfigMode w then handleClient (webRequest i) w
  else
    run w <- setSerialCommands (serialLine i) (serialFetchReply i) w;
    run w <- handleTimeJump (jumpFetchReply i) w;
    let w := handleButton (buttonLevel i) (buttonPostReply i) w in
    let w := handleMotion (motionLevel i) (motionPostReply i) w in
    let w := handleBrightnessPot (potValue i) w in
    (* updateLighting() renders [state] on the LED ring and changes nothing *)
    if SCHEDULE_REFRESH_INTERVAL_MS <? wrap32 (millisNow w - lastScheduleCheckMs w)
    then run w <- fetchSchedule (periodicFetchReply i) w;
         Running (withLastScheduleCheckMs (millisNow w) w)
    else Running w.

(** Successive passes of [loop]. *)
Fixpoint runLoop (inputs : list TickInput) (w : World) : Outcome :=
  match inputs with
  | [] => Running w
  | i :: rest => run w <- loop i w; runLoop rest w
  end.

(** ** setup *)

Definition loadApiKey (w : World) : World :=
  let savedKey := storedApiKey w in
  if Z.of_nat (String.length savedKey) =? API_KEY_LENGTH
  then withCurrentApiKey savedKey w
  else withCurrentApiKey API_DEVICE_KEY w.

Definition setup (bootClock : Clock) (nvs : string) (r : GetReply) : Outcome :=
  let w := loadApiKey (bootWorld bootClock nvs) in
  run w <- fetchSchedule r w;
  if isInConfigMode w then Running w
  else Running (withState (setLastKnownTimeSeconds (timeNow w)) w).

(** * Vocabulary of the properties *)

(** The value the scan of [getCurrentColorTemp] yields. *)
Definition lookupValue (w : World) : Z :=
  match scanSegments (points (schedule w)) (daySeconds (timeNow w)) 0
          (Z.to_nat (pointCount (schedule w) - 1)) with
  | Some temp => temp
  | None => colorTemp (points (schedule w) !!! Z.to_nat (pointCount (schedule w) - 1))
  end.

(** A schedule with two points at day-seconds 0 (2700K) and 43200 (6500K). *)
Definition twoPointSchedule (w : World) : Prop :=
  scheduleLoaded (state w) = true /\
  pointCount (schedule w) = 2 /\
  exists p0 p1 rest,
    points (schedule w) = p0 :: p1 :: rest /\
    daySeconds (timestamp p0) = 0 /\ colorTemp p0 = 2700 /\
    daySeconds (timestamp p1) = 43200 /\ colorTemp p1 = 6500.

Definition nightOverrideActive (w : World) : bool :=
  nightModeEnabled (schedule w) && isNightTime w.

(** [check] holds on the [n] integers from [d] on. *)
Fixpoint allFrom (check : Z -> bool) (n : nat) (d : Z) : bool :=
  match n with
  | O => true
  | S n' => check d && allFrom check n' (d + 1)
  end.

(** *** Sample worlds *)

(** 2025-01-01T00:00:00Z *)
Definition midnight2025 : Z := 1735689600.

Definition samplePoints (pts : list Point) : list Point :=
  pts ++ replicate (Z.to_nat API_MAX_SCHEDULE_SIZE - List.length pts)%nat (mkPoint 0 0).

(** A schedule of two points, 00:00 at 2700K and 12:00 at 6500K, whose
    sleep window 22:00-06:00 is enabled by [night]. *)
Definition sampleSchedule (night : bool) (minTemp timeout : Z) : LightingSchedule :=
  {| profileId := 7; sleepStartUtcSeconds := 79200; sleepEndUtcSeconds := 21600;
     minColorTemp := minTemp; maxColorTemp := 6500;
     nightModeEnabled := night; motionTimeoutSeconds := timeout;
     generatedAt := midnight2025; validUntil := midnight2025 + 86400;
     points := samplePoints [mkPoint midnight2025 2700; mkPoint (midnight2025 + 43200) 6500];
     pointCount := 2 |}.

(** A synchronized device in normal operation at wall-clock [now] and
    uptime [ms], with [sch] loaded. *)
Definition sampleWorld (sch : LightingSchedule) (st : DeviceState) (ms now : Z) : World :=
  {| state := st; schedule := sch; isInConfigMode := false;
     currentApiKey := API_DEVICE_KEY; storedApiKey := "";
     lastScheduleCheckMs := 0; lastTelemetryMs := 0;
     lastButtonState := HIGH; lastButtonPressMs := 0;
     clock := mkClock ms now; events := [] |}.

Definition loadedState (auto on : bool) (lastSeenMs lastKnown : Z) : DeviceState :=
  {| modeAuto := auto; lightIsOn := on; currentBrightnessPercent := 60;
     currentColorTemp := DEFAULT_COLOR_TEMP_K; motionLastSeenMs := lastSeenMs;
     lastKnownTimeSeconds := lastKnown; scheduleLoaded := true;
     scheduleExpiredWarned := false |}.

(** *** Observations on the event log *)




Definition isTelemetry (eventType : string) (e : Event) : bool :=
  match e with
  | EvTelemetry t _ => String.eqb t eventType
  | _ => false
  end.

(** How often [sendTelemetry] has been called with [eventType]. *)
Definition telemetryCalls (eventType : string) (w : World) : nat :=
  List.length (List.filter (isTelemetry eventType) (events w)).

Definition isPost (e : Event) : bool :=
  match e with EvPost _ _ _ _ _ => true | _ => false end.

(** The telemetry documents that went out, most recent first. *)
Definition posts (w : World) : list Event :=
  List.filter isPost (events w).

(** How many telemetry documents have been posted. *)
Definition postCount (w : World) : nat :=
  List.length (List.filter isPost (events w)).

(** *** What a call of [sendTelemetry] meets *)

(** The rate limit lets the event through: the last telemetry stamp is at
    least [TELEMETRY_DEBOUNCE_MS] old. *)
Definition telemetryDue (w : World) : bool :=
  TELEMETRY_DEBOUNCE_MS <=? wrap32 (millisNow w - lastTelemetryMs w).

(** The document goes out: the rate limit lets it through and WiFi is up. *)
Definition telemetryPosted (r : PostReply) (w : World) : bool :=
  telemetryDue w && postWifiUp r.

(** The document goes out, is answered 401, and the device is not yet in
    configuration mode: [sendTelemetry] enters it. *)
Definition telemetryRejected (r : PostReply) (w : World) : bool :=
  telemetryPosted r w && (postCode r =? HTTP_CODE_UNAUTHORIZED) &&
  negb (isInConfigMode w).

(** The document [sendTelemetry] builds in world [w]. *)
Definition telemetryDocument (eventType : string) (motionDetected : bool)
    (w : World) : Event :=
  EvPost eventType motionDetected (lightIsOn (state w))
    (currentBrightnessPercent (state w))
    (if API_MIN_TEMP_CONSTRAINT_K <=? currentColorTemp (state w)
     then Some (currentColorTemp (state w)) else None).

(** The warning light of configuration mode: on, at [MIN_COLOR_TEMP_K],
    brightness 50. *)
Definition warningLight (w : World) : Prop :=
  isInConfigMode w = true /\
  lightIsOn (state w) = true /\
  currentColorTemp (state w) = MIN_COLOR_TEMP_K /\
  currentBrightnessPercent (state w) = 50.

(** Seconds from the last-seen motion to the new [now], as
    [handleTimeJump] forms them before scaling to milliseconds. *)
Definition secondsSinceMotion (w : World) : Z :=
  timeNow w - motionLastSeenMs (state w) / 1000.

(** *** Sample replies *)

Definition offline : GetReply :=
  mkGetReply false 0 DeserializationError (mkClock 0 0).

Definition getReply (code : Z) (body : Deserialized) (c : Clock) : GetReply :=
  mkGetReply true code body c.

Definition postReply (code : Z) (c : Clock) : PostReply :=
  mkPostReply true code c.

(** A complete, well-formed schedule document. *)
Definition sampleDoc : JsonDoc :=
  {| profile_id := Some 9;
     sleep_start_utc_seconds := Some 82800;
     sleep_end_utc_seconds := Some 25200;
     min_color_temp := Some 2200;
     max_color_temp := Some 6000;
     night_mode_enabled := Some true;
     motion_timeout_seconds := Some 120;
     generated_at := TimeValid (midnight2025 + 86400);
     valid_until := TimeValid (midnight2025 + 172800);
     schedule_array :=
       [mkJsonPoint (TimeValid (midnight2025 + 86400 + 21600)) (Some 3000);
        mkJsonPoint (TimeValid (midnight2025 + 86400 + 64800)) (Some 5000)] |}.

(** [sampleDoc] without its "motion_timeout_seconds" member. *)
Definition docMissingTimeout : JsonDoc :=
  {| profile_id := profile_id sampleDoc;
     sleep_start_utc_seconds := sleep_start_utc_seconds sampleDoc;
     sleep_end_utc_seconds := sleep_end_utc_seconds sampleDoc;
     min_color_temp := min_color_temp sampleDoc;
     max_color_temp := max_color_temp sampleDoc;
     night_mode_enabled := night_mode_enabled sampleDoc;
     motion_timeout_seconds := None;
     generated_at := generated_at sampleDoc;
     valid_until := valid_until sampleDoc;
     schedule_array := schedule_array sampleDoc |}.

(** [sampleDoc] with a "valid_until" text that [strptime] rejects. *)
Definition docBadTimestamp (junk : Z) : JsonDoc :=
  {| profile_id := profile_id sampleDoc;
     sleep_start_utc_seconds := sleep_start_utc_seconds sampleDoc;
     sleep_end_utc_seconds := sleep_end_utc_seconds sampleDoc;
     min_color_temp := min_color_temp sampleDoc;
     max_color_temp := max_color_temp sampleDoc;
     night_mode_enabled := night_mode_enabled sampleDoc;
     motion_timeout_seconds := motion_timeout_seconds sampleDoc;
     generated_at := generated_at sampleDoc;
     valid_until := TimeMalformed junk;
     schedule_array := schedule_array sampleDoc |}.

(** 2025-10-20T05:03:17Z, a wall-clock reading at which the scaled
    seconds-since-motion, taken modulo 2^32, come out as 640 ms. *)
Definition wrapInstant : Z := 1760936597.

(** Normal operation 65 s after boot: Auto mode, light on, motion last
    seen at uptime 5 s, timeout 300 s; the wall clock stands 400 s ahead
    of the last known time. *)
Definition jumpWorld : World :=
  sampleWorld (sampleSchedule false 2000 300)
    (loadedState true true 5000 (wrapInstant - 400)) 65000 wrapInstant.

(** *** Polling a pin *)

(** One reading of a digital pin, with the clocks at that moment and the
    reply any telemetry call of the handler would meet. *)
Record PinSample := mkPinSample {
  sampleClock : Clock;
  sampleLevel : bool;
  sampleReply : PostReply
}.

(** [handleButton] on successive readings. *)
Fixpoint pollButton (samples : list PinSample) (w : World) : World :=
  match samples with
  | [] => w
  | s :: rest =>
      pollButton rest
        (handleButton (sampleLevel s) (sampleReply s) (withClock (sampleClock s) w))
  end.

(** [handleMotion] on successive readings. *)
Fixpoint pollMotion (samples : list PinSample) (w : World) : World :=
  match samples with
  | [] => w
  | s :: rest =>
      pollMotion rest
        (handleMotion (sampleLevel s) (sampleReply s) (withClock (sampleClock s) w))
  end.

(** A step keeps the configuration-mode flag set. *)
Definition keepsConfigMode (step : World -> Outcome) : Prop :=
  forall w : World,
    isInConfigMode w = true -> isInConfigMode (worldOf (step w)) = true.

(** A device that has entered configuration mode. *)
Definition configWorld : World :=
  enterConfigMode
    (sampleWorld (sampleSchedule false 2000 300) (loadedState true false 0 midnight2025)
       5000 midnight2025).

Definition quietTick (c : Clock) (req : WebRequest) : TickInput :=
  {| tickClock := c; webRequest := req; serialLine := Some CmdFetch;
     serialFetchReply := getReply 200 (JsonOk sampleDoc) c;
     jumpFetchReply := getReply 200 (JsonOk sampleDoc) c;
     buttonLevel := LOW; buttonPostReply := postReply 200 c;
     motionLevel := true; motionPostReply := postReply 200 c;
     potValue := 4095;
     periodicFetchReply := getReply 200 (JsonOk sampleDoc) c |}.

(** Two passes in configuration mode: a page view, then a credential of
    the wrong length. *)
Definition configTicks : list TickInput :=
  [quietTick (mkClock 6000 (midnight2025 + 1)) GetRoot;
   quietTick (mkClock 7000 (midnight2025 + 2)) (PostSave (Some "short"%string))].

(** The mode toggle of an accepted press, as [handleButton] performs it
    before it reports the change. *)
Definition toggleMode (w : World) : World :=
  let w := withState (fun s => setModeAuto (negb (modeAuto s)) s) w in
  if modeAuto (state w) then withState (setLightIsOn false) w
  else
    let w := withState (setLightIsOn true) w in
    withState (setColorTemp DEFAULT_COLOR_TEMP_K) w.

(** A reading taken no later than 200 ms after the stamp of the last
    accepted press, with no wrap of the millisecond counter in between. *)
Definition withinDebounce (stamp : Z) (s : PinSample) : Prop :=
  stamp <= millis (sampleClock s) <= stamp + BUTTON_DEBOUNCE_MS /\
  millis (sampleClock s) < two32.

(** Manual mode, light on, button released, 10 s after boot. *)
Definition manualWorld : World :=
  sampleWorld (sampleSchedule false 2000 300) (loadedState false true 0 midnight2025)
    10000 midnight2025.

(** A second press 150 ms after the stamp of a press accepted at 10 s. *)
Definition bounce : list PinSample :=
  [mkPinSample (mkClock 10050 midnight2025) HIGH (postReply 200 (mkClock 10060 midnight2025));
   mkPinSample (mkClock 10150 midnight2025) LOW (postReply 200 (mkClock 10160 midnight2025))].

(** Milliseconds since the last-seen motion, as [handleMotion] forms
    them: the [unsigned long] difference of [millis()] and the stamp. *)
Definition elapsedSinceMotion (w : World) : Z :=
  wrap32 (millisNow w - motionLastSeenMs (state w)).

(** The timeout in milliseconds fits an [unsigned long]. *)
Definition timerInRange (w : World) : Prop :=
  0 <= motionTimeoutSeconds (schedule w) <= 4294967.

Definition motionAbsent (s : PinSample) : Prop := sampleLevel s = false.

(** Auto mode, light off, 10 s after boot, at noon. *)
Definition darkWorld : World :=
  sampleWorld (sampleSchedule false 2000 300) (loadedState true false 0 midnight2025)
    10000 (midnight2025 + 43200).

(** Auto mode, light on, motion last seen at uptime 10 s; the uptime is
    [ms]. *)
Definition litWorld (ms : Z) : World :=
  sampleWorld (sampleSchedule false 2000 300) (loadedState true true 10000 midnight2025)
    ms (midnight2025 + 43200).

(** Three further readings without motion. *)
Definition stillness : list PinSample :=
  [mkPinSample (mkClock 320000 midnight2025) false (postReply 200 (mkClock 320010 midnight2025));
   mkPinSample (mkClock 330000 midnight2025) false (postReply 200 (mkClock 330010 midnight2025));
   mkPinSample (mkClock 900000 midnight2025) false (postReply 200 (mkClock 900010 midnight2025))].

(** * Further vocabulary *)

(** The world with another sleep window. *)
Definition withSleepWindow (sleepStart sleepEnd : Z) (w : World) : World :=
  let sch := schedule w in
  withSchedule
    {| profileId := profileId sch;
       sleepStartUtcSeconds := sleepStart;
       sleepEndUtcSeconds := sleepEnd;
       minColorTemp := minColorTemp sch;
       maxColorTemp := maxColorTemp sch;
       nightModeEnabled := nightModeEnabled sch;
       motionTimeoutSeconds := motionTimeoutSeconds sch;
       generatedAt := generatedAt sch;
       validUntil := validUntil sch;
       points := points sch;
       pointCount := pointCount sch |} w.

(** The world with another point array. *)
Definition withPoints (pts : list Point) (w : World) : World :=
  let sch := schedule w in
  withSchedule
    {| profileId := profileId sch;
       sleepStartUtcSeconds := sleepStartUtcSeconds sch;
       sleepEndUtcSeconds := sleepEndUtcSeconds sch;
       minColorTemp := minColorTemp sch;
       maxColorTemp := maxColorTemp sch;
       nightModeEnabled := nightModeEnabled sch;
       motionTimeoutSeconds := motionTimeoutSeconds sch;
       generatedAt := generatedAt sch;
       validUntil := validUntil sch;
       points := pts;
       pointCount := pointCount sch |} w.

(** The world at another wall-clock reading. *)
Definition atTime (t : Z) (w : World) : World :=
  withClock (mkClock (millis (clock w)) t) w.

(** Two stored points agree in time of day and colour temperature. *)
Definition sameTimeOfDay (p q : Point) : Prop :=
  daySeconds (timestamp p) = daySeconds (timestamp q) /\ colorTemp p = colorTemp q.

(** The day-seconds of the first [n] stored points never decrease. *)
Definition sortedDaySeconds (pts : list Point) (n : nat) : Prop :=
  forall i j : nat,
    (i <= j < n)%nat ->
    daySeconds (timestamp (pts !!! i)) <= daySeconds (timestamp (pts !!! j)).

(** A lookup that interpolates: a schedule is loaded, it has points, and
    the night override is not active. *)
Definition lookupInterpolates (w : World) : Prop :=
  scheduleLoaded (state w) = true /\
  pointCount (schedule w) <> 0 /\
  nightOverrideActive w = false.

(** The last stored point. *)
Definition lastPoint (w : World) : Point :=
  points (schedule w) !!! Z.to_nat (pointCount (schedule w) - 1).

(** A stored point moved by [k] whole days. *)
Definition shiftDays (k : Z) (p : Point) : Point :=
  mkPoint (timestamp p + 86400 * k) (colorTemp p).

(** A value of type [int]. *)
Definition inIntRange (z : Z) : Prop := - two31 <= z < two31.

(** A schedule of one point, 08:00 at 4000K. *)
Definition onePointSchedule : LightingSchedule :=
  {| profileId := 3; sleepStartUtcSeconds := 0; sleepEndUtcSeconds := 0;
     minColorTemp := 2000; maxColorTemp := 6500;
     nightModeEnabled := true; motionTimeoutSeconds := 300;
     generatedAt := midnight2025; validUntil := midnight2025 + 86400;
     points := samplePoints [mkPoint (midnight2025 + 28800) 4000];
     pointCount := 1 |}.

(** A schedule of three points: 06:00 at 3000K, 12:00 at 6000K, 20:00 at
    2500K. *)
Definition threePointSchedule : LightingSchedule :=
  {| profileId := 4; sleepStartUtcSeconds := 0; sleepEndUtcSeconds := 0;
     minColorTemp := 2000; maxColorTemp := 6500;
     nightModeEnabled := false; motionTimeoutSeconds := 300;
     generatedAt := midnight2025; validUntil := midnight2025 + 86400;
     points := samplePoints [mkPoint (midnight2025 + 21600) 3000;
                             mkPoint (midnight2025 + 43200) 6000;
                             mkPoint (midnight2025 + 72000) 2500];
     pointCount := 3 |}.

(** The entries of the document that [fetchSchedule] stores: the first
    [API_MAX_SCHEDULE_SIZE] at most. *)
Definition storedEntries (doc : JsonDoc) : list JsonPoint :=
  take (Z.to_nat API_MAX_SCHEDULE_SIZE) (schedule_array doc).

Definition timeTextMissing (t : JsonTime) : bool :=
  match t with TimeMissing => true | _ => false end.

(** One of the timestamp texts that [fetchSchedule] hands to [strptime] is
    missing from the document. *)
Definition lacksTimeText (doc : JsonDoc) : bool :=
  timeTextMissing (generated_at doc) || timeTextMissing (valid_until doc) ||
  existsb (fun p => timeTextMissing (jp_utc p)) (storedEntries doc).

(** The reply is a schedule document: WiFi is up, the status is 200 and the
    body deserializes to [doc]. *)
Definition deliversDocument (r : GetReply) (doc : JsonDoc) : Prop :=
  getWifiUp r = true /\ getCode r = HTTP_CODE_OK /\ getBody r = JsonOk doc.

(** The point array has its declared size and [pointCount] lies within it. *)
Definition scheduleWellFormed (sch : LightingSchedule) : Prop :=
  List.length (points sch) = Z.to_nat API_MAX_SCHEDULE_SIZE /\
  0 <= pointCount sch <= API_MAX_SCHEDULE_SIZE.

(** A document of [n] entries, one per minute from midnight. *)
Definition longDoc (n : nat) : JsonDoc :=
  {| profile_id := Some 11;
     sleep_start_utc_seconds := Some 0;
     sleep_end_utc_seconds := Some 0;
     min_color_temp := Some 2000;
     max_color_temp := Some 6500;
     night_mode_enabled := Some false;
     motion_timeout_seconds := Some 60;
     generated_at := TimeValid midnight2025;
     valid_until := TimeValid (midnight2025 + 86400);
     schedule_array :=
       List.map (fun k => mkJsonPoint (TimeValid (midnight2025 + 60 * Z.of_nat k))
                            (Some (2000 + Z.of_nat k)))
         (seq 0 n) |}.

(** [sampleDoc] with a third entry that has no "utc" member. *)
Definition docMissingUtc : JsonDoc :=
  {| profile_id := profile_id sampleDoc;
     sleep_start_utc_seconds := sleep_start_utc_seconds sampleDoc;
     sleep_end_utc_seconds := sleep_end_utc_seconds sampleDoc;
     min_color_temp := min_color_temp sampleDoc;
     max_color_temp := max_color_temp sampleDoc;
     night_mode_enabled := night_mode_enabled sampleDoc;
     motion_timeout_seconds := motion_timeout_seconds sampleDoc;
     generated_at := generated_at sampleDoc;
     valid_until := valid_until sampleDoc;
     schedule_array := schedule_array sampleDoc ++ [mkJsonPoint TimeMissing (Some 4000)] |}.

(** A property of worlds that every step of one pass of [loop] on the
    input [i] keeps. *)
Definition keptByPass (P : World -> Prop) (i : TickInput) : Prop :=
  (forall w, P w -> P (withClock (tickClock i) w)) /\
  (forall w, P w -> P (worldOf (handleClient (webRequest i) w))) /\
  (forall w, P w -> P (worldOf (setSerialCommands (serialLine i) (serialFetchReply i) w))) /\
  (forall w, P w -> P (worldOf (handleTimeJump (jumpFetchReply i) w))) /\
  (forall w, P w -> P (handleButton (buttonLevel i) (buttonPostReply i) w)) /\
  (forall w, P w -> P (handleMotion (motionLevel i) (motionPostReply i) w)) /\
  (forall w, P w -> P (handleBrightnessPot (potValue i) w)) /\
  (forall w, P w -> P (worldOf (fetchSchedule (periodicFetchReply i) w))) /\
  (forall w v, P w -> P (withLastScheduleCheckMs v w)).

(** WiFi is down for every network call of the pass. *)
Definition offlineTick (i : TickInput) : Prop :=
  getWifiUp (serialFetchReply i) = false /\
  getWifiUp (jumpFetchReply i) = false /\
  getWifiUp (periodicFetchReply i) = false /\
  postWifiUp (buttonPostReply i) = false /\
  postWifiUp (motionPostReply i) = false.

(** Two passes without WiFi: a button press with motion, then a serial
    "fetch" with the knob turned down. *)
Definition offlineTicks : list TickInput :=
  [ {| tickClock := mkClock 6000 (midnight2025 + 1); webRequest := NoRequest;
       serialLine := None; serialFetchReply := offline; jumpFetchReply := offline;
       buttonLevel := LOW; buttonPostReply := mkPostReply false 0 (mkClock 0 0);
       motionLevel := true; motionPostReply := mkPostReply false 0 (mkClock 0 0);
       potValue := 3000; periodicFetchReply := offline |};
    {| tickClock := mkClock 4000000 (midnight2025 + 4000); webRequest := NoRequest;
       serialLine := Some CmdFetch; serialFetchReply := offline; jumpFetchReply := offline;
       buttonLevel := HIGH; buttonPostReply := mkPostReply false 0 (mkClock 0 0);
       motionLevel := false; motionPostReply := mkPostReply false 0 (mkClock 0 0);
       potValue := 100; periodicFetchReply := offline |} ].

(** ** convertColorTempToRGB and updateLighting

    The three curves of Tanner Helland's algorithm go through [pow] and
    [log] of the C library.  They enter as parameters: each stands for the
    source expression named beside it, evaluated on its [float] argument and
    stored back into a [float]. *)

Record Curves := mkCurves {
  redCurve : spec_float -> spec_float;
    (* 329.698727446 * pow(red, -0.1332047592), red = temp - 60 *)
  greenLowCurve : spec_float -> spec_float;
    (* 99.4708025861 * log(green) - 161.1195681661, green = temp *)
  greenHighCurve : spec_float -> spec_float;
    (* 288.1221695283 * pow(green, -0.0755148492), green = temp - 60 *)
  blueCurve : spec_float -> spec_float
    (* 138.5177312231 * log(blue) - 305.0447927307, blue = temp - 10 *)
}.

Definition PWM_MAX_VALUE : Z := 255.
Definition LED_COUNT : Z := 16.

(** [const float KELVIN_DIVISOR = 100.0] *)
Definition KELVIN_DIVISOR : spec_float := float_of_Z 100.

Definition fsub : spec_float -> spec_float -> spec_float := SFsub prec32 emax32.

(** Arduino's [constrain(amt, low, high)] macro. *)
Definition constrain (amt low high : spec_float) : spec_float :=
  if SFltb amt low then low
  else if SFltb high amt then high
  else amt.

(** [(uint8_t)f] *)
Definition uint8_of_float (f : spec_float) : Z := int_of_float f mod 256.

(** [float temp = kelvin / KELVIN_DIVISOR] *)
Definition kelvinTemp (kelvin : Z) : spec_float :=
  fdiv (float_of_Z kelvin) KELVIN_DIVISOR.

Definition convertColorTempToRGB (cv : Curves) (kelvin : Z) : Z * Z * Z :=
  let temp := kelvinTemp kelvin in
  let lo := float_of_Z 0 in
  let hi := float_of_Z 255 in
  let red :=
    if SFleb temp (float_of_Z 66) then hi
    else constrain (redCurve cv (fsub temp (float_of_Z 60))) lo hi in
  let green :=
    if SFleb temp (float_of_Z 66)
    then constrain (greenLowCurve cv temp) lo hi
    else constrain (greenHighCurve cv (fsub temp (float_of_Z 60))) lo hi in
  let blue :=
    if SFleb (float_of_Z 66) temp then hi
    else if SFleb temp (float_of_Z 19) then lo
    else constrain (blueCurve cv (fsub temp (float_of_Z 10))) lo hi in
  (uint8_of_float red, uint8_of_float green, uint8_of_float blue).

(** What [updateLighting] puts on the ring: nothing, or one brightness and
    one colour for all [LED_COUNT] pixels. *)
Inductive Frame :=
| FrameDark
| FrameLit (brightness r g b : Z).

Definition updateLighting (cv : Curves) (w : World) : Frame :=
  if negb (lightIsOn (state w)) then FrameDark
  else
    let '(r, g, b) := convertColorTempToRGB cv (currentColorTemp (state w)) in
    let actualBrightness :=
      Arduino.map (currentBrightnessPercent (state w)) 0 100 0 PWM_MAX_VALUE in
    FrameLit (actualBrightness mod 256) r g b.   (* setBrightness(uint8_t) *)

(** The tests of [convertColorTempToRGB] on [temp], as booleans. *)
Definition tempAtMost (bound kelvin : Z) : bool :=
  SFleb (kelvinTemp kelvin) (float_of_Z bound).
Definition tempAtLeast (bound kelvin : Z) : bool :=
  SFleb (float_of_Z bound) (kelvinTemp kelvin).

(** The three tests agree with the integer comparisons of [kelvin]. *)
Definition thresholdsAgree (kelvin : Z) : bool :=
  let temp := kelvinTemp kelvin in
  Bool.eqb (SFleb temp (float_of_Z 66)) (kelvin <=? 6600) &&
  Bool.eqb (SFleb (float_of_Z 66) temp) (6600 <=? kelvin) &&
  Bool.eqb (SFleb temp (float_of_Z 19)) (kelvin <=? 1900).

(** The potentiometer reading is a 12-bit ADC value. *)
Definition adcReading (i : TickInput) : Prop := 0 <= potValue i <= ANALOG_MAX_VALUE.

Definition percent (z : Z) : Prop := 0 <= z <= 100.

(** Curves that answer 0 everywhere. *)
Definition flatCurves : Curves :=
  mkCurves (fun _ => S754_zero false) (fun _ => S754_zero false)
           (fun _ => S754_zero false) (fun _ => S754_zero false).

(** The millisecond counter stands [d] ms after [stamp], counted modulo
    2^32 as the hardware does. *)
Definition counterAfter (stamp d : Z) (w : World) : Prop :=
  0 <= stamp < two32 /\ 0 <= d < two32 /\ millisNow w = wrap32 (stamp + d).

(** The device after the restart that follows a halt in world [w]:
    [setup] with the key that the preferences hold. *)
Definition restartFrom (w : World) (bootClock : Clock) (r : GetReply) : World :=
  worldOf (setup bootClock (storedApiKey w) r).

(** A 64-character credential, with blanks around it as typed into the
    form. *)
Definition typedKey : string :=
  "  0123456789abcdef0123456789abcdef0123456789abcdef0123456789abcdef ".

(** Uptime 100 ms after the counter wrapped; the last press was stamped
    200 ms before the wrap. *)
Definition wrappedWorld : World :=
  withLastButtonPressMs (two32 - 200)
    (sampleWorld (sampleSchedule false 2000 300) (loadedState true true 0 midnight2025)
       (two32 + 100) midnight2025).

(** No jump: the wall clock stands 10 s after the last known time. *)
Definition calmWorld : World :=
  sampleWorld (sampleSchedule false 2000 300)
    (loadedState true true 0 (midnight2025 + 10)) 5000 (midnight2025 + 20).


(** ** Inputs of the button, motion and fallback properties *)

(** A reading with the button down. *)
Definition buttonHeld (s : PinSample) : Prop := sampleLevel s = LOW.

(** The button stays down for three further readings, long after the
    debounce window. *)
Definition held : list PinSample :=
  [mkPinSample (mkClock 10300 midnight2025) LOW (postReply 200 (mkClock 10310 midnight2025));
   mkPinSample (mkClock 20000 midnight2025) LOW (postReply 200 (mkClock 20010 midnight2025));
   mkPinSample (mkClock 30000 midnight2025) LOW (postReply 200 (mkClock 30010 midnight2025))].

(** [darkWorld] one second after a telemetry document went out. *)
Definition recentlyReportedWorld : World := withLastTelemetryMs 9000 darkWorld.

(** Auto mode, light on, motion last seen at uptime 10 s, 705 ms ago, with
    a timeout of 4294968 s, whose millisecond value wraps to 704. *)
Definition longTimeoutWorld : World :=
  sampleWorld (sampleSchedule false 2000 4294968)
    (loadedState true true 10000 midnight2025) 10705 (midnight2025 + 43200).

(** Normal operation a good hour after boot: Auto mode, light off, the
    schedule loaded, the hourly refresh due. *)
Definition refreshDueWorld : World :=
  sampleWorld (sampleSchedule false 2000 300)
    (loadedState true false 0 (midnight2025 + 3700)) 3700000 (midnight2025 + 3700).

(** A pass with motion in which the telemetry post is answered 401 and the
    hourly refresh that follows in the same pass is answered 200 with
    [docMissingUtc]. *)
Definition rejectedThenFaultingTick : TickInput :=
  {| tickClock := mkClock 3700010 (midnight2025 + 3701);
     webRequest := NoRequest; serialLine := None;
     serialFetchReply := offline; jumpFetchReply := offline;
     buttonLevel := HIGH;
     buttonPostReply := postReply 200 (mkClock 3700010 (midnight2025 + 3701));
     motionLevel := true;
     motionPostReply := postReply 401 (mkClock 3700050 (midnight2025 + 3701));
     potValue := 3000;
     periodicFetchReply :=
       getReply 200 (JsonOk docMissingUtc) (mkClock 3700090 (midnight2025 + 3701)) |}.
(** * Properties *)

(** ** Arithmetic facts *)

Lemma wrap32_small (z : Z) : 0 <= z < two32 -> wrap32 z = z.
Proof. intros H. unfold wrap32. apply Z.mod_small. exact H. Qed.

Lemma wrap32_range (z : Z) : 0 <= wrap32 z < two32.
Proof. unfold wrap32, two32. apply Z.mod_pos_bound. lia. Qed.

Lemma to_int_small (z : Z) : - two31 <= z < two31 -> to_int z = z.
Proof.
  intros H. unfold to_int, two32, two31 in *.
  rewrite Z.mod_small; lia.
Qed.

Lemma labs_small (z : Z) : - two31 < z < two31 -> labs z = Z.abs z.
Proof.
  intros H. unfold labs. rewrite (to_int_small z) by (unfold two31 in *; lia).
  apply to_int_small. unfold two31 in *. lia.
Qed.

Lemma daySeconds_mod (t : Z) : daySeconds t = t mod 86400.
Proof.
  unfold daySeconds, gmtime_r, wrap32, two32; cbn [tm_hour tm_min tm_sec].
  Z.to_euclidean_division_equations. lia.
Qed.

Lemma daySeconds_range (t : Z) : 0 <= daySeconds t < 86400.
Proof. rewrite daySeconds_mod. apply Z.mod_pos_bound. lia. Qed.

Lemma allFrom_spec (check : Z -> bool) (n : nat) :
  forall d, allFrom check n d = true ->
  forall k, d <= k < d + Z.of_nat n -> check k = true.
Proof.
  induction n as [|n IH]; intros d H k Hk; [lia|].
  cbn [allFrom] in H. apply andb_true_iff in H as [H1 H2].
  destruct (Z.eq_dec k d) as [->|Hne]; [exact H1|].
  apply (IH (d + 1) H2). lia.
Qed.

(** Every day-seconds difference converts to a non-zero binary32. *)
Lemma float_of_daySeconds_nonzero (d : Z) :
  1 <= d <= 86399 -> float_is_finite_nonzero (float_of_Z d) = true.
Proof.
  intros H.
  assert (Hall : allFrom (fun d => float_is_finite_nonzero (float_of_Z d))
                   (Z.to_nat 86399) 1 = true) by (vm_compute; reflexivity).
  apply (allFrom_spec _ _ _ Hall). lia.
Qed.

(** ** The lookup, read off its definition *)

Lemma getCurrentColorTemp_value (w : World) :
  fst (getCurrentColorTemp w) =
    if negb (scheduleLoaded (state w)) || (pointCount (schedule w) =? 0)
    then DEFAULT_COLOR_TEMP_K
    else if nightModeEnabled (schedule w) && isNightTime w
         then MIN_COLOR_TEMP_K
         else lookupValue w.
Proof.
  unfold getCurrentColorTemp, lookupValue.
  destruct (negb (scheduleLoaded (state w)) || (pointCount (schedule w) =? 0));
    [reflexivity|].
  destruct (nightModeEnabled (schedule w) && isNightTime w); [reflexivity|].
  destruct ((validUntil (schedule w) <? timeNow w)
            && negb (scheduleExpiredWarned (state w))); cbn [withState schedule];
    destruct (scanSegments _ _ _ _); reflexivity.
Qed.

(** The lookup changes nothing but the expiry-warning flag. *)
Lemma getCurrentColorTemp_world (w : World) :
  snd (getCurrentColorTemp w) = w \/
  snd (getCurrentColorTemp w) = withState (setScheduleExpiredWarned true) w.
Proof.
  unfold getCurrentColorTemp.
  destruct (negb (scheduleLoaded (state w)) || (pointCount (schedule w) =? 0));
    [left; reflexivity|].
  destruct (nightModeEnabled (schedule w) && isNightTime w); [left; reflexivity|].
  destruct ((validUntil (schedule w) <? timeNow w)
            && negb (scheduleExpiredWarned (state w))); cbn [withState schedule];
    destruct (scanSegments _ _ _ _); cbn [snd]; auto.
Qed.

(** The interpolation branch is entered through its guard only. *)
Lemma scanSegments_Some (pts : list Point) (cur : Z) (n : nat) :
  forall (i : nat) (v : Z),
    scanSegments pts cur i n = Some v ->
    exists j : nat,
      (i <= j < i + n)%nat /\
      segmentMatches cur (daySeconds (timestamp (pts !!! j)))
        (daySeconds (timestamp (pts !!! S j))) = true /\
      v = interpolate cur (daySeconds (timestamp (pts !!! j)))
            (daySeconds (timestamp (pts !!! S j)))
            (colorTemp (pts !!! j)) (colorTemp (pts !!! S j)).
Proof.
  induction n as [|n IH]; intros i v H; [discriminate|].
  cbn [scanSegments] in H.
  destruct (segmentMatches cur _ _) eqn:G.
  - exists i. injection H as <-. split; [lia|]. split; [exact G | reflexivity].
  - destruct (IH _ _ H) as (j & Hj & Hg & Hv). exists j. split; [lia|]. auto.
Qed.

(** ** C1: interpolation, flat fallback, default *)

(** C1. For a loaded two-point schedule (day-seconds 0 at 2700K, 43200 at
    6500K) and no night override, [getCurrentColorTemp] returns 4600 when the
    current day-seconds are 21600 and 6500 when they are 50000; and it
    returns the default 3500 at every time when no schedule is loaded or
    [pointCount] is 0. *)
Theorem C1_schedule_lookup :
  (forall w : World,
      twoPointSchedule w -> nightOverrideActive w = false ->
      (daySeconds (timeNow w) = 21600 -> fst (getCurrentColorTemp w) = 4600) /\
      (daySeconds (timeNow w) = 50000 -> fst (getCurrentColorTemp w) = 6500)) /\
  (forall w : World,
      scheduleLoaded (state w) = false \/ pointCount (schedule w) = 0 ->
      fst (getCurrentColorTemp w) = 3500).
Proof.
  split.
  - intros w (Hloaded & Hcount & p0 & p1 & rest & Hpts & Hd0 & Ht0 & Hd1 & Ht1) Hnight.
    unfold nightOverrideActive in Hnight.
    rewrite getCurrentColorTemp_value, Hloaded, Hcount, Hnight.
    cbn [negb orb Z.eqb]. unfold lookupValue. rewrite Hpts, Hcount.
    change (Z.to_nat (2 - 1)) with 1%nat.
    cbn [scanSegments lookup_total list_lookup_total].
    rewrite Hd0, Hd1, Ht0, Ht1.
    split; intros ->; vm_compute; reflexivity.
  - intros w H. rewrite getCurrentColorTemp_value.
    destruct H as [-> | ->]; [reflexivity|].
    rewrite orb_true_r. reflexivity.
Qed.

Lemma sample_twoPointSchedule (night : bool) (minTemp timeout : Z)
    (st : DeviceState) (ms now : Z) :
  scheduleLoaded st = true ->
  twoPointSchedule (sampleWorld (sampleSchedule night minTemp timeout) st ms now).
Proof.
  intros H. split; [exact H|]. split; [reflexivity|].
  eexists _, _, _. split; [reflexivity|]. repeat split; vm_compute; reflexivity.
Qed.

Lemma C1_schedule_lookup_witness :
  fst (getCurrentColorTemp
         (sampleWorld (sampleSchedule false 2000 300) (loadedState true true 0 0)
            5000 (midnight2025 + 21600))) = 4600 /\
  fst (getCurrentColorTemp
         (sampleWorld (sampleSchedule false 2000 300) (loadedState true true 0 0)
            5000 (midnight2025 + 50000))) = 6500 /\
  fst (getCurrentColorTemp
         (sampleWorld initialSchedule initialState 5000 (midnight2025 + 50000))) = 3500.
Proof.
  split; [|split].
  - apply (proj1 C1_schedule_lookup);
      [apply sample_twoPointSchedule; reflexivity | reflexivity | vm_compute; reflexivity].
  - apply (proj1 C1_schedule_lookup);
      [apply sample_twoPointSchedule; reflexivity | reflexivity | vm_compute; reflexivity].
  - apply (proj2 C1_schedule_lookup). left. reflexivity.
Defined.

(** ** C2: the night override *)

(** C2 (as amended). For every loaded schedule with a non-zero
    [pointCount], when [nightModeEnabled] is set and the current time lies
    in the sleep window, [getCurrentColorTemp] returns the constant
    [MIN_COLOR_TEMP_K] of config.h, 1000 K, whatever the points and whatever
    [minColorTemp] the schedule carries; the world is left as it was. *)
Theorem C2_night_override_constant (w : World) :
  scheduleLoaded (state w) = true ->
  pointCount (schedule w) <> 0 ->
  nightModeEnabled (schedule w) = true ->
  isNightTime w = true ->
  getCurrentColorTemp w = (MIN_COLOR_TEMP_K, w) /\ MIN_COLOR_TEMP_K = 1000.
Proof.
  intros Hloaded Hcount Hnight Hin. split; [|reflexivity].
  unfold getCurrentColorTemp. rewrite Hloaded, Hnight, Hin.
  apply Z.eqb_neq in Hcount. rewrite Hcount. reflexivity.
Qed.

Lemma C2_night_override_constant_witness :
  getCurrentColorTemp
    (sampleWorld (sampleSchedule true 2000 300) (loadedState true true 0 0)
       5000 (midnight2025 + 3600))
  = (1000, sampleWorld (sampleSchedule true 2000 300) (loadedState true true 0 0)
             5000 (midnight2025 + 3600)).
Proof.
  refine (proj1 (C2_night_override_constant
                   (sampleWorld (sampleSchedule true 2000 300)
                      (loadedState true true 0 0) 5000 (midnight2025 + 3600))
                   _ _ _ _));
    [reflexivity | discriminate | reflexivity | vm_compute; reflexivity].
Defined.

(** At 01:00 UTC, inside the 22:00-06:00 window of an enabled night mode,
    a schedule whose [minColorTemp] is 2000 K is answered with 1000 K. *)
Lemma C2_night_override_counterexample :
  let w := sampleWorld (sampleSchedule true 2000 300) (loadedState true true 0 0)
             5000 (midnight2025 + 3600) in
  scheduleLoaded (state w) = true /\
  0 < pointCount (schedule w) /\
  nightModeEnabled (schedule w) = true /\
  isNightTime w = true /\
  minColorTemp (schedule w) = 2000 /\
  fst (getCurrentColorTemp w) = 1000 /\
  fst (getCurrentColorTemp w) <> minColorTemp (schedule w).
Proof. vm_compute. repeat split; try reflexivity. discriminate. Qed.

(** ** C10: the divisor of the interpolation *)

(** C10. Whenever the guard of the interpolation branch holds for a pair
    of stored points, at any index of any point array (duplicates and
    out-of-order day-seconds included), the first day-seconds value is
    strictly below the second, the [uint32_t] divisor is strictly positive,
    and its conversion to [float] is a finite non-zero number.  Every value
    that the scan of [getCurrentColorTemp] interpolates is computed at such
    a pair. *)
Theorem C10_interpolation_divisor_positive (w : World) :
  let currentDaySeconds := daySeconds (timeNow w) in
  let daySecondsAt (i : nat) := daySeconds (timestamp (points (schedule w) !!! i)) in
  let tempAt (i : nat) := colorTemp (points (schedule w) !!! i) in
  (forall i : nat,
      segmentMatches currentDaySeconds (daySecondsAt i) (daySecondsAt (S i)) = true ->
      daySecondsAt i < daySecondsAt (S i) /\
      0 < interpDivisor (daySecondsAt i) (daySecondsAt (S i)) /\
      float_is_finite_nonzero
        (float_of_Z (interpDivisor (daySecondsAt i) (daySecondsAt (S i)))) = true) /\
  (forall v : Z,
      scanSegments (points (schedule w)) currentDaySeconds 0
        (Z.to_nat (pointCount (schedule w) - 1)) = Some v ->
      exists i : nat,
        v = interpolate currentDaySeconds (daySecondsAt i) (daySecondsAt (S i))
              (tempAt i) (tempAt (S i)) /\
        0 < interpDivisor (daySecondsAt i) (daySecondsAt (S i)) /\
        float_is_finite_nonzero
          (float_of_Z (interpDivisor (daySecondsAt i) (daySecondsAt (S i)))) = true).
Proof.
  intros cur dayAt tempAt.
  assert (G : forall i : nat,
             segmentMatches cur (dayAt i) (dayAt (S i)) = true ->
             dayAt i < dayAt (S i) /\
             0 < interpDivisor (dayAt i) (dayAt (S i)) /\
             float_is_finite_nonzero
               (float_of_Z (interpDivisor (dayAt i) (dayAt (S i)))) = true).
  { intros i G. unfold segmentMatches in G.
    apply andb_true_iff in G as [G1 G2].
    apply Z.leb_le in G1. apply Z.ltb_lt in G2.
    pose proof (daySeconds_range (timestamp (points (schedule w) !!! i))) as R1.
    pose proof (daySeconds_range (timestamp (points (schedule w) !!! S i))) as R2.
    fold (dayAt i) in R1. fold (dayAt (S i)) in R2.
    assert (E : interpDivisor (dayAt i) (dayAt (S i)) = dayAt (S i) - dayAt i).
    { unfold interpDivisor. apply wrap32_small. unfold two32. lia. }
    rewrite E. split; [lia|]. split; [lia|].
    apply float_of_daySeconds_nonzero. lia. }
  split; [exact G|].
  intros v Hscan.
  destruct (scanSegments_Some _ _ _ _ _ Hscan) as (j & _ & Hg & Hv).
  exists j. split; [exact Hv|]. apply (G j Hg).
Qed.

Lemma C10_interpolation_divisor_positive_witness :
  daySeconds midnight2025 < daySeconds (midnight2025 + 43200) /\
  0 < interpDivisor (daySeconds midnight2025) (daySeconds (midnight2025 + 43200)) /\
  float_is_finite_nonzero
    (float_of_Z (interpDivisor (daySeconds midnight2025)
                   (daySeconds (midnight2025 + 43200)))) = true.
Proof.
  refine (proj1 (C10_interpolation_divisor_positive
                   (sampleWorld (sampleSchedule false 2000 300)
                      (loadedState true true 0 0) 5000 (midnight2025 + 21600)))
            0%nat _).
  vm_compute. reflexivity.
Defined.

(** ** What the collaborator calls leave alone *)


Lemma enterConfigMode_schedule (w : World) :
  schedule (enterConfigMode w) = schedule w.
Proof. unfold enterConfigMode. destruct (isInConfigMode w); reflexivity. Qed.

Lemma enterConfigMode_flag (w : World) :
  isInConfigMode (enterConfigMode w) = true.
Proof. unfold enterConfigMode. destruct (isInConfigMode w) eqn:E; [exact E | reflexivity]. Qed.


(** ** C4: when a time jump refetches the schedule *)




(** ** C3: light expiry on a time jump *)

Lemma fetchSchedule_light (r : GetReply) (w : World) :
  lightIsOn (state (worldOf (fetchSchedule r w))) = lightIsOn (state w) \/
  (isInConfigMode w = false /\ isInConfigMode (worldOf (fetchSchedule r w)) = true).
Proof.
  unfold fetchSchedule; cbv zeta.
  destruct (negb (getWifiUp r)); [left; reflexivity|].
  destruct (getCode r =? HTTP_CODE_UNAUTHORIZED).
  { cbn [worldOf]. unfold enterConfigMode. cbn [isInConfigMode withClock emit].
    destruct (isInConfigMode w); [left; reflexivity | right; split; reflexivity]. }
  destruct (getCode r =? HTTP_CODE_OK); [|left; reflexivity].
  destruct (getBody r) as [|doc]; [left; reflexivity|].
  destruct (parseTime (generated_at doc)); [|left; reflexivity].
  destruct (parseTime (valid_until doc)); [|left; reflexivity].
  destruct (storePoints _ _ _) as [pts [|]]; left; reflexivity.
Qed.

(** When neither scaling to milliseconds leaves the range of
    [unsigned long], a declared jump switches off a light whose last motion
    lies further back than the timeout (unless the refetch that follows
    puts the device into configuration mode). *)
Lemma handleTimeJump_expires_light (r : GetReply) (w : World) :
  timeJumpDeclared w = true ->
  lightIsOn (state w) = true ->
  modeAuto (state w) = true ->
  0 <= motionTimeoutSeconds (schedule w) ->
  motionTimeoutSeconds (schedule w) < secondsSinceMotion w ->
  secondsSinceMotion w * 1000 < two32 ->
  lightIsOn (state (worldOf (handleTimeJump r w))) = false \/
  (isInConfigMode w = false /\ isInConfigMode (worldOf (handleTimeJump r w)) = true).
Proof.
  intros Hj Hon Hauto Hm Hlt Hr.
  unfold handleTimeJump. rewrite Hj, Hon, Hauto. cbn [andb].
  assert (Hcmp : (motionTimeoutMs w <? timeSinceMotion w) = true).
  { unfold motionTimeoutMs, timeSinceMotion. fold (secondsSinceMotion w).
    unfold two32 in *.
    rewrite (wrap32_small (motionTimeoutSeconds (schedule w))) by (unfold two32; lia).
    rewrite !wrap32_small by (unfold two32; lia).
    apply Z.ltb_lt. lia. }
  rewrite Hcmp. cbn [state withState lastKnownTimeSeconds setLightIsOn].
  destruct (_ <? timeNow w).
  - pose proof (fetchSchedule_light r (withState (setLightIsOn false) w)) as F.
    destruct (fetchSchedule r _) as [w2|h w2]; cbn [andThen worldOf] in *;
      cbn [state withState lightIsOn setLastKnownTimeSeconds isInConfigMode setLightIsOn] in *;
      exact F.
  - left. reflexivity.
Qed.

(** C3 (evaluation at the failing input). In [jumpWorld] a jump of 400 s is
    declared against a timeout of 300 s, the light is on in Auto mode and
    the last motion lies 1760936592 s before [now]; the [unsigned long]
    product wraps to 640 ms, which does not exceed 300000 ms, and
    [handleTimeJump] leaves the light on. *)
Lemma C3_wrapped_elapsed_keeps_light_on :
  timeJumpDeclared jumpWorld = true /\
  lightIsOn (state jumpWorld) = true /\
  modeAuto (state jumpWorld) = true /\
  motionTimeoutSeconds (schedule jumpWorld) = 300 /\
  secondsSinceMotion jumpWorld = 1760936592 /\
  timeSinceMotion jumpWorld = 640 /\
  forall r : GetReply,
    exists w' : World,
      handleTimeJump r jumpWorld = Running w' /\ lightIsOn (state w') = true.
Proof.
  repeat (split; [vm_compute; reflexivity|]).
  intros r. eexists. split; reflexivity.
Qed.

(** ** C5: what a failed parse leaves behind *)

(** C5 (as amended). When the payload of a fetch does not deserialize as
    JSON (and the server did not answer 401), the fetch is discarded:
    [fetchSchedule] returns with the schedule, the device state and the
    operating mode as they were. *)
Theorem C5_unparseable_json_discarded (r : GetReply) (w : World) :
  getBody r = DeserializationError ->
  getCode r <> HTTP_CODE_UNAUTHORIZED ->
  exists w' : World,
    fetchSchedule r w = Running w' /\
    schedule w' = schedule w /\
    state w' = state w /\
    isInConfigMode w' = isInConfigMode w.
Proof.
  intros Hbody Hcode. unfold fetchSchedule; cbv zeta. rewrite Hbody.
  apply Z.eqb_neq in Hcode. rewrite Hcode.
  destruct (negb (getWifiUp r)); [eexists; repeat split|].
  destruct (getCode r =? HTTP_CODE_OK); eexists; repeat split.
Qed.

Lemma C5_unparseable_json_discarded_witness :
  exists w' : World,
    fetchSchedule (getReply 200 DeserializationError (mkClock 5200 (midnight2025 + 1)))
      (sampleWorld (sampleSchedule false 2000 300) (loadedState true false 0 midnight2025)
         5000 midnight2025) = Running w' /\
    schedule w' = sampleSchedule false 2000 300 /\
    state w' = loadedState true false 0 midnight2025 /\
    isInConfigMode w' = false.
Proof.
  refine (C5_unparseable_json_discarded
            (getReply 200 DeserializationError (mkClock 5200 (midnight2025 + 1)))
            (sampleWorld (sampleSchedule false 2000 300)
               (loadedState true false 0 midnight2025) 5000 midnight2025) _ _);
    [reflexivity | vm_compute; discriminate].
Defined.

(** A document that lacks "motion_timeout_seconds", and one whose
    "valid_until" text is unparseable, are both committed: the active
    schedule is replaced, with a timeout of 0 in the first case and with
    whatever [mktime] made of the unset [tm] in the second. *)
Lemma C5_malformed_payload_counterexample :
  let w := sampleWorld (sampleSchedule false 2000 300)
             (loadedState true false 0 midnight2025) 5000 midnight2025 in
  let c := mkClock 5200 (midnight2025 + 1) in
  (exists w' : World,
      fetchSchedule (getReply 200 (JsonOk docMissingTimeout) c) w = Running w' /\
      schedule w' <> schedule w /\
      motionTimeoutSeconds (schedule w') = 0 /\
      profileId (schedule w') = 9) /\
  (exists w' : World,
      fetchSchedule (getReply 200 (JsonOk (docBadTimestamp 123456789)) c) w = Running w' /\
      schedule w' <> schedule w /\
      validUntil (schedule w') = 123456789).
Proof.
  split; eexists; (split; [vm_compute; reflexivity|]);
    (split; [intros H; apply (f_equal profileId) in H; vm_compute in H; discriminate|]);
    repeat split.
Qed.

(** ** C9: the potentiometer *)

(** C9. On every pass of [handleBrightnessPot], with [brightness] the
    reading mapped to 0..100: at or below 10 the stored brightness becomes 0
    and the light goes off when the mode is not Auto (and stays as it is in
    Auto); above 10 a Manual-mode light is on afterwards, and the stored
    brightness becomes [brightness] exactly when it differs from the stored
    value by more than 5, and stays otherwise.  Nothing else of the world
    changes. *)
Theorem C9_brightness_pot (reading : Z) (w : World) :
  let brightness := Arduino.map reading 0 ANALOG_MAX_VALUE 0 100 in
  let committed := currentBrightnessPercent (state w) in
  let w' := handleBrightnessPot reading w in
  (brightness <= BRIGHTNESS_OFF_THRESHOLD_PERCENT ->
     currentBrightnessPercent (state w') = 0 /\
     lightIsOn (state w') = (if modeAuto (state w) then lightIsOn (state w) else false)) /\
  (BRIGHTNESS_OFF_THRESHOLD_PERCENT < brightness ->
     lightIsOn (state w') = (if modeAuto (state w) then lightIsOn (state w) else true) /\
     (BRIGHTNESS_CHANGE_THRESHOLD_PERCENT < Z.abs (brightness - committed) ->
        currentBrightnessPercent (state w') = brightness) /\
     (Z.abs (brightness - committed) <= BRIGHTNESS_CHANGE_THRESHOLD_PERCENT ->
        currentBrightnessPercent (state w') = committed)) /\
  modeAuto (state w') = modeAuto (state w) /\
  currentColorTemp (state w') = currentColorTemp (state w) /\
  schedule w' = schedule w /\
  isInConfigMode w' = isInConfigMode w /\
  events w' = events w.
Proof.
  intros brightness committed w'. subst w'. unfold handleBrightnessPot.
  fold brightness. unfold abs. subst committed.
  destruct (brightness <=? BRIGHTNESS_OFF_THRESHOLD_PERCENT) eqn:Eoff.
  - apply Z.leb_le in Eoff.
    destruct (lightIsOn (state w)) eqn:Eon, (modeAuto (state w)) eqn:Eauto;
      cbn [andb negb state withState setBrightness setLightIsOn
           currentBrightnessPercent lightIsOn modeAuto currentColorTemp
           schedule isInConfigMode events];
      rewrite ?Eon, ?Eauto; repeat split; try reflexivity; intros; lia.
  - apply Z.leb_gt in Eoff. apply Z.ltb_lt in Eoff as Eoff'. rewrite Eoff'.
    destruct (lightIsOn (state w)) eqn:Eon, (modeAuto (state w)) eqn:Eauto;
      cbn [andb negb state withState setBrightness setLightIsOn
           currentBrightnessPercent lightIsOn modeAuto currentColorTemp
           schedule isInConfigMode events];
      rewrite ?Eon, ?Eauto;
      destruct (BRIGHTNESS_CHANGE_THRESHOLD_PERCENT
                  <? Z.abs (brightness - currentBrightnessPercent (state w))) eqn:Eh;
      cbn [andb negb state withState setBrightness setLightIsOn
           currentBrightnessPercent lightIsOn modeAuto currentColorTemp
           schedule isInConfigMode events];
      rewrite ?Eon, ?Eauto;
      (apply Z.ltb_lt in Eh || apply Z.ltb_ge in Eh);
      repeat split; try reflexivity; intros; lia.
Qed.

Lemma C9_brightness_pot_witness :
  currentBrightnessPercent
    (state (handleBrightnessPot 400
              (sampleWorld (sampleSchedule false 2000 300)
                 (loadedState false true 0 midnight2025) 5000 midnight2025))) = 0 /\
  lightIsOn
    (state (handleBrightnessPot 400
              (sampleWorld (sampleSchedule false 2000 300)
                 (loadedState false true 0 midnight2025) 5000 midnight2025))) = false.
Proof.
  refine (proj1 (C9_brightness_pot 400
                   (sampleWorld (sampleSchedule false 2000 300)
                      (loadedState false true 0 midnight2025) 5000 midnight2025)) _).
  vm_compute. discriminate.
Defined.

(** ** What [sendTelemetry] changes *)

Ltac telemetry_cases r w :=
  unfold sendTelemetry, enterConfigMode, TELEMETRY;
  cbn [negb];
  destruct (wrap32 (millisNow (emit _ w) - lastTelemetryMs (emit _ w))
              <? TELEMETRY_DEBOUNCE_MS);
  [| destruct (negb (postWifiUp r));
     [| destruct (postCode r =? HTTP_CODE_UNAUTHORIZED);
        [cbn [isInConfigMode withClock emit withLastTelemetryMs];
         destruct (isInConfigMode w) eqn:?|] ] ].

Lemma sendTelemetry_flag_kept (t : string) (m : bool) (r : PostReply) (w : World) :
  isInConfigMode w = true -> isInConfigMode (sendTelemetry t m r w) = true.
Proof. intros H. telemetry_cases r w; cbn; try exact H; congruence. Qed.

(** Unless it enters configuration mode, a telemetry call leaves the
    device state alone. *)
Lemma sendTelemetry_state (t : string) (m : bool) (r : PostReply) (w : World) :
  isInConfigMode (sendTelemetry t m r w) = isInConfigMode w ->
  state (sendTelemetry t m r w) = state w.
Proof. telemetry_cases r w; cbn; try reflexivity; congruence. Qed.

Lemma sendTelemetry_kept (t : string) (m : bool) (r : PostReply) (w : World) :
  modeAuto (state (sendTelemetry t m r w)) = modeAuto (state w) /\
  motionLastSeenMs (state (sendTelemetry t m r w)) = motionLastSeenMs (state w) /\
  scheduleLoaded (state (sendTelemetry t m r w)) = scheduleLoaded (state w) /\
  schedule (sendTelemetry t m r w) = schedule w /\
  lastButtonState (sendTelemetry t m r w) = lastButtonState w /\
  lastButtonPressMs (sendTelemetry t m r w) = lastButtonPressMs w.
Proof. telemetry_cases r w; cbn; repeat split; reflexivity. Qed.

Lemma sendTelemetry_calls (t : string) (m : bool) (r : PostReply) (w : World) :
  telemetryCalls t (sendTelemetry t m r w) = S (telemetryCalls t w).
Proof.
  unfold telemetryCalls.
  telemetry_cases r w;
    cbn [events emit withLastTelemetryMs withClock withState withConfigMode
         List.filter isTelemetry];
    rewrite String.eqb_refl; reflexivity.
Qed.

(** When the debounce window has passed and WiFi is up, the document is
    posted, with the light, brightness and colour temperature of that
    moment; a colour temperature below the API minimum is left out. *)
Lemma sendTelemetry_posts_when_due (t : string) (m : bool) (r : PostReply) (w : World) :
  TELEMETRY_DEBOUNCE_MS <= wrap32 (millisNow w - lastTelemetryMs w) ->
  postWifiUp r = true ->
  In (EvPost t m (lightIsOn (state w)) (currentBrightnessPercent (state w))
        (if API_MIN_TEMP_CONSTRAINT_K <=? currentColorTemp (state w)
         then Some (currentColorTemp (state w)) else None))
     (events (sendTelemetry t m r w)) /\
  lastTelemetryMs (sendTelemetry t m r w) = millisNow w.
Proof.
  intros Hdue Hup. unfold sendTelemetry, TELEMETRY. cbn [negb].
  change (millisNow (emit (EvTelemetry t m) w)) with (millisNow w).
  change (lastTelemetryMs (emit (EvTelemetry t m) w)) with (lastTelemetryMs w).
  replace (_ <? TELEMETRY_DEBOUNCE_MS) with false by (symmetry; apply Z.ltb_ge; lia).
  rewrite Hup. cbn [negb].
  destruct (postCode r =? HTTP_CODE_UNAUTHORIZED).
  - unfold enterConfigMode. cbn [isInConfigMode withClock emit withLastTelemetryMs].
    destruct (isInConfigMode w); cbn; auto.
  - cbn. auto.
Qed.

Ltac telemetry_split t m r w :=
  unfold sendTelemetry, enterConfigMode, TELEMETRY;
  cbn [negb];
  change (millisNow (emit (EvTelemetry t m) w)) with (millisNow w);
  change (lastTelemetryMs (emit (EvTelemetry t m) w)) with (lastTelemetryMs w);
  destruct (wrap32 (millisNow w - lastTelemetryMs w) <? TELEMETRY_DEBOUNCE_MS);
  [| destruct (postWifiUp r);
     [ destruct (postCode r =? HTTP_CODE_UNAUTHORIZED);
       [cbn [isInConfigMode withClock emit withLastTelemetryMs];
        destruct (isInConfigMode w) eqn:?|] |] ].

(** Which documents a call adds to those posted. *)
Lemma sendTelemetry_posted (t : string) (m : bool) (r : PostReply) (w : World) :
  posts (sendTelemetry t m r w) =
    if telemetryPosted r w then telemetryDocument t m w :: posts w else posts w.
Proof.
  unfold posts, telemetryPosted, telemetryDue, telemetryDocument.
  rewrite Z.leb_antisym. telemetry_split t m r w; cbn; reflexivity.
Qed.

(** A call either enters configuration mode, with its warning light, or
    leaves state and mode alone. *)
Lemma sendTelemetry_outcome (t : string) (m : bool) (r : PostReply) (w : World) :
  if telemetryRejected r w
  then warningLight (sendTelemetry t m r w)
  else state (sendTelemetry t m r w) = state w /\
       isInConfigMode (sendTelemetry t m r w) = isInConfigMode w.
Proof.
  unfold telemetryRejected, telemetryPosted, telemetryDue, warningLight.
  rewrite Z.leb_antisym. telemetry_split t m r w; cbn; repeat split; congruence.
Qed.

(** ** C7: configuration mode is kept *)

Lemma fetchSchedule_flag_kept (r : GetReply) : keepsConfigMode (fetchSchedule r).
Proof.
  intros w H. unfold fetchSchedule; cbv zeta.
  destruct (negb (getWifiUp r)); [exact H|].
  destruct (getCode r =? HTTP_CODE_UNAUTHORIZED);
    [cbn [worldOf]; apply enterConfigMode_flag|].
  destruct (getCode r =? HTTP_CODE_OK); [|exact H].
  destruct (getBody r) as [|doc]; [exact H|].
  destruct (parseTime (generated_at doc)); [|exact H].
  destruct (parseTime (valid_until doc)); [|exact H].
  destruct (storePoints _ _ _) as [pts [|]]; exact H.
Qed.

Lemma setSerialCommands_flag_kept (line : option SerialCommand) (r : GetReply) :
  keepsConfigMode (setSerialCommands line r).
Proof.
  intros w H. unfold setSerialCommands.
  destruct line as [[| | |[t|]|]|]; try exact H.
  apply fetchSchedule_flag_kept. exact H.
Qed.

Lemma handleTimeJump_flag_kept (r : GetReply) : keepsConfigMode (handleTimeJump r).
Proof.
  intros w H. unfold handleTimeJump.
  destruct (timeJumpDeclared w); [|exact H].
  set (w1 := if lightIsOn (state w) && modeAuto (state w) then _ else _).
  assert (H1 : isInConfigMode w1 = true).
  { subst w1. destruct (lightIsOn (state w) && modeAuto (state w)); [|exact H].
    destruct (motionTimeoutMs w <? timeSinceMotion w); exact H. }
  destruct (_ <? timeNow w); [|exact H1].
  pose proof (fetchSchedule_flag_kept r w1 H1) as F.
  destruct (fetchSchedule r w1); exact F.
Qed.

Lemma handleButton_flag_kept (level : bool) (r : PostReply) :
  keepsConfigMode (fun w => Running (handleButton level r w)).
Proof.
  intros w H. cbn [worldOf]. unfold handleButton.
  destruct (buttonAccepted level w); [|exact H].
  cbn [isInConfigMode withLastButtonState withLastButtonPressMs].
  apply sendTelemetry_flag_kept.
  destruct (modeAuto (state (withState _ w))); exact H.
Qed.

Lemma getCurrentColorTemp_flag (w : World) :
  isInConfigMode (snd (getCurrentColorTemp w)) = isInConfigMode w.
Proof. destruct (getCurrentColorTemp_world w) as [-> | ->]; reflexivity. Qed.

Lemma handleMotion_flag_kept (motion : bool) (r : PostReply) :
  keepsConfigMode (fun w => Running (handleMotion motion r w)).
Proof.
  intros w H. cbn [worldOf]. unfold handleMotion.
  destruct (negb (modeAuto (state w))); [exact H|].
  destruct motion.
  - set (w1 := if negb (lightIsOn (state w)) then _ else _).
    assert (H1 : isInConfigMode w1 = true).
    { subst w1. destruct (negb (lightIsOn (state w))); [|exact H].
      apply sendTelemetry_flag_kept. exact H. }
    set (w2 := withState (setMotionLastSeenMs _) _).
    pose proof (getCurrentColorTemp_flag w2) as G.
    destruct (getCurrentColorTemp w2) as [temp w3]. cbn [snd] in G.
    cbn [isInConfigMode withState]. rewrite G. exact H1.
  - destruct (lightIsOn (state w) && _); [|exact H].
    apply sendTelemetry_flag_kept. exact H.
Qed.

Lemma handleBrightnessPot_flag_kept (reading : Z) :
  keepsConfigMode (fun w => Running (handleBrightnessPot reading w)).
Proof.
  intros w H. cbn [worldOf]. unfold handleBrightnessPot.
  destruct (_ <=? BRIGHTNESS_OFF_THRESHOLD_PERCENT).
  - destruct (lightIsOn (state w) && negb (modeAuto (state w))); exact H.
  - destruct (negb (modeAuto (state w)) && negb (lightIsOn (state w)) && _);
      destruct (BRIGHTNESS_CHANGE_THRESHOLD_PERCENT <? _); exact H.
Qed.

(** One pass of [loop] in configuration mode: the world stays as it is
    (the clocks apart), or the device restarts on an accepted credential. *)
Lemma loop_in_config_mode (i : TickInput) (w : World) :
  isInConfigMode w = true ->
  match loop i w with
  | Running w' => w' = withClock (tickClock i) w
  | Halted h w' =>
      exists key : string,
        h = RestartKeySaved key /\
        Z.of_nat (String.length key) = API_KEY_LENGTH /\
        storedApiKey w' = key /\ isInConfigMode w' = true
  end.
Proof.
  intros H. unfold loop. cbn [isInConfigMode withClock]. rewrite H.
  unfold handleClient.
  destruct (webRequest i) as [| |[apikey|]|]; try reflexivity.
  destruct (Z.of_nat (String.length (trim apikey)) =? API_KEY_LENGTH) eqn:E;
    [|reflexivity].
  exists (trim apikey). apply Z.eqb_eq in E. cbn. auto.
Qed.

(** From a world in configuration mode, any sequence of passes of [loop],
    whatever the buttons, sensors, serial lines and network replies, either
    keeps running with the flag set and with state, schedule and event log
    untouched, or stops by the restart that follows an accepted credential
    of the required length. *)
Lemma runLoop_in_config_mode (inputs : list TickInput) :
  forall w : World,
    isInConfigMode w = true ->
    match runLoop inputs w with
    | Running w' =>
        isInConfigMode w' = true /\ state w' = state w /\
        schedule w' = schedule w /\ events w' = events w
    | Halted h w' =>
        isInConfigMode w' = true /\
        exists key : string,
          h = RestartKeySaved key /\ Z.of_nat (String.length key) = API_KEY_LENGTH
    end.
Proof.
  induction inputs as [|i rest IH]; intros w H.
  - cbn [runLoop]. auto.
  - cbn [runLoop]. pose proof (loop_in_config_mode i w H) as L.
    destruct (loop i w) as [w1|h w1]; cbn [andThen].
    + subst w1. specialize (IH (withClock (tickClock i) w) H).
      destruct (runLoop rest _) as [w2|h w2]; exact IH.
    + destruct L as (key & -> & Hlen & _ & Hflag). eauto.
Qed.

(** C7 (evaluation at the failing input). [refreshDueWorld] is in normal
    operation.  In the pass [rejectedThenFaultingTick] the "motion_detected"
    post is answered 401 and [sendTelemetry] enters configuration mode; the
    pass goes on, the hourly refresh is due, and [fetchSchedule] meets a
    document whose third entry has no "utc": [strptime] is handed a null
    pointer and the sketch stops with the flag set.  No credential was
    saved; [setup], run again with the key the preferences held before and
    a well-formed schedule, ends in normal operation. *)
Lemma C7_crash_restart_leaves_config_mode :
  isInConfigMode refreshDueWorld = false /\
  exists w' : World,
    loop rejectedThenFaultingTick refreshDueWorld = Halted NullDereference w' /\
    isInConfigMode w' = true /\
    In EvServerBegin (events w') /\
    storedApiKey w' = storedApiKey refreshDueWorld /\
    forall bootClock c : Clock,
      exists w'' : World,
        setup bootClock (storedApiKey w') (getReply 200 (JsonOk sampleDoc) c)
          = Running w'' /\
        isInConfigMode w'' = false /\
        scheduleLoaded (state w'') = true /\
        currentApiKey w'' = currentApiKey refreshDueWorld.
Proof.
  split; [reflexivity|].
  eexists. split; [vm_compute; reflexivity|].
  split; [reflexivity|].
  split; [cbn; auto|].
  split; [reflexivity|].
  intros bootClock c. eexists. split; [vm_compute; reflexivity|].
  repeat split.
Qed.

(** ** C8: the button *)

Lemma handleButton_accepted (level : bool) (r : PostReply) (w : World) :
  buttonAccepted level w = true ->
  handleButton level r w =
    withLastButtonState level
      (withLastButtonPressMs
         (millisNow (sendTelemetry "mode_change" false r (toggleMode w)))
         (sendTelemetry "mode_change" false r (toggleMode w))).
Proof. intros H. unfold handleButton. rewrite H. reflexivity. Qed.

Lemma handleButton_rejected (level : bool) (r : PostReply) (w : World) :
  buttonAccepted level w = false ->
  handleButton level r w = withLastButtonState level w.
Proof. intros H. unfold handleButton. rewrite H. reflexivity. Qed.

Lemma toggleMode_effect (w : World) :
  modeAuto (state (toggleMode w)) = negb (modeAuto (state w)) /\
  isInConfigMode (toggleMode w) = isInConfigMode w /\
  (modeAuto (state (toggleMode w)) = true -> lightIsOn (state (toggleMode w)) = false) /\
  (modeAuto (state (toggleMode w)) = false ->
     lightIsOn (state (toggleMode w)) = true /\
     currentColorTemp (state (toggleMode w)) = DEFAULT_COLOR_TEMP_K).
Proof.
  destruct w as [[[|] on ? ? ? ? ? ?] ? ? ? ? ? ? ? ? ? ?];
    cbn; repeat split; auto; intros; discriminate.
Qed.

Lemma buttonAccepted_true (level : bool) (w : World) :
  buttonAccepted level w = true ->
  level = LOW /\ lastButtonState w = HIGH /\
  BUTTON_DEBOUNCE_MS < wrap32 (millisNow w - lastButtonPressMs w).
Proof.
  unfold buttonAccepted. intros H.
  apply andb_true_iff in H as [H H3]. apply andb_true_iff in H as [H1 H2].
  apply Z.ltb_lt in H3. destruct level; [discriminate|]. auto.
Qed.

(** Readings within the debounce window change neither the mode nor the
    stamp. *)
Lemma pollButton_within_debounce (samples : list PinSample) :
  forall w : World,
    0 <= lastButtonPressMs w ->
    Forall (withinDebounce (lastButtonPressMs w)) samples ->
    modeAuto (state (pollButton samples w)) = modeAuto (state w) /\
    lastButtonPressMs (pollButton samples w) = lastButtonPressMs w.
Proof.
  induction samples as [|s rest IH]; intros w Hs Hall; [split; reflexivity|].
  inversion Hall as [|? ? [Hin Hlt] Hrest]; subst.
  cbn [pollButton].
  assert (Hrej : buttonAccepted (sampleLevel s) (withClock (sampleClock s) w) = false).
  { unfold buttonAccepted, millisNow. cbn [clock withClock lastButtonPressMs lastButtonState].
    unfold BUTTON_DEBOUNCE_MS in *.
    rewrite (wrap32_small (millis (sampleClock s))) by lia.
    rewrite wrap32_small by (unfold two32 in *; lia).
    replace (200 <? _) with false by (symmetry; apply Z.ltb_ge; lia).
    apply andb_false_r. }
  rewrite (handleButton_rejected _ _ _ Hrej).
  apply (IH (withLastButtonState (sampleLevel s) (withClock (sampleClock s) w)));
    [exact Hs | exact Hrest].
Qed.

Lemma toggleMode_frame (w : World) :
  clock (toggleMode w) = clock w /\
  lastTelemetryMs (toggleMode w) = lastTelemetryMs w /\
  events (toggleMode w) = events w /\
  lastButtonPressMs (toggleMode w) = lastButtonPressMs w.
Proof.
  unfold toggleMode. cbn [state withState modeAuto setModeAuto].
  destruct (negb (modeAuto (state w))); repeat split.
Qed.

Lemma toggleMode_telemetry (r : PostReply) (w : World) :
  telemetryPosted r (toggleMode w) = telemetryPosted r w /\
  telemetryRejected r (toggleMode w) = telemetryRejected r w.
Proof.
  destruct (toggleMode_frame w) as (Hc & Ht & _).
  destruct (toggleMode_effect w) as (_ & Hf & _).
  unfold telemetryRejected, telemetryPosted, telemetryDue, millisNow.
  rewrite Hc, Ht, Hf. split; reflexivity.
Qed.

(** With the button recorded as down, readings with the button down
    change nothing but the clock. *)
Lemma pollButton_held (samples : list PinSample) :
  forall w : World,
    lastButtonState w = LOW ->
    Forall buttonHeld samples ->
    state (pollButton samples w) = state w /\
    events (pollButton samples w) = events w /\
    lastButtonPressMs (pollButton samples w) = lastButtonPressMs w /\
    isInConfigMode (pollButton samples w) = isInConfigMode w.
Proof.
  induction samples as [|s rest IH]; intros w Hlow Hall; [repeat split|].
  inversion Hall as [|? ? Hs Hrest]; subst. cbn [pollButton].
  assert (Hrej : buttonAccepted (sampleLevel s) (withClock (sampleClock s) w) = false).
  { unfold buttonAccepted. cbn [lastButtonState withClock]. rewrite Hlow.
    rewrite andb_false_r. reflexivity. }
  rewrite (handleButton_rejected _ _ _ Hrej).
  apply (IH (withLastButtonState (sampleLevel s) (withClock (sampleClock s) w)));
    [exact Hs | exact Hrest].
Qed.

(** C8 (as amended). (1) [handleButton] changes the mode only on a falling
    edge (level LOW after HIGH) more than 200 ms after the stamp of the
    previously accepted press.  (2) Every reading is recorded as the last
    button level, and a reading that is not accepted changes nothing else.
    (3) An accepted press toggles the mode, hands one "mode_change" event
    to [sendTelemetry] (posted when the rate limit lets it through and
    WiFi is up, reporting the light as the toggle left it), and stamps
    [lastButtonPressMs] with [millis()] as it stands afterwards.  Unless
    that post is answered 401 with the device not yet in configuration
    mode, the new mode Auto leaves the light off and the new mode Manual
    leaves it on at [DEFAULT_COLOR_TEMP_K]; in the 401 case the device is
    in configuration mode with the light on at [MIN_COLOR_TEMP_K] and
    brightness 50, whichever mode was entered.  (4) After an accepted
    press, further readings taken within 200 ms of its stamp, however many
    and whatever their levels, leave the mode where that one toggle put it.
    (5) While the button is held down after a recorded LOW, no reading
    toggles the mode or reports anything, however late it is taken. *)
Theorem C8_button_debounce_toggle :
  (forall (level : bool) (r : PostReply) (w : World),
      modeAuto (state (handleButton level r w)) <> modeAuto (state w) ->
      level = LOW /\ lastButtonState w = HIGH /\
      BUTTON_DEBOUNCE_MS < wrap32 (millisNow w - lastButtonPressMs w)) /\
  (forall (level : bool) (r : PostReply) (w : World),
      lastButtonState (handleButton level r w) = level /\
      (buttonAccepted level w = false ->
         handleButton level r w = withLastButtonState level w)) /\
  (forall (level : bool) (r : PostReply) (w : World),
      buttonAccepted level w = true ->
      let w' := handleButton level r w in
      modeAuto (state w') = negb (modeAuto (state w)) /\
      lastButtonPressMs w' = millisNow w' /\
      telemetryCalls "mode_change" w' = S (telemetryCalls "mode_change" w) /\
      posts w' =
        (if telemetryPosted r w
         then telemetryDocument "mode_change" false (toggleMode w) :: posts w
         else posts w) /\
      (if telemetryRejected r w
       then warningLight w'
       else isInConfigMode w' = isInConfigMode w /\
            lightIsOn (state w') = negb (modeAuto (state w')) /\
            (modeAuto (state w') = false ->
               currentColorTemp (state w') = DEFAULT_COLOR_TEMP_K))) /\
  (forall (level : bool) (r : PostReply) (w : World) (samples : list PinSample),
      buttonAccepted level w = true ->
      let w1 := handleButton level r w in
      Forall (withinDebounce (lastButtonPressMs w1)) samples ->
      modeAuto (state (pollButton samples w1)) = negb (modeAuto (state w))) /\
  (forall (w : World) (samples : list PinSample),
      lastButtonState w = LOW ->
      Forall buttonHeld samples ->
      modeAuto (state (pollButton samples w)) = modeAuto (state w) /\
      events (pollButton samples w) = events w).
Proof.
  assert (Hmode : forall level r w, buttonAccepted level w = true ->
            modeAuto (state (handleButton level r w)) = negb (modeAuto (state w))).
  { intros level r w Hacc. rewrite (handleButton_accepted _ _ _ Hacc).
    cbn [state withLastButtonState withLastButtonPressMs].
    rewrite (proj1 (sendTelemetry_kept _ _ _ _)).
    apply toggleMode_effect. }
  split; [|split; [|split; [|split]]].
  - intros level r w Hchg.
    destruct (buttonAccepted level w) eqn:Hacc.
    + apply buttonAccepted_true. exact Hacc.
    + rewrite (handleButton_rejected _ _ _ Hacc) in Hchg. contradiction Hchg. reflexivity.
  - intros level r w. split; [reflexivity|]. apply handleButton_rejected.
  - intros level r w Hacc w'.
    split; [apply Hmode; exact Hacc|].
    assert (Hm : modeAuto (state w') = negb (modeAuto (state w)))
      by (apply Hmode; exact Hacc).
    subst w'. rewrite (handleButton_accepted _ _ _ Hacc) in *.
    destruct (toggleMode_frame w) as (_ & _ & Hev & _).
    destruct (toggleMode_telemetry r w) as [Hposted Hrejected].
    destruct (toggleMode_effect w) as (Htm & Hf & Hauto & Hman).
    split; [reflexivity|].
    split.
    { unfold telemetryCalls at 1.
      cbn [events withLastButtonState withLastButtonPressMs].
      fold (telemetryCalls "mode_change"
              (sendTelemetry "mode_change" false r (toggleMode w))).
      rewrite sendTelemetry_calls. unfold telemetryCalls. rewrite Hev. reflexivity. }
    split.
    { unfold posts at 1.
      cbn [events withLastButtonState withLastButtonPressMs].
      fold (posts (sendTelemetry "mode_change" false r (toggleMode w))).
      rewrite sendTelemetry_posted, Hposted. unfold posts. rewrite Hev. reflexivity. }
    pose proof (sendTelemetry_outcome "mode_change" false r (toggleMode w)) as Hout.
    rewrite Hrejected in Hout.
    destruct (telemetryRejected r w).
    + exact Hout.
    + destruct Hout as [Hst Hfl].
      cbn [state isInConfigMode withLastButtonState withLastButtonPressMs] in *.
      rewrite Hst in *. rewrite Hfl, Hf.
      split; [reflexivity|].
      destruct (modeAuto (state (toggleMode w))) eqn:E; cbn [negb].
      * split; [apply Hauto; reflexivity | discriminate].
      * destruct (Hman eq_refl) as [Hon Hcol]. split; [exact Hon | intros _; exact Hcol].
  - intros level r w samples Hacc w1 Hall.
    rewrite <- (Hmode level r w Hacc). fold w1.
    apply pollButton_within_debounce; [|exact Hall].
    subst w1. rewrite (handleButton_accepted _ _ _ Hacc).
    cbn [lastButtonPressMs withLastButtonState withLastButtonPressMs].
    apply wrap32_range.
  - intros w samples Hlow Hall.
    destruct (pollButton_held samples w Hlow Hall) as (Hs & He & _).
    rewrite Hs. split; [reflexivity | exact He].
Qed.

(** A press in Manual mode, 10 s after boot, answered 200 at 10040 ms:
    the device is in Auto mode with the light off, the press is stamped
    10040 and recorded as LOW, one document has gone out; the bounce 110 ms
    later and the button held for 20 s change nothing. *)
Lemma C8_button_debounce_toggle_witness :
  let w' := handleButton LOW (postReply 200 (mkClock 10040 midnight2025)) manualWorld in
  modeAuto (state w') = true /\
  lightIsOn (state w') = false /\
  lastButtonPressMs w' = 10040 /\
  lastButtonState w' = LOW /\
  posts w' = [EvPost "mode_change" false false 60 (Some 3500)] /\
  modeAuto (state (pollButton bounce w')) = true /\
  modeAuto (state (pollButton held w')) = true.
Proof.
  intros w'.
  destruct C8_button_debounce_toggle as (_ & Hrec & Hacc & Hbounce & Hheld).
  pose proof (Hacc LOW (postReply 200 (mkClock 10040 midnight2025)) manualWorld eq_refl)
    as H3.
  pose proof (Hbounce LOW (postReply 200 (mkClock 10040 midnight2025)) manualWorld
                bounce eq_refl) as H4.
  cbv zeta in H3, H4. fold w' in H3, H4.
  destruct H3 as (Hm & Hstamp & _ & Hposts & Hlight).
  change (telemetryRejected (postReply 200 (mkClock 10040 midnight2025)) manualWorld)
    with false in Hlight.
  destruct Hlight as (_ & Hon & _).
  split; [exact Hm|].
  split; [rewrite Hon, Hm; reflexivity|].
  split; [rewrite Hstamp; reflexivity|].
  split; [apply (proj1 (Hrec LOW (postReply 200 (mkClock 10040 midnight2025))
                          manualWorld))|].
  split; [rewrite Hposts; reflexivity|].
  split.
  - apply H4. repeat constructor; vm_compute; congruence.
  - rewrite (proj1 (Hheld w' held eq_refl ltac:(repeat constructor))). exact Hm.
Defined.

(** A "mode_change" post answered 401: the press that enters Auto leaves
    the light on, and the press that enters Manual leaves it at 1000 K
    instead of the default 3500 K. *)
Lemma C8_rejected_post_counterexample :
  let r := postReply 401 (mkClock 10040 midnight2025) in
  (buttonAccepted LOW manualWorld = true /\
   modeAuto (state (handleButton LOW r manualWorld)) = true /\
   lightIsOn (state (handleButton LOW r manualWorld)) = true) /\
  (buttonAccepted LOW darkWorld = true /\
   modeAuto (state (handleButton LOW r darkWorld)) = false /\
   currentColorTemp (state (handleButton LOW r darkWorld)) = 1000 /\
   DEFAULT_COLOR_TEMP_K = 3500).
Proof. vm_compute. repeat split. Qed.

(** ** C6: motion in Auto mode *)

(** The lookup reads the loaded flag, the schedule and the clock only. *)
Lemma getCurrentColorTemp_reads (a b : World) :
  scheduleLoaded (state a) = scheduleLoaded (state b) ->
  schedule a = schedule b ->
  clock a = clock b ->
  fst (getCurrentColorTemp a) = fst (getCurrentColorTemp b).
Proof.
  intros Hl Hs Hc. rewrite !getCurrentColorTemp_value.
  unfold isNightTime, lookupValue, timeNow. rewrite Hl, Hs, Hc. reflexivity.
Qed.

Lemma handleMotion_rising (r : PostReply) (w : World) :
  modeAuto (state w) = true ->
  lightIsOn (state w) = false ->
  let w1 := sendTelemetry "motion_detected" true r w in
  let w2 := withState (setMotionLastSeenMs (millisNow w1))
              (withState (setLightIsOn true) w1) in
  handleMotion true r w =
    withState (setColorTemp (fst (getCurrentColorTemp w2))) (snd (getCurrentColorTemp w2)).
Proof.
  intros Hauto Hoff w1 w2. unfold handleMotion. rewrite Hauto, Hoff. cbn [negb].
  fold w1. change (millisNow (withState (setLightIsOn true) w1)) with (millisNow w1).
  fold w2. destruct (getCurrentColorTemp w2). reflexivity.
Qed.

Lemma motion_timer_compare (w : World) :
  timerInRange w ->
  (motionTimeoutMs w <? wrap32 (millisNow w - motionLastSeenMs (state w))) =
  (motionTimeoutSeconds (schedule w) * 1000 <? elapsedSinceMotion w).
Proof.
  intros H. unfold timerInRange in H. unfold motionTimeoutMs, elapsedSinceMotion.
  rewrite (wrap32_small (motionTimeoutSeconds (schedule w))) by (unfold two32; lia).
  rewrite (wrap32_small (_ * 1000)) by (unfold two32; lia).
  reflexivity.
Qed.

Lemma handleMotion_dark_idle (r : PostReply) (w : World) :
  lightIsOn (state w) = false -> handleMotion false r w = w.
Proof.
  intros Hoff. unfold handleMotion. rewrite Hoff.
  destruct (negb (modeAuto (state w))); reflexivity.
Qed.

(** Without motion, a dark light stays dark and nothing is reported. *)
Lemma pollMotion_dark (samples : list PinSample) :
  forall w : World,
    lightIsOn (state w) = false ->
    Forall motionAbsent samples ->
    state (pollMotion samples w) = state w /\
    events (pollMotion samples w) = events w.
Proof.
  induction samples as [|s rest IH]; intros w Hoff Hall; [split; reflexivity|].
  inversion Hall as [|? ? Hs Hrest]; subst. cbn [pollMotion].
  unfold motionAbsent in Hs. rewrite Hs.
  rewrite handleMotion_dark_idle by exact Hoff.
  apply (IH (withClock (sampleClock s) w)); [exact Hoff | exact Hrest].
Qed.

(** What the lookup leaves of the world. *)
Lemma getCurrentColorTemp_keeps (w : World) :
  events (snd (getCurrentColorTemp w)) = events w /\
  isInConfigMode (snd (getCurrentColorTemp w)) = isInConfigMode w /\
  lightIsOn (state (snd (getCurrentColorTemp w))) = lightIsOn (state w) /\
  motionLastSeenMs (state (snd (getCurrentColorTemp w))) = motionLastSeenMs (state w) /\
  clock (snd (getCurrentColorTemp w)) = clock w.
Proof. destruct (getCurrentColorTemp_world w) as [-> | ->]; repeat split. Qed.

(** Motion on a lit light: the stamp is renewed, nothing is reported. *)
Lemma handleMotion_continuing (r : PostReply) (w : World) :
  modeAuto (state w) = true ->
  lightIsOn (state w) = true ->
  let w2 := withState (setMotionLastSeenMs (millisNow w))
              (withState (setLightIsOn true) w) in
  handleMotion true r w =
    withState (setColorTemp (fst (getCurrentColorTemp w2))) (snd (getCurrentColorTemp w2)).
Proof.
  intros Hauto Hon w2. unfold handleMotion. rewrite Hauto, Hon. cbn [negb].
  change (millisNow (withState (setLightIsOn true) w)) with (millisNow w).
  fold w2. destruct (getCurrentColorTemp w2). reflexivity.
Qed.

(** C6 (as amended). In Auto mode: (1) motion on a dark light switches it
    on, stamps [motionLastSeenMs] with [millis()], sets the colour
    temperature to what [getCurrentColorTemp] yields, and hands one
    "motion_detected" event to [sendTelemetry]; the document goes out
    exactly when the rate limit lets it through and WiFi is up, and it
    reports the light as it was before.  (2) Motion on a lit light renews
    the stamp and the colour temperature and reports nothing.  (3) With a
    timeout between 0 and 4294967 s, a lit light without motion is left
    alone while the milliseconds since the stamp do not exceed
    [motionTimeoutSeconds * 1000].  (4) Once they do, one "motion_timeout"
    event is handed over (posted under the same condition, reporting the
    light as off), and the light is off unless that post is answered 401
    with the device not yet in configuration mode; then the device is in
    configuration mode with its warning light on.  In the first case
    further readings without motion change no state and report nothing; in
    the second, further passes of [loop] change no state and report
    nothing.  (5) In Manual mode the handler changes nothing, whatever the
    sensor reads. *)
Theorem C6_motion_logic :
  (forall (r : PostReply) (w : World),
      modeAuto (state w) = true ->
      lightIsOn (state w) = false ->
      let w' := handleMotion true r w in
      lightIsOn (state w') = true /\
      motionLastSeenMs (state w') = millisNow w' /\
      currentColorTemp (state w') = fst (getCurrentColorTemp w') /\
      telemetryCalls "motion_detected" w' = S (telemetryCalls "motion_detected" w) /\
      posts w' =
        (if telemetryPosted r w
         then telemetryDocument "motion_detected" true w :: posts w
         else posts w)) /\
  (forall (r : PostReply) (w : World),
      modeAuto (state w) = true ->
      lightIsOn (state w) = true ->
      let w' := handleMotion true r w in
      lightIsOn (state w') = true /\
      motionLastSeenMs (state w') = millisNow w /\
      currentColorTemp (state w') = fst (getCurrentColorTemp w') /\
      events w' = events w /\
      isInConfigMode w' = isInConfigMode w) /\
  (forall (r : PostReply) (w : World),
      modeAuto (state w) = true ->
      lightIsOn (state w) = true ->
      timerInRange w ->
      elapsedSinceMotion w <= motionTimeoutSeconds (schedule w) * 1000 ->
      handleMotion false r w = w) /\
  (forall (r : PostReply) (w : World),
      modeAuto (state w) = true ->
      lightIsOn (state w) = true ->
      timerInRange w ->
      motionTimeoutSeconds (schedule w) * 1000 < elapsedSinceMotion w ->
      let w' := handleMotion false r w in
      telemetryCalls "motion_timeout" w' = S (telemetryCalls "motion_timeout" w) /\
      posts w' =
        (if telemetryPosted r w
         then telemetryDocument "motion_timeout" false
                (withState (setLightIsOn false) w) :: posts w
         else posts w) /\
      lightIsOn (state w') = telemetryRejected r w /\
      (if telemetryRejected r w
       then
         warningLight w' /\
         forall inputs : list TickInput,
           match runLoop inputs w' with
           | Running w'' => state w'' = state w' /\ events w'' = events w'
           | Halted h _ => exists key : string, h = RestartKeySaved key
           end
       else
         isInConfigMode w' = isInConfigMode w /\
         forall samples : list PinSample,
           Forall motionAbsent samples ->
           state (pollMotion samples w') = state w' /\
           events (pollMotion samples w') = events w')) /\
  (forall (motion : bool) (r : PostReply) (w : World),
      modeAuto (state w) = false -> handleMotion motion r w = w).
Proof.
  split; [|split; [|split; [|split]]].
  - intros r w Hauto Hoff w'. subst w'.
    rewrite (handleMotion_rising r w Hauto Hoff).
    set (w1 := sendTelemetry "motion_detected" true r w).
    set (w2 := withState (setMotionLastSeenMs (millisNow w1))
                 (withState (setLightIsOn true) w1)).
    destruct (getCurrentColorTemp_keeps w2) as (Hev & _ & Hon & Hstamp & Hclock).
    split; [exact Hon|].
    split.
    { cbn [state withState motionLastSeenMs setColorTemp]. rewrite Hstamp.
      unfold millisNow. cbn [clock withState]. rewrite Hclock. reflexivity. }
    split.
    { cbn [state withState currentColorTemp setColorTemp].
      apply getCurrentColorTemp_reads;
        destruct (getCurrentColorTemp_world w2) as [-> | ->]; reflexivity. }
    split.
    { unfold telemetryCalls. cbn [events withState]. rewrite Hev.
      apply (sendTelemetry_calls "motion_detected" true r w). }
    unfold posts. cbn [events withState]. rewrite Hev.
    apply (sendTelemetry_posted "motion_detected" true r w).
  - intros r w Hauto Hon w'. subst w'.
    rewrite (handleMotion_continuing r w Hauto Hon).
    set (w2 := withState (setMotionLastSeenMs (millisNow w))
                 (withState (setLightIsOn true) w)).
    destruct (getCurrentColorTemp_keeps w2) as (Hev & Hflag & Hon2 & Hstamp & Hclock).
    split; [exact Hon2|].
    split; [exact Hstamp|].
    split.
    { cbn [state withState currentColorTemp setColorTemp].
      apply getCurrentColorTemp_reads;
        destruct (getCurrentColorTemp_world w2) as [-> | ->]; reflexivity. }
    split; [exact Hev | exact Hflag].
  - intros r w Hauto Hon Hrange Hle. unfold handleMotion.
    rewrite Hauto, Hon, (motion_timer_compare w Hrange). cbn [negb andb].
    replace (_ <? _) with false by (symmetry; apply Z.ltb_ge; lia).
    reflexivity.
  - intros r w Hauto Hon Hrange Hlt w'.
    assert (E : w' = sendTelemetry "motion_timeout" false r
                       (withState (setLightIsOn false) w)).
    { subst w'. unfold handleMotion.
      rewrite Hauto, Hon, (motion_timer_compare w Hrange). cbn [negb andb].
      replace (_ <? _) with true by (symmetry; apply Z.ltb_lt; lia).
      reflexivity. }
    split; [rewrite E, sendTelemetry_calls; reflexivity|].
    split; [rewrite E, sendTelemetry_posted; reflexivity|].
    pose proof (sendTelemetry_outcome "motion_timeout" false r
                  (withState (setLightIsOn false) w)) as Hout.
    change (telemetryRejected r (withState (setLightIsOn false) w))
      with (telemetryRejected r w) in Hout.
    rewrite <- E in Hout.
    destruct (telemetryRejected r w).
    + split; [apply Hout|]. split; [exact Hout|].
      intros inputs. destruct Hout as (Hflag & _).
      pose proof (runLoop_in_config_mode inputs w' Hflag) as L.
      destruct (runLoop inputs w') as [w''|h w''].
      * destruct L as (_ & Hs & _ & He). split; assumption.
      * destruct L as (_ & key & Hk & _). exists key. exact Hk.
    + destruct Hout as [Hst Hfl].
      assert (Hoff : lightIsOn (state w') = false) by (rewrite Hst; reflexivity).
      split; [exact Hoff|]. split; [exact Hfl|].
      intros samples Hall. apply pollMotion_dark; assumption.
  - intros motion r w Hman. unfold handleMotion. rewrite Hman. reflexivity.
Qed.

(** At noon, 10 s after boot: motion on the dark light switches it on
    and the document reports the light as off; 20 s later, motion on the
    lit light renews the stamp; 10 s after the stamp nothing happens; 301 s
    after it the light goes off, one document goes out, and three further
    readings without motion add none. *)
Lemma C6_motion_logic_witness :
  let rise := handleMotion true (postReply 200 (mkClock 10040 (midnight2025 + 43200)))
                darkWorld in
  let expired := handleMotion false (postReply 200 (mkClock 311040 (midnight2025 + 43200)))
                   (litWorld 311000) in
  lightIsOn (state rise) = true /\
  motionLastSeenMs (state rise) = 10040 /\
  posts rise = [EvPost "motion_detected" true false 60 (Some 3500)] /\
  motionLastSeenMs
    (state (handleMotion true (postReply 200 (mkClock 30040 (midnight2025 + 43200)))
              (litWorld 30000))) = 30000 /\
  handleMotion false (postReply 200 (mkClock 20040 (midnight2025 + 43200)))
    (litWorld 20000) = litWorld 20000 /\
  lightIsOn (state expired) = false /\
  posts expired = [EvPost "motion_timeout" false false 60 (Some 3500)] /\
  events (pollMotion stillness expired) = events expired /\
  handleMotion true (postReply 200 (mkClock 10040 midnight2025)) manualWorld = manualWorld.
Proof.
  intros rise expired.
  destruct C6_motion_logic as (Hrise & Hcont & Hkeep & Hexpire & Hmanual).
  pose proof (Hrise (postReply 200 (mkClock 10040 (midnight2025 + 43200))) darkWorld
                eq_refl eq_refl) as H1.
  cbv zeta in H1. fold rise in H1.
  destruct H1 as (Hon & Hstamp & _ & _ & Hposts).
  assert (Hrange : timerInRange (litWorld 311000)) by (vm_compute; split; congruence).
  assert (Hlate : motionTimeoutSeconds (schedule (litWorld 311000)) * 1000
                  < elapsedSinceMotion (litWorld 311000))
    by (vm_compute; reflexivity).
  pose proof (Hexpire (postReply 200 (mkClock 311040 (midnight2025 + 43200)))
                (litWorld 311000) eq_refl eq_refl Hrange Hlate) as H4.
  cbv zeta in H4. fold expired in H4.
  destruct H4 as (_ & Hposts4 & Hoff & Hafter).
  change (telemetryRejected (postReply 200 (mkClock 311040 (midnight2025 + 43200)))
            (litWorld 311000)) with false in Hoff, Hafter.
  destruct Hafter as [_ Hquiet].
  split; [exact Hon|].
  split; [rewrite Hstamp; reflexivity|].
  split; [rewrite Hposts; reflexivity|].
  split.
  { apply (Hcont (postReply 200 (mkClock 30040 (midnight2025 + 43200))) (litWorld 30000));
      reflexivity. }
  split.
  { apply (Hkeep (postReply 200 (mkClock 20040 (midnight2025 + 43200))) (litWorld 20000));
      [reflexivity | reflexivity | vm_compute; split; congruence
      | vm_compute; discriminate]. }
  split; [exact Hoff|].
  split; [rewrite Hposts4; reflexivity|].
  split; [apply Hquiet; repeat constructor|].
  apply (Hmanual true (postReply 200 (mkClock 10040 midnight2025)) manualWorld).
  reflexivity.
Defined.

(** Three readings on which the claim as worded fails.  One second after
    the last telemetry document, motion switches the dark light on and
    nothing is posted.  A "motion_timeout" post answered 401 leaves the
    light on.  With a timeout of 4294968 s the light goes off 705 ms after
    the last motion. *)
Lemma C6_motion_counterexample :
  (modeAuto (state recentlyReportedWorld) = true /\
   lightIsOn (state recentlyReportedWorld) = false /\
   let w' := handleMotion true (postReply 200 (mkClock 10040 (midnight2025 + 43200)))
               recentlyReportedWorld in
   lightIsOn (state w') = true /\ posts w' = []) /\
  (modeAuto (state (litWorld 311000)) = true /\
   lightIsOn (state (litWorld 311000)) = true /\
   motionTimeoutSeconds (schedule (litWorld 311000)) * 1000
     < elapsedSinceMotion (litWorld 311000) /\
   lightIsOn
     (state (handleMotion false (postReply 401 (mkClock 311040 (midnight2025 + 43200)))
               (litWorld 311000))) = true) /\
  (modeAuto (state longTimeoutWorld) = true /\
   lightIsOn (state longTimeoutWorld) = true /\
   motionTimeoutSeconds (schedule longTimeoutWorld) = 4294968 /\
   elapsedSinceMotion longTimeoutWorld = 705 /\
   lightIsOn
     (state (handleMotion false (postReply 200 (mkClock 10745 (midnight2025 + 43200)))
               longTimeoutWorld)) = false).
Proof. vm_compute. repeat split. Qed.

(** * Further properties of the code *)

(** ** isNightTime *)

(** X1. A sleep window whose start equals its end is empty: it is night at
    no time of day. *)
Theorem isNightTime_empty_window (w : World) :
  sleepStartUtcSeconds (schedule w) = sleepEndUtcSeconds (schedule w) ->
  isNightTime w = false.
Proof.
  intros E. unfold isNightTime. rewrite E, Z.leb_refl.
  destruct (Z.leb_spec (sleepEndUtcSeconds (schedule w)) (daySeconds (timeNow w)));
    destruct (Z.ltb_spec (daySeconds (timeNow w)) (sleepEndUtcSeconds (schedule w)));
    try reflexivity; lia.
Qed.

Lemma isNightTime_empty_window_witness :
  isNightTime (sampleWorld initialSchedule initialState 5000 (midnight2025 + 3600)) = false.
Proof.
  apply (isNightTime_empty_window
           (sampleWorld initialSchedule initialState 5000 (midnight2025 + 3600))).
  reflexivity.
Defined.

(** X2. Exchanging the start and the end of a sleep window (with
    different start and end) gives the complementary window: at every time
    exactly one of the two is night. *)
Theorem isNightTime_swapped_window (a b : Z) (w : World) :
  a <> b ->
  isNightTime (withSleepWindow b a w) = negb (isNightTime (withSleepWindow a b w)).
Proof.
  intros Hne. unfold isNightTime, withSleepWindow, timeNow.
  cbn [schedule withSchedule sleepStartUtcSeconds sleepEndUtcSeconds clock].
  set (s := daySeconds (utc (clock w))).
  destruct (Z.leb_spec a b), (Z.leb_spec b a),
           (Z.leb_spec a s), (Z.leb_spec b s),
           (Z.ltb_spec s a), (Z.ltb_spec s b);
    cbn [andb orb negb]; try reflexivity; lia.
Qed.

Lemma isNightTime_swapped_window_witness :
  isNightTime
    (withSleepWindow 21600 79200
       (sampleWorld (sampleSchedule true 2000 300) (loadedState true true 0 0)
          5000 (midnight2025 + 3600)))
  = negb (isNightTime
            (withSleepWindow 79200 21600
               (sampleWorld (sampleSchedule true 2000 300) (loadedState true true 0 0)
                  5000 (midnight2025 + 3600)))).
Proof.
  apply (isNightTime_swapped_window 79200 21600). discriminate.
Defined.

(** ** getCurrentColorTemp: what the lookup depends on *)

Lemma daySeconds_add_days (t k : Z) : daySeconds (t + 86400 * k) = daySeconds t.
Proof.
  rewrite !daySeconds_mod. rewrite (Z.mul_comm 86400 k). apply Z.mod_add. lia.
Qed.

(** X3. The lookup is cyclic: moving the wall clock by any whole number of
    days, forward or backward, changes neither [isNightTime] nor the colour
    temperature that [getCurrentColorTemp] returns. *)
Theorem lookup_repeats_daily (w : World) (k : Z) :
  isNightTime (atTime (timeNow w + 86400 * k) w) = isNightTime w /\
  fst (getCurrentColorTemp (atTime (timeNow w + 86400 * k) w))
    = fst (getCurrentColorTemp w).
Proof.
  assert (N : isNightTime (atTime (timeNow w + 86400 * k) w) = isNightTime w).
  { unfold isNightTime, atTime, timeNow.
    cbn [schedule withClock clock utc]. rewrite daySeconds_add_days. reflexivity. }
  split; [exact N|].
  rewrite !getCurrentColorTemp_value, N. unfold lookupValue, atTime, timeNow.
  cbn [schedule state withClock clock utc]. rewrite daySeconds_add_days. reflexivity.
Qed.

Lemma scanSegments_sameTimeOfDay (pts1 pts2 : list Point) (cur : Z) (n : nat) :
  (forall i : nat, sameTimeOfDay (pts1 !!! i) (pts2 !!! i)) ->
  forall i : nat, scanSegments pts1 cur i n = scanSegments pts2 cur i n.
Proof.
  intros H. induction n as [|n IH]; intros i; [reflexivity|].
  cbn [scanSegments].
  destruct (H i) as [Hd1 Ht1]. destruct (H (S i)) as [Hd2 Ht2].
  rewrite Hd1, Hd2, Ht1, Ht2, IH. reflexivity.
Qed.

(** X4. The stored timestamps count through their time of day only: two
    point arrays that agree, position by position, in day-seconds and
    colour temperature give the same lookup, whatever the dates. *)
Theorem lookup_ignores_dates (pts : list Point) (w : World) :
  Forall2 sameTimeOfDay (points (schedule w)) pts ->
  fst (getCurrentColorTemp (withPoints pts w)) = fst (getCurrentColorTemp w).
Proof.
  intros HF.
  assert (H : forall i : nat, sameTimeOfDay (pts !!! i) (points (schedule w) !!! i)).
  { intros i. rewrite !list_lookup_total_alt.
    destruct (points (schedule w) !! i) as [p|] eqn:E1.
    - destruct (Forall2_lookup_l _ _ _ _ _ HF E1) as (q & -> & Hq).
      simpl. destruct Hq as [Hd Ht]. split; [symmetry; exact Hd | symmetry; exact Ht].
    - assert (E2 : pts !! i = None).
      { apply lookup_ge_None. apply lookup_ge_None in E1.
        rewrite <- (Forall2_length _ _ _ HF). exact E1. }
      rewrite E2. split; reflexivity. }
  rewrite !getCurrentColorTemp_value. unfold isNightTime, lookupValue, timeNow, withPoints.
  cbn [schedule state withSchedule clock sleepStartUtcSeconds sleepEndUtcSeconds
       nightModeEnabled points pointCount].
  rewrite (scanSegments_sameTimeOfDay pts (points (schedule w)) _ _ H).
  rewrite (proj2 (H _)). reflexivity.
Qed.

Lemma shiftDays_sameTimeOfDay (k : Z) (pts : list Point) :
  Forall2 sameTimeOfDay pts (List.map (shiftDays k) pts).
Proof.
  induction pts as [|p pts IH]; [constructor|].
  cbn [List.map]. constructor; [|exact IH].
  split; [|reflexivity]. unfold shiftDays. cbn [timestamp].
  symmetry. apply daySeconds_add_days.
Qed.

Lemma lookup_ignores_dates_witness :
  fst (getCurrentColorTemp
         (withPoints (List.map (shiftDays 365) (points (sampleSchedule false 2000 300)))
            (sampleWorld (sampleSchedule false 2000 300) (loadedState true true 0 0)
               5000 (midnight2025 + 21600))))
  = fst (getCurrentColorTemp
           (sampleWorld (sampleSchedule false 2000 300) (loadedState true true 0 0)
              5000 (midnight2025 + 21600))).
Proof.
  apply (lookup_ignores_dates
           (List.map (shiftDays 365) (points (sampleSchedule false 2000 300)))
           (sampleWorld (sampleSchedule false 2000 300) (loadedState true true 0 0)
              5000 (midnight2025 + 21600))).
  apply shiftDays_sameTimeOfDay.
Defined.

(** ** getCurrentColorTemp: the edges of the scan *)

Lemma lookup_when_interpolating (w : World) :
  lookupInterpolates w -> fst (getCurrentColorTemp w) = lookupValue w.
Proof.
  intros (Hl & Hc & Hn). unfold nightOverrideActive in Hn.
  rewrite getCurrentColorTemp_value, Hl, Hn.
  apply Z.eqb_neq in Hc. rewrite Hc. reflexivity.
Qed.

Lemma scanSegments_None (pts : list Point) (cur : Z) (n : nat) :
  forall i : nat,
    (forall j : nat, (i <= j < i + n)%nat ->
       segmentMatches cur (daySeconds (timestamp (pts !!! j)))
         (daySeconds (timestamp (pts !!! S j))) = false) ->
    scanSegments pts cur i n = None.
Proof.
  induction n as [|n IH]; intros i H; [reflexivity|].
  cbn [scanSegments]. rewrite (H i) by lia. apply IH. intros j Hj. apply H. lia.
Qed.

(** The scan stops at the first pair whose guard holds. *)
Lemma scanSegments_first (pts : list Point) (cur : Z) (n : nat) :
  forall i0 i : nat,
    (i0 <= i < i0 + n)%nat ->
    (forall j : nat, (i0 <= j < i)%nat ->
       segmentMatches cur (daySeconds (timestamp (pts !!! j)))
         (daySeconds (timestamp (pts !!! S j))) = false) ->
    segmentMatches cur (daySeconds (timestamp (pts !!! i)))
      (daySeconds (timestamp (pts !!! S i))) = true ->
    scanSegments pts cur i0 n =
      Some (interpolate cur (daySeconds (timestamp (pts !!! i)))
              (daySeconds (timestamp (pts !!! S i)))
              (colorTemp (pts !!! i)) (colorTemp (pts !!! S i))).
Proof.
  induction n as [|n IH]; intros i0 i Hi Hbefore Hat; [lia|].
  cbn [scanSegments].
  destruct (Nat.eq_dec i0 i) as [->|Hne].
  - rewrite Hat. reflexivity.
  - rewrite (Hbefore i0) by lia. apply IH; [lia| |exact Hat].
    intros j Hj. apply Hbefore. lia.
Qed.

(** X5. With a single stored point every lookup outside the night override
    returns that point's colour temperature, at every time of day. *)
Theorem lookup_single_point (w : World) :
  lookupInterpolates w ->
  pointCount (schedule w) = 1 ->
  fst (getCurrentColorTemp w) = colorTemp (points (schedule w) !!! 0%nat).
Proof.
  intros H H1. rewrite (lookup_when_interpolating w H).
  unfold lookupValue. rewrite H1. reflexivity.
Qed.

Lemma lookup_single_point_witness :
  fst (getCurrentColorTemp
         (sampleWorld onePointSchedule (loadedState true true 0 0) 5000
            (midnight2025 + 10000))) = 4000.
Proof.
  apply (lookup_single_point
           (sampleWorld onePointSchedule (loadedState true true 0 0) 5000
              (midnight2025 + 10000))); [|reflexivity].
  split; [reflexivity | split; [discriminate | vm_compute; reflexivity]].
Defined.

(** X6. When the stored day-seconds never decrease, a lookup before the
    first point's time of day, or at or after the last point's, returns the
    last point's colour temperature: the stretch across midnight is flat. *)
Theorem lookup_outside_points_is_last (w : World) :
  lookupInterpolates w ->
  sortedDaySeconds (points (schedule w)) (Z.to_nat (pointCount (schedule w))) ->
  daySeconds (timeNow w) < daySeconds (timestamp (points (schedule w) !!! 0%nat)) \/
  daySeconds (timestamp (lastPoint w)) <= daySeconds (timeNow w) ->
  fst (getCurrentColorTemp w) = colorTemp (lastPoint w).
Proof.
  intros H Hsorted Hout. rewrite (lookup_when_interpolating w H).
  unfold lookupValue, lastPoint in *.
  rewrite scanSegments_None; [reflexivity|].
  intros j Hj. unfold segmentMatches.
  destruct Hout as [Hbefore | Hafter].
  - pose proof (Hsorted 0%nat j ltac:(lia)) as S0.
    replace (_ <=? _) with false by (symmetry; apply Z.leb_gt; lia).
    reflexivity.
  - pose proof (Hsorted (S j) (Z.to_nat (pointCount (schedule w) - 1)) ltac:(lia)) as S1.
    replace (daySeconds (timeNow w) <? _) with false
      by (symmetry; apply Z.ltb_ge; lia).
    apply andb_false_r.
Qed.

Lemma threePointSchedule_sorted :
  sortedDaySeconds (points threePointSchedule) 3.
Proof.
  intros i j Hij.
  destruct i as [|[|[|i]]], j as [|[|[|j]]]; try lia; vm_compute; discriminate.
Qed.

Lemma lookup_outside_points_is_last_witness :
  fst (getCurrentColorTemp
         (sampleWorld threePointSchedule (loadedState true true 0 0) 5000
            (midnight2025 + 10800))) = 2500.
Proof.
  apply (lookup_outside_points_is_last
           (sampleWorld threePointSchedule (loadedState true true 0 0) 5000
              (midnight2025 + 10800))).
  - split; [reflexivity | split; [discriminate | reflexivity]].
  - exact threePointSchedule_sorted.
  - left. vm_compute. reflexivity.
Defined.

(** At the start of a segment the interpolation adds nothing. *)
Lemma interpolate_at_start (d1 d2 temp1 temp2 : Z) :
  0 <= d1 -> d1 < d2 -> d2 < 86400 ->
  inIntRange temp1 ->
  interpolate d1 d1 d2 temp1 temp2 = temp1.
Proof.
  intros H0 H1 H2 Ht. unfold interpolate.
  rewrite Z.sub_diag.
  assert (E : interpDivisor d1 d2 = d2 - d1)
    by (unfold interpDivisor; apply wrap32_small; unfold two32; lia).
  rewrite E.
  pose proof (float_of_daySeconds_nonzero (d2 - d1) ltac:(lia)) as F.
  destruct (float_of_Z (d2 - d1)) as [| | |s m e]; try discriminate.
  change (float_of_Z (wrap32 0)) with (S754_zero false).
  change (fdiv (S754_zero false) (S754_finite s m e)) with (S754_zero (xorb false s)).
  assert (Z0' : int_of_float (fmul (S754_zero (xorb false s))
                                (float_of_Z (to_int (temp2 - temp1)))) = 0).
  { destruct (float_of_Z (to_int (temp2 - temp1))); reflexivity. }
  rewrite Z0', Z.add_0_r. apply to_int_small. exact Ht.
Qed.

(** X7. When the stored day-seconds never decrease and the current time of
    day is exactly that of a stored point which is followed by a later one,
    the lookup returns that point's colour temperature exactly. *)
Theorem lookup_exact_at_point (w : World) (i : nat) :
  lookupInterpolates w ->
  sortedDaySeconds (points (schedule w)) (Z.to_nat (pointCount (schedule w))) ->
  (S i < Z.to_nat (pointCount (schedule w)))%nat ->
  daySeconds (timeNow w) = daySeconds (timestamp (points (schedule w) !!! i)) ->
  daySeconds (timestamp (points (schedule w) !!! i))
    < daySeconds (timestamp (points (schedule w) !!! S i)) ->
  inIntRange (colorTemp (points (schedule w) !!! i)) ->
  fst (getCurrentColorTemp w) = colorTemp (points (schedule w) !!! i).
Proof.
  intros H Hsorted Hi Hnow Hlt Hrange.
  rewrite (lookup_when_interpolating w H). unfold lookupValue.
  rewrite (scanSegments_first _ _ _ 0%nat i).
  - rewrite Hnow.
    pose proof (daySeconds_range (timestamp (points (schedule w) !!! i))).
    pose proof (daySeconds_range (timestamp (points (schedule w) !!! S i))).
    apply interpolate_at_start; [lia | exact Hlt | lia | exact Hrange].
  - lia.
  - intros j Hj. unfold segmentMatches.
    pose proof (Hsorted (S j) i ltac:(lia)) as S1.
    replace (daySeconds (timeNow w) <? _) with false
      by (symmetry; apply Z.ltb_ge; lia).
    apply andb_false_r.
  - unfold segmentMatches. rewrite Hnow, Z.leb_refl.
    apply Z.ltb_lt. exact Hlt.
Qed.

Lemma lookup_exact_at_point_witness :
  fst (getCurrentColorTemp
         (sampleWorld threePointSchedule (loadedState true true 0 0) 5000
            (midnight2025 + 5 * 86400 + 43200))) = 6000.
Proof.
  apply (lookup_exact_at_point
           (sampleWorld threePointSchedule (loadedState true true 0 0) 5000
              (midnight2025 + 5 * 86400 + 43200)) 1%nat).
  - split; [reflexivity | split; [discriminate | reflexivity]].
  - exact threePointSchedule_sorted.
  - vm_compute. lia.
  - vm_compute. reflexivity.
  - vm_compute. reflexivity.
  - split; vm_compute; [discriminate | reflexivity].
Defined.

(** ** fetchSchedule: storing the points *)

Lemma parseTime_None (t : JsonTime) :
  parseTime t = None <-> timeTextMissing t = true.
Proof. destruct t; cbn; split; intros H; congruence. Qed.

Lemma storePoints_length (src : list JsonPoint) :
  forall (i : nat) (arr : list Point),
    List.length (fst (storePoints src i arr)) = List.length arr.
Proof.
  induction src as [|p src IH]; intros i arr; cbn [storePoints].
  - reflexivity.
  - destruct (parseTime (jp_utc p)) as [t|]; [|reflexivity].
    rewrite IH. apply length_insert.
Qed.

Lemma storePoints_outside (src : list JsonPoint) :
  forall (i : nat) (arr : list Point) (j : nat),
    (j < i \/ i + List.length src <= j)%nat ->
    fst (storePoints src i arr) !! j = arr !! j.
Proof.
  induction src as [|p src IH]; intros i arr j Hj; cbn [storePoints].
  - reflexivity.
  - destruct (parseTime (jp_utc p)) as [t|]; [|reflexivity].
    cbn [List.length] in Hj.
    rewrite IH by lia.
    apply list_lookup_insert_ne. lia.
Qed.

Lemma storePoints_inside (src : list JsonPoint) :
  forall (i : nat) (arr : list Point) (k : nat) (p : JsonPoint),
    snd (storePoints src i arr) = true ->
    (i + List.length src <= List.length arr)%nat ->
    src !! k = Some p ->
    exists t : Z,
      parseTime (jp_utc p) = Some t /\
      fst (storePoints src i arr) !! (i + k)%nat
      = Some (mkPoint t (as_int (jp_temp p))).
Proof.
  induction src as [|q src IH]; intros i arr k p H Hlen Hk; [discriminate|].
  cbn [storePoints] in H |- *. cbn [List.length] in Hlen.
  destruct (parseTime (jp_utc q)) as [t|] eqn:Et; [|discriminate].
  destruct k as [|k]; cbn in Hk.
  - injection Hk as <-. exists t. split; [exact Et|].
    rewrite Nat.add_0_r.
    rewrite storePoints_outside by lia.
    apply list_lookup_insert_eq. lia.
  - destruct (IH (S i) (<[i := mkPoint t (as_int (jp_temp q))]> arr) k p H)
      as (t' & Ht' & Hl).
    + rewrite length_insert. lia.
    + exact Hk.
    + exists t'. split; [exact Ht'|]. rewrite <- Hl. f_equal. lia.
Qed.

(** Before the faulting entry the loop has stored every entry it passed. *)
Lemma storePoints_halts (src : list JsonPoint) :
  forall (i : nat) (arr : list Point),
    snd (storePoints src i arr) = false <->
    existsb (fun p => timeTextMissing (jp_utc p)) src = true.
Proof.
  induction src as [|p src IH]; intros i arr; cbn [storePoints existsb].
  - split; discriminate.
  - destruct (jp_utc p) eqn:E; cbn [parseTime timeTextMissing orb snd].
    + split; reflexivity.
    + apply IH.
    + apply IH.
Qed.

Lemma storePoints_runs (src : list JsonPoint) (i : nat) (arr : list Point) :
  existsb (fun p => timeTextMissing (jp_utc p)) src = false ->
  snd (storePoints src i arr) = true.
Proof.
  intros H. destruct (snd (storePoints src i arr)) eqn:E; [reflexivity|].
  apply storePoints_halts in E. congruence.
Qed.

Lemma storedEntries_length (doc : JsonDoc) :
  Z.of_nat (List.length (storedEntries doc))
  = Z.min (Z.of_nat (List.length (schedule_array doc))) API_MAX_SCHEDULE_SIZE.
Proof.
  unfold storedEntries, API_MAX_SCHEDULE_SIZE. rewrite length_take. lia.
Qed.

Lemma fetch_takes_storedEntries (doc : JsonDoc) :
  take (Z.to_nat (Z.min (Z.of_nat (List.length (schedule_array doc)))
                    API_MAX_SCHEDULE_SIZE)) (schedule_array doc)
  = storedEntries doc.
Proof.
  unfold storedEntries, API_MAX_SCHEDULE_SIZE.
  destruct (Z.le_ge_cases (Z.of_nat (List.length (schedule_array doc))) 96) as [H|H].
  - rewrite Z.min_l by exact H. rewrite !take_ge by lia. reflexivity.
  - rewrite Z.min_r by lia. reflexivity.
Qed.

(** X8. A schedule document that carries all its timestamp texts is
    committed whole: the profile id, the sleep window, the two temperature
    limits, the motion timeout and the night flag are the document's
    members as the field's type reads them; [generatedAt] and
    [validUntil] are the instants of the two texts; [pointCount] is the
    number of entries, capped at 96; entry [k] below that count lands in
    [points[k]] with its parsed instant and its temperature; array slots
    from [pointCount] on keep what they held; the array keeps its size;
    the schedule counts as loaded and the expiry warning is re-armed. *)
Theorem fetch_commits_document (r : GetReply) (doc : JsonDoc) (w : World) :
  deliversDocument r doc ->
  lacksTimeText doc = false ->
  List.length (points (schedule w)) = Z.to_nat API_MAX_SCHEDULE_SIZE ->
  exists w' : World,
    fetchSchedule r w = Running w' /\
    pointCount (schedule w')
      = Z.min (Z.of_nat (List.length (schedule_array doc))) API_MAX_SCHEDULE_SIZE /\
    List.length (points (schedule w')) = Z.to_nat API_MAX_SCHEDULE_SIZE /\
    (forall (k : nat) (p : JsonPoint),
        Z.of_nat k < pointCount (schedule w') ->
        schedule_array doc !! k = Some p ->
        exists t : Z,
          parseTime (jp_utc p) = Some t /\
          points (schedule w') !! k = Some (mkPoint t (as_int (jp_temp p)))) /\
    (forall j : nat,
        pointCount (schedule w') <= Z.of_nat j ->
        points (schedule w') !! j = points (schedule w) !! j) /\
    profileId (schedule w') = as_int (profile_id doc) /\
    sleepStartUtcSeconds (schedule w') = as_uint32 (sleep_start_utc_seconds doc) /\
    sleepEndUtcSeconds (schedule w') = as_uint32 (sleep_end_utc_seconds doc) /\
    minColorTemp (schedule w') = as_int (min_color_temp doc) /\
    maxColorTemp (schedule w') = as_int (max_color_temp doc) /\
    parseTime (generated_at doc) = Some (generatedAt (schedule w')) /\
    parseTime (valid_until doc) = Some (validUntil (schedule w')) /\
    motionTimeoutSeconds (schedule w') = as_int (motion_timeout_seconds doc) /\
    nightModeEnabled (schedule w') = as_bool (night_mode_enabled doc) /\
    scheduleLoaded (state w') = true /\
    scheduleExpiredWarned (state w') = false /\
    isInConfigMode w' = isInConfigMode w /\
    currentApiKey w' = currentApiKey w /\
    lightIsOn (state w') = lightIsOn (state w) /\
    modeAuto (state w') = modeAuto (state w).
Proof.
  intros (Hup & Hcode & Hbody) Hlack Hlen.
  unfold lacksTimeText in Hlack.
  apply orb_false_iff in Hlack as [Hlack Hpts].
  apply orb_false_iff in Hlack as [Hg Hv].
  unfold fetchSchedule; cbv zeta. rewrite Hup, Hcode, Hbody. cbn [negb].
  change (HTTP_CODE_OK =? HTTP_CODE_UNAUTHORIZED) with false.
  change (HTTP_CODE_OK =? HTTP_CODE_OK) with true. cbv iota.
  destruct (parseTime (generated_at doc)) as [tg|] eqn:Eg;
    [|apply parseTime_None in Eg; congruence].
  destruct (parseTime (valid_until doc)) as [tv|] eqn:Ev;
    [|apply parseTime_None in Ev; congruence].
  rewrite fetch_takes_storedEntries.
  cbn [schedule withClock emit points].
  rewrite (storePoints_runs _ 0%nat (points (schedule w)) Hpts).
  eexists. split; [reflexivity|].
  cbn [schedule state withState withSchedule pointCount points motionTimeoutSeconds
       nightModeEnabled scheduleLoaded scheduleExpiredWarned setScheduleLoaded
       setScheduleExpiredWarned isInConfigMode withClock emit profileId
       sleepStartUtcSeconds sleepEndUtcSeconds minColorTemp maxColorTemp
       generatedAt validUntil currentApiKey lightIsOn modeAuto].
  pose proof (storedEntries_length doc) as Hn.
  split; [reflexivity|].
  split; [rewrite storePoints_length; exact Hlen|].
  split; [|split; [|repeat apply conj; reflexivity]].
  - intros k p Hk Hp.
    assert (Hp' : storedEntries doc !! k = Some p).
    { unfold storedEntries. rewrite lookup_take_lt; [exact Hp|].
      unfold API_MAX_SCHEDULE_SIZE in *. lia. }
    destruct (storePoints_inside (storedEntries doc) 0 (points (schedule w)) k p)
      as (t & Ht & Hl).
    + apply storePoints_runs. exact Hpts.
    + rewrite Hlen. unfold API_MAX_SCHEDULE_SIZE in *. lia.
    + exact Hp'.
    + exists t. split; [exact Ht | exact Hl].
  - intros j Hj. apply storePoints_outside. right. lia.
Qed.

Lemma fetch_commits_document_witness :
  exists w' : World,
    fetchSchedule (getReply 200 (JsonOk (longDoc 100)) (mkClock 5200 (midnight2025 + 1)))
      (sampleWorld (sampleSchedule false 2000 300) (loadedState true false 0 midnight2025)
         5000 midnight2025) = Running w' /\
    pointCount (schedule w') = 96 /\
    points (schedule w') !! 95%nat = Some (mkPoint (midnight2025 + 5700) 2095).
Proof.
  destruct (fetch_commits_document
              (getReply 200 (JsonOk (longDoc 100)) (mkClock 5200 (midnight2025 + 1)))
              (longDoc 100)
              (sampleWorld (sampleSchedule false 2000 300)
                 (loadedState true false 0 midnight2025) 5000 midnight2025))
    as (w' & Hrun & Hcount & _ & Hstored & _).
  - repeat split.
  - vm_compute. reflexivity.
  - reflexivity.
  - exists w'. split; [exact Hrun|]. split; [rewrite Hcount; reflexivity|].
    destruct (Hstored 95%nat
                (mkJsonPoint (TimeValid (midnight2025 + 5700)) (Some 2095)))
      as (t & Ht & Hl).
    + rewrite Hcount. vm_compute. reflexivity.
    + vm_compute. reflexivity.
    + injection Ht as <-. exact Hl.
Defined.

(** X9. [fetchSchedule] stops the sketch in exactly one situation: the
    server answered 200 with a document that deserializes but lacks
    "generated_at", "valid_until" or the "utc" of one of the entries it
    stores (the first 96).  Entries beyond the 96th are never looked at. *)
Theorem fetch_halts_only_on_missing_time_text (r : GetReply) (w : World) :
  match fetchSchedule r w with
  | Halted h _ =>
      h = NullDereference /\
      exists doc : JsonDoc, deliversDocument r doc /\ lacksTimeText doc = true
  | Running _ =>
      forall doc : JsonDoc, deliversDocument r doc -> lacksTimeText doc = false
  end.
Proof.
  unfold fetchSchedule, deliversDocument, lacksTimeText; cbv zeta.
  destruct (getWifiUp r); cbn [negb]; [|intros doc (H & _); discriminate].
  destruct (getCode r =? HTTP_CODE_UNAUTHORIZED) eqn:E401.
  { apply Z.eqb_eq in E401. intros doc (_ & H & _). rewrite H in E401. discriminate. }
  destruct (getCode r =? HTTP_CODE_OK) eqn:E200;
    [|apply Z.eqb_neq in E200; intros doc (_ & H & _); contradiction].
  apply Z.eqb_eq in E200.
  destruct (getBody r) as [|doc]; [intros doc (_ & _ & H); discriminate|].
  rewrite fetch_takes_storedEntries.
  destruct (parseTime (generated_at doc)) as [tg|] eqn:Eg.
  - destruct (parseTime (valid_until doc)) as [tv|] eqn:Ev.
    + destruct (storePoints _ _ _) as [pts [|]] eqn:Es; cbn [snd].
      * intros doc' (_ & _ & H). injection H as <-.
        assert (Hg : timeTextMissing (generated_at doc) = false)
          by (destruct (generated_at doc); [discriminate | reflexivity | reflexivity]).
        assert (Hv : timeTextMissing (valid_until doc) = false)
          by (destruct (valid_until doc); [discriminate | reflexivity | reflexivity]).
        rewrite Hg, Hv. cbn [orb].
        destruct (existsb _ (storedEntries doc)) eqn:Ex; [|reflexivity].
        apply (storePoints_halts _ 0%nat (points (schedule
                 (withClock (getClock r) (emit EvFetch w))))) in Ex.
        rewrite Es in Ex. discriminate.
      * split; [reflexivity|]. exists doc. split; [auto|].
        assert (Es' : snd (storePoints (storedEntries doc) 0
                             (points (schedule (withClock (getClock r)
                                                  (emit EvFetch w))))) = false)
          by (rewrite Es; reflexivity).
        apply storePoints_halts in Es'. rewrite Es'. apply orb_true_r.
    + split; [reflexivity|]. exists doc. split; [auto|].
      apply parseTime_None in Ev. rewrite Ev. rewrite orb_true_r. reflexivity.
  - split; [reflexivity|]. exists doc. split; [auto|].
    apply parseTime_None in Eg. rewrite Eg. reflexivity.
Qed.

(** Whatever the network replies, [fetchSchedule] leaves
    the point array at its 96 slots and [pointCount] between 0 and 96. *)
Lemma fetchSchedule_wellFormed (r : GetReply) (w : World) :
  scheduleWellFormed (schedule w) ->
  scheduleWellFormed (schedule (worldOf (fetchSchedule r w))).
Proof.
  intros [Hlen Hcount]. unfold fetchSchedule; cbv zeta.
  destruct (negb (getWifiUp r)); [split; assumption|].
  destruct (getCode r =? HTTP_CODE_UNAUTHORIZED).
  { cbn [worldOf]. rewrite enterConfigMode_schedule. split; assumption. }
  destruct (getCode r =? HTTP_CODE_OK); [|split; assumption].
  destruct (getBody r) as [|doc]; [split; assumption|].
  destruct (parseTime (generated_at doc)); [|split; assumption].
  destruct (parseTime (valid_until doc)); [|split; assumption].
  unfold scheduleWellFormed.
  destruct (snd (storePoints _ _ _));
    cbn [worldOf schedule withState withSchedule points pointCount withClock emit] in *;
    (split; [rewrite storePoints_length; exact Hlen
            | unfold API_MAX_SCHEDULE_SIZE; lia]).
Qed.

(** ** One pass of [loop], step by step *)

Lemma worldOf_andThen (P : World -> Prop) (o : Outcome) (k : World -> Outcome) :
  P (worldOf o) ->
  (forall w, P w -> P (worldOf (k w))) ->
  P (worldOf (andThen o k)).
Proof. intros Ho Hk. destruct o as [w|h w]; cbn [andThen worldOf] in *; auto. Qed.

(** A property kept by every step of a pass is kept by the pass. *)
Lemma loop_keeps (P : World -> Prop) (i : TickInput) (w : World) :
  keptByPass P i -> P w -> P (worldOf (loop i w)).
Proof.
  intros (Hclock & Hclient & Hserial & Hjump & Hbutton & Hmotion & Hpot & Hfetch & Hstamp) Hw.
  unfold loop.
  destruct (isInConfigMode (withClock (tickClock i) w)); [auto|].
  apply worldOf_andThen; [auto|]. intros w1 H1.
  apply worldOf_andThen; [auto|]. intros w2 H2.
  set (w3 := handleBrightnessPot _ _).
  assert (H3 : P w3) by (subst w3; auto).
  destruct (_ <? _); [|exact H3].
  apply worldOf_andThen; [auto|]. intros w4 H4. cbn [worldOf]. auto.
Qed.

Lemma runLoop_keeps (P : World -> Prop) (inputs : list TickInput) :
  Forall (keptByPass P) inputs ->
  forall w : World, P w -> P (worldOf (runLoop inputs w)).
Proof.
  induction 1 as [|i rest Hi Hrest IH]; intros w Hw; [exact Hw|].
  cbn [runLoop]. apply worldOf_andThen; [apply loop_keeps; assumption | exact IH].
Qed.

(** ** What the handlers leave alone *)

Lemma getCurrentColorTemp_frame (w : World) :
  schedule (snd (getCurrentColorTemp w)) = schedule w /\
  scheduleLoaded (state (snd (getCurrentColorTemp w))) = scheduleLoaded (state w) /\
  currentBrightnessPercent (state (snd (getCurrentColorTemp w)))
    = currentBrightnessPercent (state w) /\
  isInConfigMode (snd (getCurrentColorTemp w)) = isInConfigMode w.
Proof. destruct (getCurrentColorTemp_world w) as [-> | ->]; repeat split. Qed.

Lemma handleButton_frame (level : bool) (r : PostReply) (w : World) :
  schedule (handleButton level r w) = schedule w /\
  scheduleLoaded (state (handleButton level r w)) = scheduleLoaded (state w).
Proof.
  unfold handleButton. destruct (buttonAccepted level w); [|split; reflexivity].
  cbn [schedule state withLastButtonState withLastButtonPressMs].
  destruct (sendTelemetry_kept "mode_change" false r
              (let w0 := withState (fun s => setModeAuto (negb (modeAuto s)) s) w in
               if modeAuto (state w0) then withState (setLightIsOn false) w0
               else withState (setColorTemp DEFAULT_COLOR_TEMP_K)
                      (withState (setLightIsOn true) w0)))
    as (_ & _ & Hl & Hs & _).
  cbv zeta in Hl, Hs. rewrite Hl, Hs.
  destruct (modeAuto (state (withState _ w))); split; reflexivity.
Qed.

Lemma handleMotion_frame (motion : bool) (r : PostReply) (w : World) :
  schedule (handleMotion motion r w) = schedule w /\
  scheduleLoaded (state (handleMotion motion r w)) = scheduleLoaded (state w).
Proof.
  unfold handleMotion.
  destruct (negb (modeAuto (state w))); [split; reflexivity|].
  destruct motion.
  - set (w1 := if negb (lightIsOn (state w)) then _ else _).
    assert (H1 : schedule w1 = schedule w /\
                 scheduleLoaded (state w1) = scheduleLoaded (state w)).
    { subst w1. destruct (negb (lightIsOn (state w))); [|split; reflexivity].
      destruct (sendTelemetry_kept "motion_detected" true r w) as (_ & _ & Hl & Hs & _).
      split; assumption. }
    set (w2 := withState (setMotionLastSeenMs _) _).
    destruct (getCurrentColorTemp_frame w2) as (Gs & Gl & _).
    destruct (getCurrentColorTemp w2) as [temp w3]. cbn [snd] in Gs, Gl.
    cbn [schedule state withState scheduleLoaded setColorTemp].
    rewrite Gs, Gl. exact H1.
  - destruct (lightIsOn (state w) && _); [|split; reflexivity].
    destruct (sendTelemetry_kept "motion_timeout" false r
                (withState (setLightIsOn false) w)) as (_ & _ & Hl & Hs & _).
    rewrite Hl, Hs. split; reflexivity.
Qed.

Lemma handleBrightnessPot_frame (reading : Z) (w : World) :
  schedule (handleBrightnessPot reading w) = schedule w /\
  scheduleLoaded (state (handleBrightnessPot reading w)) = scheduleLoaded (state w).
Proof.
  unfold handleBrightnessPot.
  destruct (_ <=? BRIGHTNESS_OFF_THRESHOLD_PERCENT).
  - destruct (lightIsOn (state w) && negb (modeAuto (state w))); split; reflexivity.
  - destruct (negb (modeAuto (state w)) && negb (lightIsOn (state w)) && _);
      destruct (BRIGHTNESS_CHANGE_THRESHOLD_PERCENT <? _); split; reflexivity.
Qed.

(** A property of the schedule that every fetch keeps is kept by every
    step of every pass. *)
Lemma schedule_property_kept (Q : LightingSchedule -> Prop) (i : TickInput) :
  (forall r w, Q (schedule w) -> Q (schedule (worldOf (fetchSchedule r w)))) ->
  keptByPass (fun w => Q (schedule w)) i.
Proof.
  intros Hfetch. unfold keptByPass. repeat split.
  - intros w H. exact H.
  - intros w H. unfold handleClient.
    destruct (webRequest i) as [| |[k|]|]; try exact H.
    destruct (_ =? API_KEY_LENGTH); exact H.
  - intros w H. unfold setSerialCommands.
    destruct (serialLine i) as [[| | |[t|]|]|]; try exact H. apply Hfetch. exact H.
  - intros w H. unfold handleTimeJump.
    apply (worldOf_andThen (fun w => Q (schedule w))); [|intros w1 H1; exact H1].
    destruct (timeJumpDeclared w); [|exact H].
    set (w1 := if lightIsOn (state w) && modeAuto (state w) then _ else _).
    assert (H1 : Q (schedule w1)).
    { subst w1. destruct (lightIsOn (state w) && modeAuto (state w)); [|exact H].
      destruct (motionTimeoutMs w <? timeSinceMotion w); exact H. }
    destruct (_ <? timeNow w); [apply Hfetch; exact H1 | exact H1].
  - intros w H. rewrite (proj1 (handleButton_frame _ _ _)). exact H.
  - intros w H. rewrite (proj1 (handleMotion_frame _ _ _)). exact H.
  - intros w H. rewrite (proj1 (handleBrightnessPot_frame _ _)). exact H.
  - intros w H. apply Hfetch. exact H.
  - intros w v H. exact H.
Qed.

Lemma initialSchedule_wellFormed : scheduleWellFormed initialSchedule.
Proof. split; [reflexivity | cbn; unfold API_MAX_SCHEDULE_SIZE; lia]. Qed.

(** X10. The point array is never indexed outside its 96 slots: after
    [setup], and after any number of passes of [loop] on any inputs, the
    array has 96 slots and [pointCount] lies between 0 and 96; and in such
    a schedule every index that the scan of [getCurrentColorTemp] reads,
    pairs and last point alike, is a slot of the array. *)
Theorem schedule_array_in_bounds :
  (forall (bootClock : Clock) (nvs : string) (r : GetReply),
      scheduleWellFormed (schedule (worldOf (setup bootClock nvs r)))) /\
  (forall (inputs : list TickInput) (w : World),
      scheduleWellFormed (schedule w) ->
      scheduleWellFormed (schedule (worldOf (runLoop inputs w)))) /\
  (forall sch : LightingSchedule,
      scheduleWellFormed sch ->
      pointCount sch <> 0 ->
      (forall i : nat,
          (i < Z.to_nat (pointCount sch - 1))%nat ->
          is_Some (points sch !! i) /\ is_Some (points sch !! S i)) /\
      is_Some (points sch !! Z.to_nat (pointCount sch - 1))).
Proof.
  split; [|split].
  - intros c nvs r. unfold setup.
    apply (worldOf_andThen (fun w => scheduleWellFormed (schedule w))).
    + apply fetchSchedule_wellFormed. unfold loadApiKey.
      destruct (_ =? API_KEY_LENGTH); exact initialSchedule_wellFormed.
    + intros w H. destruct (isInConfigMode w); exact H.
  - intros inputs w H.
    apply (runLoop_keeps (fun w => scheduleWellFormed (schedule w))); [|exact H].
    apply Forall_forall. intros i _.
    apply schedule_property_kept. apply fetchSchedule_wellFormed.
  - intros sch [Hlen Hcount] Hne. unfold API_MAX_SCHEDULE_SIZE in *.
    split; [intros i Hi; split|]; apply lookup_lt_is_Some; lia.
Qed.

Lemma schedule_array_in_bounds_witness :
  scheduleWellFormed (schedule (worldOf (runLoop offlineTicks
    (sampleWorld (sampleSchedule false 2000 300) (loadedState true false 0 midnight2025)
       5000 midnight2025)))).
Proof.
  apply (proj1 (proj2 schedule_array_in_bounds)).
  split; [reflexivity | cbn; unfold API_MAX_SCHEDULE_SIZE; lia].
Defined.

(** ** Without WiFi *)

Lemma sendTelemetry_offline (t : string) (m : bool) (r : PostReply) (w : World) :
  postWifiUp r = false ->
  state (sendTelemetry t m r w) = state w /\
  isInConfigMode (sendTelemetry t m r w) = isInConfigMode w.
Proof.
  intros Hdown. unfold sendTelemetry, TELEMETRY. rewrite Hdown. cbn [negb].
  destruct (_ <? TELEMETRY_DEBOUNCE_MS); split; reflexivity.
Qed.

Lemma fetchSchedule_offline (r : GetReply) (w : World) :
  getWifiUp r = false -> fetchSchedule r w = Running (emit EvFetch w).
Proof. intros Hdown. unfold fetchSchedule; cbv zeta. rewrite Hdown. reflexivity. Qed.

Lemma handleButton_offline_flag (level : bool) (r : PostReply) (w : World) :
  postWifiUp r = false ->
  isInConfigMode (handleButton level r w) = isInConfigMode w.
Proof.
  intros Hdown. unfold handleButton. destruct (buttonAccepted level w); [|reflexivity].
  cbn [isInConfigMode withLastButtonState withLastButtonPressMs].
  rewrite (proj2 (sendTelemetry_offline _ _ _ _ Hdown)).
  destruct (modeAuto (state (withState _ w))); reflexivity.
Qed.

Lemma handleMotion_offline_flag (motion : bool) (r : PostReply) (w : World) :
  postWifiUp r = false ->
  isInConfigMode (handleMotion motion r w) = isInConfigMode w.
Proof.
  intros Hdown. unfold handleMotion.
  destruct (negb (modeAuto (state w))); [reflexivity|].
  destruct motion.
  - set (w1 := if negb (lightIsOn (state w)) then _ else _).
    assert (H1 : isInConfigMode w1 = isInConfigMode w).
    { subst w1. destruct (negb (lightIsOn (state w))); [|reflexivity].
      apply sendTelemetry_offline. exact Hdown. }
    set (w2 := withState (setMotionLastSeenMs _) _).
    pose proof (getCurrentColorTemp_flag w2) as G.
    destruct (getCurrentColorTemp w2) as [temp w3]. cbn [snd] in G.
    cbn [isInConfigMode withState]. rewrite G. exact H1.
  - destruct (lightIsOn (state w) && _); [|reflexivity].
    rewrite (proj2 (sendTelemetry_offline _ _ _ _ Hdown)). reflexivity.
Qed.

Lemma handleBrightnessPot_flag (reading : Z) (w : World) :
  isInConfigMode (handleBrightnessPot reading w) = isInConfigMode w.
Proof.
  unfold handleBrightnessPot.
  destruct (_ <=? BRIGHTNESS_OFF_THRESHOLD_PERCENT).
  - destruct (lightIsOn (state w) && negb (modeAuto (state w))); reflexivity.
  - destruct (negb (modeAuto (state w)) && negb (lightIsOn (state w)) && _);
      destruct (BRIGHTNESS_CHANGE_THRESHOLD_PERCENT <? _); reflexivity.
Qed.

Lemma offline_keptByPass (sch : LightingSchedule) (loaded : bool) (i : TickInput) :
  offlineTick i ->
  keptByPass (fun w => schedule w = sch /\
                       scheduleLoaded (state w) = loaded /\
                       isInConfigMode w = false) i.
Proof.
  intros (Hs & Hj & Hp & Hb & Hm). unfold keptByPass. repeat apply conj.
  - intros w H. exact H.
  - intros w H. unfold handleClient.
    destruct (webRequest i) as [| |[k|]|]; try exact H.
    destruct (_ =? API_KEY_LENGTH); exact H.
  - intros w H. unfold setSerialCommands.
    destruct (serialLine i) as [[| | |[t|]|]|]; try exact H.
    rewrite (fetchSchedule_offline _ _ Hs). exact H.
  - intros w H. unfold handleTimeJump.
    destruct (timeJumpDeclared w); [|exact H].
    rewrite (fetchSchedule_offline _ _ Hj).
    destruct (lightIsOn (state w) && modeAuto (state w));
      [destruct (motionTimeoutMs w <? timeSinceMotion w)|];
      destruct (_ <? timeNow w); exact H.
  - intros w (H1 & H2 & H3).
    destruct (handleButton_frame (buttonLevel i) (buttonPostReply i) w) as [-> ->].
    rewrite (handleButton_offline_flag _ _ _ Hb). auto.
  - intros w (H1 & H2 & H3).
    destruct (handleMotion_frame (motionLevel i) (motionPostReply i) w) as [-> ->].
    rewrite (handleMotion_offline_flag _ _ _ Hm). auto.
  - intros w (H1 & H2 & H3).
    destruct (handleBrightnessPot_frame (potValue i) w) as [-> ->].
    rewrite handleBrightnessPot_flag. auto.
  - intros w H. rewrite (fetchSchedule_offline _ _ Hp). exact H.
  - intros w v H. exact H.
Qed.

Lemma handleTimeJump_offline (r : GetReply) (w : World) :
  getWifiUp r = false -> exists w' : World, handleTimeJump r w = Running w'.
Proof.
  intros Hdown. unfold handleTimeJump.
  destruct (timeJumpDeclared w); [|eexists; reflexivity].
  rewrite (fetchSchedule_offline _ _ Hdown).
  destruct (_ <? timeNow w); eexists; reflexivity.
Qed.

(** Without WiFi a pass stops the sketch only by the serial command
    "reset_key". *)
Lemma loop_offline_halts (i : TickInput) (w : World) :
  offlineTick i ->
  isInConfigMode w = false ->
  match loop i w with
  | Running _ => True
  | Halted h _ => h = RestartKeyReset /\ serialLine i = Some CmdResetKey
  end.
Proof.
  intros (Hs & Hj & Hp & Hb & Hm) Hflag. unfold loop.
  cbn [isInConfigMode withClock]. rewrite Hflag.
  assert (Hser : serialLine i = Some CmdResetKey \/
                 exists w1 : World,
                   setSerialCommands (serialLine i) (serialFetchReply i)
                     (withClock (tickClock i) w) = Running w1).
  { unfold setSerialCommands.
    destruct (serialLine i) as [[| | |[t|]|]|];
      try (left; reflexivity); try (right; eexists; reflexivity).
    rewrite (fetchSchedule_offline _ _ Hs). right. eexists. reflexivity. }
  destruct Hser as [E | [w1 E]].
  - rewrite E. cbn [setSerialCommands andThen]. split; reflexivity.
  - rewrite E. cbn [andThen].
    destruct (handleTimeJump_offline (jumpFetchReply i) w1 Hj) as [w2 E2].
    rewrite E2. cbn [andThen].
    destruct (_ <? _); [|exact I].
    rewrite (fetchSchedule_offline _ _ Hp). exact I.
Qed.

Lemma runLoop_offline (sch : LightingSchedule) (loaded : bool)
    (inputs : list TickInput) :
  Forall offlineTick inputs ->
  forall w : World,
    schedule w = sch /\ scheduleLoaded (state w) = loaded /\ isInConfigMode w = false ->
    match runLoop inputs w with
    | Running w' =>
        schedule w' = sch /\ scheduleLoaded (state w') = loaded /\
        isInConfigMode w' = false
    | Halted h _ =>
        h = RestartKeyReset /\
        Exists (fun i => serialLine i = Some CmdResetKey) inputs
    end.
Proof.
  induction 1 as [|i rest Hi Hrest IH]; intros w Hw; [exact Hw|].
  cbn [runLoop].
  pose proof (loop_keeps _ i w (offline_keptByPass sch loaded i Hi) Hw) as K.
  pose proof (loop_offline_halts i w Hi (proj2 (proj2 Hw))) as L.
  destruct (loop i w) as [w1|h w1]; cbn [andThen worldOf] in *.
  - specialize (IH w1 K). destruct (runLoop rest w1) as [w2|h w2]; [exact IH|].
    destruct IH as [-> Hex]. split; [reflexivity|]. apply Exists_cons_tl. exact Hex.
  - destruct L as [-> Hl]. split; [reflexivity|]. apply Exists_cons_hd. exact Hl.
Qed.

(** X11. While WiFi is down the device keeps what it has: as long as the
    sketch runs, over any number of passes of [loop], whatever the
    buttons, sensors and serial lines, it does not enter configuration
    mode, and the schedule and the loaded flag stay exactly as they were.
    The one thing that stops the sketch is the serial command "reset_key",
    whose restart begins again from the boot state. *)
Theorem offline_device_keeps_schedule (inputs : list TickInput) (w : World) :
  Forall offlineTick inputs ->
  isInConfigMode w = false ->
  match runLoop inputs w with
  | Running w' =>
      schedule w' = schedule w /\
      scheduleLoaded (state w') = scheduleLoaded (state w) /\
      isInConfigMode w' = false
  | Halted h _ =>
      h = RestartKeyReset /\
      Exists (fun i => serialLine i = Some CmdResetKey) inputs
  end.
Proof.
  intros Hoff Hflag.
  apply (runLoop_offline (schedule w) (scheduleLoaded (state w)) inputs Hoff w).
  auto.
Qed.

Lemma offline_device_keeps_schedule_witness :
  match runLoop offlineTicks
          (sampleWorld (sampleSchedule false 2000 300)
             (loadedState true false 0 midnight2025) 5000 midnight2025) with
  | Running w' =>
      schedule w' = sampleSchedule false 2000 300 /\
      scheduleLoaded (state w') = true /\
      isInConfigMode w' = false
  | Halted h _ =>
      h = RestartKeyReset /\
      Exists (fun i => serialLine i = Some CmdResetKey) offlineTicks
  end.
Proof.
  apply (offline_device_keeps_schedule offlineTicks
           (sampleWorld (sampleSchedule false 2000 300)
              (loadedState true false 0 midnight2025) 5000 midnight2025));
    [|reflexivity].
  repeat constructor.
Defined.

(** ** convertColorTempToRGB: the thresholds *)

Lemma kelvinTemp_thresholds_checked :
  allFrom thresholdsAgree (Z.to_nat 65536) 0 = true.
Proof. vm_compute. reflexivity. Qed.

(** The rounding of [kelvin / 100.0] never moves a colour temperature
    across a threshold of the algorithm. *)
Lemma kelvinTemp_thresholds (kelvin : Z) :
  0 <= kelvin <= 65535 ->
  tempAtMost 66 kelvin = (kelvin <=? 6600) /\
  tempAtLeast 66 kelvin = (6600 <=? kelvin) /\
  tempAtMost 19 kelvin = (kelvin <=? 1900).
Proof.
  intros H.
  pose proof (allFrom_spec _ _ _ kelvinTemp_thresholds_checked kelvin ltac:(lia)) as C.
  unfold thresholdsAgree in C. cbv zeta in C.
  apply andb_true_iff in C as [C C3]. apply andb_true_iff in C as [C1 C2].
  apply Bool.eqb_prop in C1, C2, C3. unfold tempAtMost, tempAtLeast. auto.
Qed.

(** X12. For every colour temperature from 0 to 65535 K the binary32
    quotient [kelvin / 100.0] falls on the same side of the thresholds 66
    and 19 as [kelvin] does of 6600 and 1900.  Hence, whatever the C
    library's [pow] and [log] return: up to 6600 K the red channel is 255,
    from 6600 K on the blue channel is 255, and up to 1900 K the blue
    channel is 0. *)
Theorem rgb_constant_channels (cv : Curves) (kelvin : Z) :
  0 <= kelvin <= 65535 ->
  (tempAtMost 66 kelvin = (kelvin <=? 6600) /\
   tempAtLeast 66 kelvin = (6600 <=? kelvin) /\
   tempAtMost 19 kelvin = (kelvin <=? 1900)) /\
  let '(r, g, b) := convertColorTempToRGB cv kelvin in
  (kelvin <= 6600 -> r = 255) /\
  (6600 <= kelvin -> b = 255) /\
  (kelvin <= 1900 -> b = 0).
Proof.
  intros H. split; [exact (kelvinTemp_thresholds kelvin H)|].
  destruct (kelvinTemp_thresholds kelvin H) as (E1 & E2 & E3).
  unfold tempAtMost, tempAtLeast in *. unfold convertColorTempToRGB.
  rewrite E1, E2, E3. repeat split.
  - intros Hk. apply Z.leb_le in Hk. rewrite Hk. reflexivity.
  - intros Hk. apply Z.leb_le in Hk. rewrite Hk. reflexivity.
  - intros Hk.
    replace (6600 <=? kelvin) with false by (symmetry; apply Z.leb_gt; lia).
    apply Z.leb_le in Hk. rewrite Hk. reflexivity.
Qed.

Lemma rgb_constant_channels_witness :
  let '(r, g, b) := convertColorTempToRGB flatCurves 1000 in
  (1000 <= 6600 -> r = 255) /\ (6600 <= 1000 -> b = 255) /\ (1000 <= 1900 -> b = 0).
Proof.
  apply (proj2 (rgb_constant_channels flatCurves 1000 ltac:(lia))).
Defined.

(** X13. The warning light of configuration mode: right after
    [enterConfigMode], from normal operation, [updateLighting] shows all
    pixels at PWM brightness 127 with red 255 and blue 0, whatever [log]
    returns for green. *)
Theorem config_mode_warning_light (cv : Curves) (w : World) :
  isInConfigMode w = false ->
  exists g : Z,
    updateLighting cv (enterConfigMode w) = FrameLit 127 255 g 0.
Proof.
  intros H. unfold enterConfigMode. rewrite H. unfold updateLighting.
  cbn [state withState emit withConfigMode lightIsOn setLightIsOn setColorTemp
       setBrightness currentColorTemp currentBrightnessPercent negb].
  destruct (kelvinTemp_thresholds MIN_COLOR_TEMP_K ltac:(unfold MIN_COLOR_TEMP_K; lia))
    as (E1 & E2 & E3).
  unfold tempAtMost, tempAtLeast in *. unfold convertColorTempToRGB.
  rewrite E1, E2, E3. cbn [MIN_COLOR_TEMP_K Z.leb Z.compare Pos.compare Pos.compare_cont].
  eexists. reflexivity.
Qed.

Lemma config_mode_warning_light_witness :
  exists g : Z,
    updateLighting flatCurves
      (enterConfigMode
         (sampleWorld (sampleSchedule false 2000 300) (loadedState true false 0 midnight2025)
            5000 midnight2025)) = FrameLit 127 255 g 0.
Proof.
  apply (config_mode_warning_light flatCurves
           (sampleWorld (sampleSchedule false 2000 300)
              (loadedState true false 0 midnight2025) 5000 midnight2025)).
  reflexivity.
Defined.

(** ** The stored brightness is a percentage *)

Lemma map_adc_percent (reading : Z) :
  0 <= reading <= ANALOG_MAX_VALUE ->
  percent (Arduino.map reading 0 ANALOG_MAX_VALUE 0 100).
Proof.
  unfold percent, Arduino.map, ANALOG_MAX_VALUE. intros H.
  rewrite Z.quot_div_nonneg by lia.
  Z.to_euclidean_division_equations. lia.
Qed.

Lemma enterConfigMode_percent (w : World) :
  percent (currentBrightnessPercent (state w)) ->
  percent (currentBrightnessPercent (state (enterConfigMode w))).
Proof.
  intros H. unfold enterConfigMode. destruct (isInConfigMode w); [exact H|].
  cbn. unfold percent. lia.
Qed.

Lemma sendTelemetry_percent (t : string) (m : bool) (r : PostReply) (w : World) :
  percent (currentBrightnessPercent (state w)) ->
  percent (currentBrightnessPercent (state (sendTelemetry t m r w))).
Proof.
  intros H. telemetry_cases r w; cbn; try exact H; unfold percent; lia.
Qed.

Lemma fetchSchedule_percent (r : GetReply) (w : World) :
  percent (currentBrightnessPercent (state w)) ->
  percent (currentBrightnessPercent (state (worldOf (fetchSchedule r w)))).
Proof.
  intros H. unfold fetchSchedule; cbv zeta.
  destruct (negb (getWifiUp r)); [exact H|].
  destruct (getCode r =? HTTP_CODE_UNAUTHORIZED);
    [cbn [worldOf]; apply enterConfigMode_percent; exact H|].
  destruct (getCode r =? HTTP_CODE_OK); [|exact H].
  destruct (getBody r) as [|doc]; [exact H|].
  destruct (parseTime (generated_at doc)); [|exact H].
  destruct (parseTime (valid_until doc)); [|exact H].
  destruct (storePoints _ _ _) as [pts [|]]; exact H.
Qed.

Lemma percent_keptByPass (i : TickInput) :
  adcReading i ->
  keptByPass (fun w => percent (currentBrightnessPercent (state w))) i.
Proof.
  intros Hadc. unfold keptByPass. repeat apply conj.
  - intros w H. exact H.
  - intros w H. unfold handleClient.
    destruct (webRequest i) as [| |[k|]|]; try exact H.
    destruct (_ =? API_KEY_LENGTH); exact H.
  - intros w H. unfold setSerialCommands.
    destruct (serialLine i) as [[| | |[t|]|]|]; try exact H.
    apply fetchSchedule_percent. exact H.
  - intros w H. unfold handleTimeJump.
    apply (worldOf_andThen (fun w => percent (currentBrightnessPercent (state w))));
      [|intros w1 H1; exact H1].
    destruct (timeJumpDeclared w); [|exact H].
    set (w1 := if lightIsOn (state w) && modeAuto (state w) then _ else _).
    assert (H1 : percent (currentBrightnessPercent (state w1))).
    { subst w1. destruct (lightIsOn (state w) && modeAuto (state w)); [|exact H].
      destruct (motionTimeoutMs w <? timeSinceMotion w); exact H. }
    destruct (_ <? timeNow w); [apply fetchSchedule_percent; exact H1 | exact H1].
  - intros w H. unfold handleButton.
    destruct (buttonAccepted _ w); [|exact H].
    cbn [state withLastButtonState withLastButtonPressMs].
    apply sendTelemetry_percent.
    destruct (modeAuto (state (withState _ w))); exact H.
  - intros w H. unfold handleMotion.
    destruct (negb (modeAuto (state w))); [exact H|].
    destruct (motionLevel i).
    + set (w1 := if negb (lightIsOn (state w)) then _ else _).
      assert (H1 : percent (currentBrightnessPercent (state w1))).
      { subst w1. destruct (negb (lightIsOn (state w))); [|exact H].
        apply sendTelemetry_percent. exact H. }
      set (w2 := withState (setMotionLastSeenMs _) _).
      destruct (getCurrentColorTemp_frame w2) as (_ & _ & G & _).
      destruct (getCurrentColorTemp w2) as [temp w3]. cbn [snd] in G.
      cbn [state withState currentBrightnessPercent setColorTemp].
      rewrite G. exact H1.
    + destruct (lightIsOn (state w) && _); [|exact H].
      apply sendTelemetry_percent. exact H.
  - intros w H. unfold handleBrightnessPot.
    pose proof (map_adc_percent (potValue i) Hadc) as M.
    destruct (_ <=? BRIGHTNESS_OFF_THRESHOLD_PERCENT).
    + destruct (lightIsOn (state w) && negb (modeAuto (state w)));
        cbn; unfold percent; lia.
    + destruct (negb (modeAuto (state w)) && negb (lightIsOn (state w)) && _);
        destruct (BRIGHTNESS_CHANGE_THRESHOLD_PERCENT <? _);
        cbn [state withState currentBrightnessPercent setBrightness setLightIsOn];
        assumption.
  - intros w H. apply fetchSchedule_percent. exact H.
  - intros w v H. exact H.
Qed.

(** X14. As long as the potentiometer readings are ADC values (0..4095),
    the stored brightness stays within 0..100 over any number of passes of
    [loop]; and whenever the light is on, the brightness that
    [updateLighting] hands to the LED ring is [percent * 255 / 100], a
    value within 0..255 that the 8-bit parameter holds unchanged. *)
Theorem brightness_stays_percent (cv : Curves) (inputs : list TickInput) (w : World) :
  Forall adcReading inputs ->
  percent (currentBrightnessPercent (state w)) ->
  let w' := worldOf (runLoop inputs w) in
  percent (currentBrightnessPercent (state w')) /\
  match updateLighting cv w' with
  | FrameDark => lightIsOn (state w') = false
  | FrameLit brightness _ _ _ =>
      lightIsOn (state w') = true /\
      brightness = currentBrightnessPercent (state w') * 255 / 100 /\
      0 <= brightness <= 255
  end.
Proof.
  intros Hadc Hw w'.
  assert (P : percent (currentBrightnessPercent (state w'))).
  { subst w'.
    apply (runLoop_keeps (fun w => percent (currentBrightnessPercent (state w))));
      [|exact Hw].
    eapply Forall_impl; [exact Hadc|]. intros i Hi. apply percent_keptByPass. exact Hi. }
  split; [exact P|].
  unfold updateLighting. destruct (lightIsOn (state w')); cbn [negb]; [|reflexivity].
  destruct (convertColorTempToRGB cv _) as [[r g] b].
  unfold Arduino.map, PWM_MAX_VALUE, percent in *.
  rewrite Z.quot_div_nonneg by lia.
  assert (B : 0 <= (currentBrightnessPercent (state w') - 0) * (255 - 0) / (100 - 0) + 0 <= 255)
    by (Z.to_euclidean_division_equations; lia).
  rewrite Z.mod_small by lia.
  split; [reflexivity|]. split; [|lia].
  rewrite Z.add_0_r, !Z.sub_0_r. reflexivity.
Qed.

Lemma brightness_stays_percent_witness :
  let w' := worldOf (runLoop offlineTicks darkWorld) in
  percent (currentBrightnessPercent (state w')) /\
  match updateLighting flatCurves w' with
  | FrameDark => lightIsOn (state w') = false
  | FrameLit brightness _ _ _ =>
      lightIsOn (state w') = true /\
      brightness = currentBrightnessPercent (state w') * 255 / 100 /\
      0 <= brightness <= 255
  end.
Proof.
  apply (brightness_stays_percent flatCurves offlineTicks darkWorld).
  - repeat constructor; vm_compute; discriminate.
  - vm_compute. split; discriminate.
Defined.

(** ** sendTelemetry: the rate limit *)

Lemma sendTelemetry_not_due (t : string) (m : bool) (r : PostReply) (w : World) :
  wrap32 (millisNow w - lastTelemetryMs w) < TELEMETRY_DEBOUNCE_MS ->
  sendTelemetry t m r w = emit (EvTelemetry t m) w.
Proof.
  intros H. unfold sendTelemetry, TELEMETRY. cbn [negb].
  change (millisNow (emit (EvTelemetry t m) w)) with (millisNow w).
  change (lastTelemetryMs (emit (EvTelemetry t m) w)) with (lastTelemetryMs w).
  apply Z.ltb_lt in H. rewrite H. reflexivity.
Qed.

(** X15. Within 2000 ms of the last stamp a telemetry call posts nothing
    and changes nothing.  The stamp is taken before WiFi is looked at: an
    event raised while WiFi is down is not posted, and it still silences
    the next event of the following 2000 ms, WiFi or not. *)
Theorem telemetry_rate_limit :
  (forall (t : string) (m : bool) (r : PostReply) (w : World),
      wrap32 (millisNow w - lastTelemetryMs w) < TELEMETRY_DEBOUNCE_MS ->
      sendTelemetry t m r w = emit (EvTelemetry t m) w) /\
  (forall (t1 t2 : string) (m1 m2 : bool) (r1 r2 : PostReply) (c2 : Clock) (w : World),
      TELEMETRY_DEBOUNCE_MS <= wrap32 (millisNow w - lastTelemetryMs w) ->
      postWifiUp r1 = false ->
      millisNow w <= millis c2 < millisNow w + TELEMETRY_DEBOUNCE_MS ->
      millis c2 < two32 ->
      let w1 := sendTelemetry t1 m1 r1 w in
      let w2 := sendTelemetry t2 m2 r2 (withClock c2 w1) in
      lastTelemetryMs w1 = millisNow w /\
      postCount w2 = postCount w /\
      state w2 = state w /\
      isInConfigMode w2 = isInConfigMode w).
Proof.
  split; [exact sendTelemetry_not_due|].
  intros t1 t2 m1 m2 r1 r2 c2 w Hdue Hdown Hc2 Hlt w1 w2.
  assert (E1 : w1 = withLastTelemetryMs (millisNow w) (emit (EvTelemetry t1 m1) w)).
  { subst w1. unfold sendTelemetry, TELEMETRY. cbn [negb].
    change (millisNow (emit (EvTelemetry t1 m1) w)) with (millisNow w).
    change (lastTelemetryMs (emit (EvTelemetry t1 m1) w)) with (lastTelemetryMs w).
    replace (_ <? TELEMETRY_DEBOUNCE_MS) with false by (symmetry; apply Z.ltb_ge; lia).
    rewrite Hdown. reflexivity. }
  assert (E2 : w2 = emit (EvTelemetry t2 m2) (withClock c2 w1)).
  { subst w2. apply sendTelemetry_not_due. rewrite E1.
    unfold millisNow at 1. cbn [clock withClock lastTelemetryMs withLastTelemetryMs].
    pose proof (wrap32_range (millis (clock w))) as R. fold (millisNow w) in R.
    unfold TELEMETRY_DEBOUNCE_MS, two32 in *.
    rewrite (wrap32_small (millis c2)) by (unfold two32; lia).
    rewrite wrap32_small by (unfold two32; lia). lia. }
  rewrite E2, E1. repeat split.
Qed.

Lemma telemetry_rate_limit_witness :
  let w1 := sendTelemetry "motion_detected" true (mkPostReply false 0 (mkClock 0 0))
              darkWorld in
  let w2 := sendTelemetry "motion_timeout" false
              (postReply 200 (mkClock 11100 midnight2025))
              (withClock (mkClock 11000 midnight2025) w1) in
  lastTelemetryMs w1 = millisNow darkWorld /\
  postCount w2 = postCount darkWorld /\
  state w2 = state darkWorld /\
  isInConfigMode w2 = isInConfigMode darkWorld.
Proof.
  apply (proj2 telemetry_rate_limit
           "motion_detected"%string "motion_timeout"%string true false
           (mkPostReply false 0 (mkClock 0 0))
           (postReply 200 (mkClock 11100 midnight2025))
           (mkClock 11000 midnight2025) darkWorld).
  - vm_compute. discriminate.
  - reflexivity.
  - vm_compute. split; [discriminate | reflexivity].
  - vm_compute. reflexivity.
Defined.

(** ** Elapsed time across the wrap of [millis()] *)

Lemma wrap32_elapsed (stamp d now : Z) :
  0 <= d < two32 -> now = wrap32 (stamp + d) -> wrap32 (now - stamp) = d.
Proof.
  intros Hd ->. unfold wrap32, two32 in *.
  rewrite Zminus_mod_idemp_l.
  replace (stamp + d - stamp) with d by lia.
  apply Z.mod_small. exact Hd.
Qed.

(** X16. The debounce of the button and the timeout of the motion logic
    measure elapsed time modulo 2^32: when the millisecond counter stands
    [d] ms after the stamp, a press is accepted exactly when it is a falling
    edge and [d] exceeds 200, and the motion timeout compares [d] with the
    timeout, also when [millis()] has wrapped since the stamp. *)
Theorem elapsed_survives_millis_wrap (d : Z) (w : World) :
  (counterAfter (lastButtonPressMs w) d w ->
   forall level : bool,
     buttonAccepted level w
     = negb level && lastButtonState w && (BUTTON_DEBOUNCE_MS <? d)) /\
  (counterAfter (motionLastSeenMs (state w)) d w ->
   (motionTimeoutMs w <? wrap32 (millisNow w - motionLastSeenMs (state w)))
   = (motionTimeoutMs w <? d)).
Proof.
  split.
  - intros (_ & Hd & Hnow) level. unfold buttonAccepted.
    rewrite (wrap32_elapsed _ d _ Hd Hnow). reflexivity.
  - intros (_ & Hd & Hnow). rewrite (wrap32_elapsed _ d _ Hd Hnow). reflexivity.
Qed.

Lemma elapsed_survives_millis_wrap_witness :
  buttonAccepted LOW wrappedWorld = true.
Proof.
  rewrite (proj1 (elapsed_survives_millis_wrap 300 wrappedWorld)).
  - reflexivity.
  - repeat split; vm_compute; congruence.
Defined.

(** ** handleMotion while motion persists *)

(** X17. In Auto mode, motion on a light that is already on raises no
    event and posts nothing: the handler only re-stamps
    [motionLastSeenMs] with the current [millis()] and refreshes the colour
    temperature from the schedule. *)
Theorem continuing_motion_is_silent (r : PostReply) (w : World) :
  modeAuto (state w) = true ->
  lightIsOn (state w) = true ->
  let w' := handleMotion true r w in
  events w' = events w /\
  clock w' = clock w /\
  isInConfigMode w' = isInConfigMode w /\
  lightIsOn (state w') = true /\
  modeAuto (state w') = true /\
  motionLastSeenMs (state w') = millisNow w /\
  currentColorTemp (state w') = fst (getCurrentColorTemp w) /\
  currentBrightnessPercent (state w') = currentBrightnessPercent (state w).
Proof.
  intros Hauto Hon w'. subst w'. unfold handleMotion. rewrite Hauto, Hon. cbn [negb].
  set (w2 := withState (setMotionLastSeenMs _) _).
  assert (V : fst (getCurrentColorTemp w2) = fst (getCurrentColorTemp w))
    by (apply getCurrentColorTemp_reads; reflexivity).
  destruct (getCurrentColorTemp_world w2) as [E | E];
    destruct (getCurrentColorTemp w2) as [temp w3]; cbn [fst snd] in *;
    subst w3; subst temp; subst w2; cbn; rewrite ?Hauto; repeat split; reflexivity.
Qed.

Lemma continuing_motion_is_silent_witness :
  events (handleMotion true (postReply 200 (mkClock 20040 (midnight2025 + 43200)))
            (litWorld 20000)) = events (litWorld 20000).
Proof.
  apply (continuing_motion_is_silent
           (postReply 200 (mkClock 20040 (midnight2025 + 43200))) (litWorld 20000));
    reflexivity.
Defined.
(** ** handleBrightnessPot: a steady knob *)

(** X18. A reading that repeats changes nothing further: applying
    [handleBrightnessPot] twice with the same reading gives the world of
    the first application.  Above the off-threshold the stored brightness
    is afterwards within 5 points of the mapped reading. *)
Theorem pot_settles (reading : Z) (w : World) :
  handleBrightnessPot reading (handleBrightnessPot reading w)
    = handleBrightnessPot reading w /\
  (BRIGHTNESS_OFF_THRESHOLD_PERCENT < Arduino.map reading 0 ANALOG_MAX_VALUE 0 100 ->
   Z.abs (Arduino.map reading 0 ANALOG_MAX_VALUE 0 100
          - currentBrightnessPercent (state (handleBrightnessPot reading w)))
   <= BRIGHTNESS_CHANGE_THRESHOLD_PERCENT).
Proof.
  unfold handleBrightnessPot, abs.
  set (b := Arduino.map reading 0 ANALOG_MAX_VALUE 0 100). clearbody b.
  unfold BRIGHTNESS_OFF_THRESHOLD_PERCENT, BRIGHTNESS_CHANGE_THRESHOLD_PERCENT.
  destruct w as [[auto on cur temp seen known loaded warned]
                   sch cfg key nvs chk tel btn press clk ev].
  assert (Esame : (5 <? Z.abs (b - b)) = false)
    by (apply Z.ltb_ge; rewrite Z.sub_diag; cbn; lia).
  destruct (b <=? 10) eqn:Eoff.
  - split; [|apply Z.leb_le in Eoff; lia].
    destruct on, auto;
      repeat (cbn -[Z.abs Z.sub Z.leb Z.ltb]; rewrite ?Eoff); reflexivity.
  - assert (Hlt : (10 <? b) = true) by (apply Z.ltb_lt; apply Z.leb_gt in Eoff; lia).
    destruct (5 <? Z.abs (b - cur)) eqn:Ehys.
    + split.
      * destruct on, auto;
          repeat (cbn -[Z.abs Z.sub Z.leb Z.ltb]; rewrite ?Eoff, ?Hlt, ?Ehys, ?Esame);
          reflexivity.
      * intros _.
        destruct on, auto;
          repeat (cbn -[Z.abs Z.sub Z.leb Z.ltb]; rewrite ?Eoff, ?Hlt, ?Ehys, ?Esame);
          rewrite Z.sub_diag; cbn; lia.
    + apply Z.ltb_ge in Ehys as Hnear. split.
      * destruct on, auto;
          repeat (cbn -[Z.abs Z.sub Z.leb Z.ltb]; rewrite ?Eoff, ?Hlt, ?Ehys, ?Esame);
          reflexivity.
      * intros _.
        destruct on, auto;
          repeat (cbn -[Z.abs Z.sub Z.leb Z.ltb]; rewrite ?Eoff, ?Hlt, ?Ehys, ?Esame);
          exact Hnear.
Qed.

Lemma pot_settles_witness :
  Z.abs (Arduino.map 3000 0 ANALOG_MAX_VALUE 0 100
         - currentBrightnessPercent (state (handleBrightnessPot 3000 manualWorld)))
  <= BRIGHTNESS_CHANGE_THRESHOLD_PERCENT.
Proof.
  apply (proj2 (pot_settles 3000 manualWorld)). vm_compute. reflexivity.
Defined.

(** ** handleTimeJump: after the jump *)

Lemma fetchSchedule_lastKnown (r : GetReply) (w : World) :
  lastKnownTimeSeconds (state (worldOf (fetchSchedule r w)))
    = lastKnownTimeSeconds (state w) /\
  modeAuto (state (worldOf (fetchSchedule r w))) = modeAuto (state w).
Proof.
  unfold fetchSchedule; cbv zeta.
  destruct (negb (getWifiUp r)); [split; reflexivity|].
  destruct (getCode r =? HTTP_CODE_UNAUTHORIZED).
  { cbn [worldOf]. unfold enterConfigMode.
    destruct (isInConfigMode _); split; reflexivity. }
  destruct (getCode r =? HTTP_CODE_OK); [|split; reflexivity].
  destruct (getBody r) as [|doc]; [split; reflexivity|].
  destruct (parseTime (generated_at doc)); [|split; reflexivity].
  destruct (parseTime (valid_until doc)); [|split; reflexivity].
  destruct (storePoints _ _ _) as [pts [|]]; split; reflexivity.
Qed.

Lemma to_int_range (z : Z) : - two31 <= to_int z < two31.
Proof.
  unfold to_int, two31, two32.
  pose proof (Z.mod_pos_bound (z + 2147483648) 4294967296 ltac:(lia)). lia.
Qed.

(** X19. When [handleTimeJump] returns, [lastKnownTimeSeconds] holds the
    time it read on entry, so that with a non-negative timeout the same
    clock reading is no jump on the next pass.  A pass with no declared
    jump changes nothing else and fetches nothing.  With a negative
    [motionTimeoutSeconds] a clock reading is declared a jump unless its
    difference to [lastKnownTimeSeconds], narrowed to [long], is the
    least [long]; that reading is declared none. *)
Theorem time_jump_settles (r : GetReply) (w : World) :
  (forall w' : World,
      handleTimeJump r w = Running w' ->
      lastKnownTimeSeconds (state w') = timeNow w /\
      (0 <= motionTimeoutSeconds (schedule w') ->
       timeJumpDeclared (atTime (timeNow w) w') = false)) /\
  (timeJumpDeclared w = false ->
   handleTimeJump r w = Running (withState (setLastKnownTimeSeconds (timeNow w)) w)) /\
  (motionTimeoutSeconds (schedule w) < 0 ->
   to_int (timeNow w - lastKnownTimeSeconds (state w)) <> - two31 ->
   timeJumpDeclared w = true) /\
  (- two31 <= motionTimeoutSeconds (schedule w) ->
   to_int (timeNow w - lastKnownTimeSeconds (state w)) = - two31 ->
   timeJumpDeclared w = false).
Proof.
  split; [|split; [|split]].
  - intros w' Hrun.
    assert (E : lastKnownTimeSeconds (state w') = timeNow w).
    { unfold handleTimeJump in Hrun.
      destruct (if timeJumpDeclared w then _ else _) as [w1|h w1];
        cbn [andThen] in Hrun; [|discriminate].
      injection Hrun as <-. reflexivity. }
    split; [exact E|].
    intros Hm. unfold timeJumpDeclared, atTime, timeNow in *.
    cbn [schedule state withClock clock utc]. rewrite E, Z.sub_diag.
    change (labs 0) with 0. apply Z.ltb_ge. exact Hm.
  - intros Hno. unfold handleTimeJump. rewrite Hno. reflexivity.
  - intros Hneg Hne. unfold timeJumpDeclared, labs.
    pose proof (to_int_range (timeNow w - lastKnownTimeSeconds (state w))) as R.
    rewrite (to_int_small (Z.abs _)) by (unfold two31 in *; lia).
    apply Z.ltb_lt. lia.
  - intros Hmin E. unfold timeJumpDeclared, labs. rewrite E.
    apply Z.ltb_ge. vm_compute (to_int (Z.abs (- two31))). exact Hmin.
Qed.

Lemma time_jump_settles_witness :
  handleTimeJump offline calmWorld
  = Running (withState (setLastKnownTimeSeconds (timeNow calmWorld)) calmWorld).
Proof.
  apply (proj1 (proj2 (time_jump_settles offline calmWorld))). reflexivity.
Defined.

(** X20. A time jump never switches a light on, and it leaves the light of
    a device in Manual mode as it is, unless the refetch it triggers is
    answered 401 and the device enters configuration mode. *)
Theorem time_jump_never_lights (r : GetReply) (w : World) :
  let w' := worldOf (handleTimeJump r w) in
  (isInConfigMode w = false /\ isInConfigMode w' = true) \/
  ((lightIsOn (state w') = true -> lightIsOn (state w) = true) /\
   (modeAuto (state w) = false -> lightIsOn (state w') = lightIsOn (state w))).
Proof.
  intros w'. subst w'. unfold handleTimeJump.
  destruct (timeJumpDeclared w); [|right; split; auto].
  set (w1 := if lightIsOn (state w) && modeAuto (state w) then _ else _).
  assert (H1 : isInConfigMode w1 = isInConfigMode w /\
               (lightIsOn (state w1) = true -> lightIsOn (state w) = true) /\
               (modeAuto (state w) = false -> lightIsOn (state w1) = lightIsOn (state w))).
  { subst w1. destruct (lightIsOn (state w)) eqn:Eon, (modeAuto (state w)) eqn:Eauto;
      cbn [andb]; try (rewrite Eon; repeat split; auto; fail).
    destruct (motionTimeoutMs w <? timeSinceMotion w); cbn; rewrite ?Eon;
      repeat split; auto; discriminate. }
  destruct H1 as (Hf & Hon & Hman).
  destruct (_ <? timeNow w).
  - destruct (fetchSchedule_light r w1) as [Hl | [Hc1 Hc2]].
    + right. destruct (fetchSchedule r w1) as [w2|h w2];
        cbn [andThen worldOf state withState lightIsOn setLastKnownTimeSeconds] in *;
        rewrite Hl; split; assumption.
    + left. rewrite <- Hf. split; [exact Hc1|].
      destruct (fetchSchedule r w1) as [w2|h w2]; exact Hc2.
  - right. split; assumption.
Qed.

(** ** The credential across a restart *)

Lemma fetchSchedule_apiKey (r : GetReply) (w : World) :
  currentApiKey (worldOf (fetchSchedule r w)) = currentApiKey w.
Proof.
  unfold fetchSchedule; cbv zeta.
  destruct (negb (getWifiUp r)); [reflexivity|].
  destruct (getCode r =? HTTP_CODE_UNAUTHORIZED).
  { cbn [worldOf]. unfold enterConfigMode. destruct (isInConfigMode _); reflexivity. }
  destruct (getCode r =? HTTP_CODE_OK); [|reflexivity].
  destruct (getBody r) as [|doc]; [reflexivity|].
  destruct (parseTime (generated_at doc)); [|reflexivity].
  destruct (parseTime (valid_until doc)); [|reflexivity].
  destruct (storePoints _ _ _) as [pts [|]]; reflexivity.
Qed.

Lemma setup_apiKey (bootClock : Clock) (nvs : string) (r : GetReply) :
  currentApiKey (worldOf (setup bootClock nvs r))
  = if Z.of_nat (String.length nvs) =? API_KEY_LENGTH then nvs else API_DEVICE_KEY.
Proof.
  unfold setup.
  set (w0 := loadApiKey (bootWorld bootClock nvs)).
  assert (E0 : currentApiKey w0
               = if Z.of_nat (String.length nvs) =? API_KEY_LENGTH
                 then nvs else API_DEVICE_KEY).
  { subst w0. unfold loadApiKey. cbn [storedApiKey bootWorld].
    destruct (_ =? API_KEY_LENGTH); reflexivity. }
  rewrite <- E0. rewrite <- (fetchSchedule_apiKey r w0).
  destruct (fetchSchedule r w0) as [w1|h w1]; cbn [andThen worldOf]; [|reflexivity].
  destruct (isInConfigMode w1); reflexivity.
Qed.

(** X21. A credential typed into the configuration form is accepted when,
    blanks at both ends removed, it is 64 characters long: the sketch stops
    for the restart, and after the restart the trimmed text is the key in
    use, whatever the first fetch brings.  Any other length is refused and
    the world stays as it was. *)
Theorem credential_round_trip (typed : string) (w : World) :
  (Z.of_nat (String.length (trim typed)) = API_KEY_LENGTH ->
   exists w' : World,
     handleClient (PostSave (Some typed)) w = Halted (RestartKeySaved (trim typed)) w' /\
     forall (bootClock : Clock) (r : GetReply),
       currentApiKey (restartFrom w' bootClock r) = trim typed) /\
  (Z.of_nat (String.length (trim typed)) <> API_KEY_LENGTH ->
   handleClient (PostSave (Some typed)) w = Running w).
Proof.
  split.
  - intros Hlen. unfold handleClient. apply Z.eqb_eq in Hlen as Hb. rewrite Hb.
    eexists. split; [reflexivity|].
    intros c r. unfold restartFrom. rewrite setup_apiKey.
    cbn [storedApiKey withStoredApiKey]. rewrite Hb. reflexivity.
  - intros Hlen. unfold handleClient. apply Z.eqb_neq in Hlen. rewrite Hlen. reflexivity.
Qed.

Lemma credential_round_trip_witness :
  exists w' : World,
    handleClient (PostSave (Some typedKey)) configWorld
      = Halted (RestartKeySaved (trim typedKey)) w' /\
    forall (bootClock : Clock) (r : GetReply),
      currentApiKey (restartFrom w' bootClock r) = trim typedKey.
Proof.
  apply (proj1 (credential_round_trip typedKey configWorld)). vm_compute. reflexivity.
Defined.

(** X22. The serial command "reset_key" empties the stored credential and
    restarts; after the restart, and after any start with a stored text
    that is not 64 characters long, the key in use is the built-in
    [API_DEVICE_KEY]. *)
Theorem reset_key_restores_default :
  (forall (r : GetReply) (w : World),
      exists w' : World,
        setSerialCommands (Some CmdResetKey) r w = Halted RestartKeyReset w' /\
        forall (bootClock : Clock) (r' : GetReply),
          currentApiKey (restartFrom w' bootClock r') = API_DEVICE_KEY) /\
  (forall (bootClock : Clock) (nvs : string) (r : GetReply),
      Z.of_nat (String.length nvs) <> API_KEY_LENGTH ->
      currentApiKey (worldOf (setup bootClock nvs r)) = API_DEVICE_KEY).
Proof.
  split.
  - intros r w. eexists. split; [reflexivity|].
    intros c r'. unfold restartFrom. rewrite setup_apiKey. reflexivity.
  - intros c nvs r Hlen. rewrite setup_apiKey.
    apply Z.eqb_neq in Hlen. rewrite Hlen. reflexivity.
Qed.

Lemma reset_key_restores_default_witness :
  currentApiKey (worldOf (setup (mkClock 1000 midnight2025) "tooshort" offline))
  = API_DEVICE_KEY.
Proof.
  apply (proj2 reset_key_restores_default). vm_compute. discriminate.
Defined.

(** ** The loaded flag *)

Lemma fetchSchedule_keeps_loaded (r : GetReply) (w : World) :
  scheduleLoaded (state w) = true ->
  scheduleLoaded (state (worldOf (fetchSchedule r w))) = true.
Proof.
  intros H. unfold fetchSchedule; cbv zeta.
  destruct (negb (getWifiUp r)); [exact H|].
  destruct (getCode r =? HTTP_CODE_UNAUTHORIZED).
  { cbn [worldOf]. unfold enterConfigMode. destruct (isInConfigMode _); exact H. }
  destruct (getCode r =? HTTP_CODE_OK); [|exact H].
  destruct (getBody r) as [|doc]; [exact H|].
  destruct (parseTime (generated_at doc)); [|exact H].
  destruct (parseTime (valid_until doc)); [|exact H].
  destruct (storePoints _ _ _) as [pts [|]]; [reflexivity | exact H].
Qed.

Lemma loaded_keptByPass (i : TickInput) :
  keptByPass (fun w => scheduleLoaded (state w) = true) i.
Proof.
  unfold keptByPass. repeat apply conj.
  - intros w H. exact H.
  - intros w H. unfold handleClient.
    destruct (webRequest i) as [| |[k|]|]; try exact H.
    destruct (_ =? API_KEY_LENGTH); exact H.
  - intros w H. unfold setSerialCommands.
    destruct (serialLine i) as [[| | |[t|]|]|]; try exact H.
    apply fetchSchedule_keeps_loaded. exact H.
  - intros w H. unfold handleTimeJump.
    apply (worldOf_andThen (fun w => scheduleLoaded (state w) = true));
      [|intros w1 H1; exact H1].
    destruct (timeJumpDeclared w); [|exact H].
    set (w1 := if lightIsOn (state w) && modeAuto (state w) then _ else _).
    assert (H1 : scheduleLoaded (state w1) = true).
    { subst w1. destruct (lightIsOn (state w) && modeAuto (state w)); [|exact H].
      destruct (motionTimeoutMs w <? timeSinceMotion w); exact H. }
    destruct (_ <? timeNow w); [apply fetchSchedule_keeps_loaded; exact H1 | exact H1].
  - intros w H. rewrite (proj2 (handleButton_frame _ _ _)). exact H.
  - intros w H. rewrite (proj2 (handleMotion_frame _ _ _)). exact H.
  - intros w H. rewrite (proj2 (handleBrightnessPot_frame _ _)). exact H.
  - intros w H. apply fetchSchedule_keeps_loaded. exact H.
  - intros w v H. exact H.
Qed.

(** A fetch sets the loaded flag exactly when it commits a document. *)
Lemma fetchSchedule_loads (r : GetReply) (w : World) :
  scheduleLoaded (state w) = false ->
  scheduleLoaded (state (worldOf (fetchSchedule r w))) = true <->
  exists doc : JsonDoc, deliversDocument r doc /\ lacksTimeText doc = false.
Proof.
  intros H0. unfold fetchSchedule, deliversDocument, lacksTimeText; cbv zeta.
  destruct (getWifiUp r); cbn [negb];
    [|split; [cbn; congruence | intros (doc & (Hu & _) & _); discriminate]].
  destruct (getCode r =? HTTP_CODE_UNAUTHORIZED) eqn:E401.
  { split.
    - cbn [worldOf]. unfold enterConfigMode.
      destruct (isInConfigMode _); cbn; congruence.
    - intros (doc & (_ & Hc & _) & _). apply Z.eqb_eq in E401.
      rewrite Hc in E401. discriminate. }
  destruct (getCode r =? HTTP_CODE_OK) eqn:E200;
    [|split; [cbn; congruence
             | intros (doc & (_ & Hc & _) & _); apply Z.eqb_neq in E200; contradiction]].
  apply Z.eqb_eq in E200.
  destruct (getBody r) as [|doc];
    [split; [cbn; congruence | intros (doc & (_ & _ & Hb) & _); discriminate]|].
  rewrite fetch_takes_storedEntries.
  destruct (parseTime (generated_at doc)) as [tg|] eqn:Eg.
  2: { split; [cbn; congruence|].
       intros (doc' & (_ & _ & Hb) & Hl). injection Hb as <-.
       apply parseTime_None in Eg. rewrite Eg in Hl. discriminate. }
  destruct (parseTime (valid_until doc)) as [tv|] eqn:Ev.
  2: { split; [cbn; congruence|].
       intros (doc' & (_ & _ & Hb) & Hl). injection Hb as <-.
       apply parseTime_None in Ev. rewrite Ev, orb_true_r in Hl. discriminate. }
  assert (Hg : timeTextMissing (generated_at doc) = false)
    by (destruct (generated_at doc); [discriminate | reflexivity | reflexivity]).
  assert (Hv : timeTextMissing (valid_until doc) = false)
    by (destruct (valid_until doc); [discriminate | reflexivity | reflexivity]).
  destruct (snd (storePoints _ _ _)) eqn:Es.
  - split; [intros _ | reflexivity].
    exists doc. split; [auto|]. rewrite Hg, Hv. cbn [orb].
    destruct (existsb _ (storedEntries doc)) eqn:Ex; [|reflexivity].
    apply (storePoints_halts _ 0%nat (points (schedule
             (withClock (getClock r) (emit EvFetch w))))) in Ex.
    congruence.
  - split; [cbn; congruence|].
    intros (doc' & (_ & _ & Hb) & Hl). injection Hb as <-.
    apply storePoints_halts in Es. rewrite Es, orb_true_r in Hl. discriminate.
Qed.

(** After [setup] the loaded flag is set exactly when its fetch committed
    a document. *)
Lemma setup_loads (c : Clock) (nvs : string) (r : GetReply) :
  scheduleLoaded (state (worldOf (setup c nvs r))) = true <->
  exists doc : JsonDoc, deliversDocument r doc /\ lacksTimeText doc = false.
Proof.
  unfold setup. set (w0 := loadApiKey (bootWorld c nvs)).
  assert (H0 : scheduleLoaded (state w0) = false)
    by (subst w0; unfold loadApiKey; destruct (_ =? _); reflexivity).
  rewrite <- (fetchSchedule_loads r w0 H0).
  destruct (fetchSchedule r w0) as [w1|h w1]; cbn [andThen worldOf]; [|reflexivity].
  destruct (isInConfigMode w1); reflexivity.
Qed.

(** X23. While the sketch runs, a loaded schedule stays loaded: over any
    number of passes of [loop], on any inputs and network replies, failed
    fetches and configuration mode included, [scheduleLoaded] stays set.
    When the sketch stops (a saved or reset key, or the fault of a fetch),
    the restart begins with the flag cleared, and after [setup] it is set
    exactly when the fetch of [setup] committed a document. *)
Theorem schedule_stays_loaded (inputs : list TickInput) (w : World) :
  scheduleLoaded (state w) = true ->
  match runLoop inputs w with
  | Running w' => scheduleLoaded (state w') = true
  | Halted _ w' =>
      forall (bootClock : Clock) (r : GetReply),
        scheduleLoaded (state (restartFrom w' bootClock r)) = true <->
        exists doc : JsonDoc, deliversDocument r doc /\ lacksTimeText doc = false
  end.
Proof.
  intros H.
  assert (K : scheduleLoaded (state (worldOf (runLoop inputs w))) = true).
  { apply (runLoop_keeps (fun w => scheduleLoaded (state w) = true)); [|exact H].
    apply Forall_forall. intros i _. apply loaded_keptByPass. }
  destruct (runLoop inputs w) as [w'|h w']; [exact K|].
  intros bootClock r. apply setup_loads.
Qed.

Lemma schedule_stays_loaded_witness :
  match runLoop configTicks configWorld with
  | Running w' => scheduleLoaded (state w') = true
  | Halted _ w' =>
      forall (bootClock : Clock) (r : GetReply),
        scheduleLoaded (state (restartFrom w' bootClock r)) = true <->
        exists doc : JsonDoc, deliversDocument r doc /\ lacksTimeText doc = false
  end.
Proof.
  apply (schedule_stays_loaded configTicks configWorld). reflexivity.
Defined.

(** ** What the telemetry document reports *)

(** X24. The "motion_detected" document is posted before the handler
    switches the light on: when it goes out (rate limit passed, WiFi up)
    it reports the light as off, with the brightness and the colour
    temperature from before the motion, and leaves the colour temperature
    out when that is below 1800 K. *)
Theorem motion_detected_reports_light_off (r : PostReply) (w : World) :
  modeAuto (state w) = true ->
  lightIsOn (state w) = false ->
  TELEMETRY_DEBOUNCE_MS <= wrap32 (millisNow w - lastTelemetryMs w) ->
  postWifiUp r = true ->
  In (EvPost "motion_detected" true false (currentBrightnessPercent (state w))
        (if API_MIN_TEMP_CONSTRAINT_K <=? currentColorTemp (state w)
         then Some (currentColorTemp (state w)) else None))
     (events (handleMotion true r w)) /\
  postCount (handleMotion true r w) = S (postCount w) /\
  lightIsOn (state (handleMotion true r w)) = true.
Proof.
  intros Hauto Hoff Hdue Hup.
  rewrite (handleMotion_rising r w Hauto Hoff).
  set (w1 := sendTelemetry "motion_detected" true r w).
  set (w2 := withState (setMotionLastSeenMs (millisNow w1))
               (withState (setLightIsOn true) w1)).
  assert (Ev : events (withState (setColorTemp (fst (getCurrentColorTemp w2)))
                         (snd (getCurrentColorTemp w2))) = events w1)
    by (destruct (getCurrentColorTemp_world w2) as [-> | ->]; reflexivity).
  assert (Eon : lightIsOn (state (withState (setColorTemp (fst (getCurrentColorTemp w2)))
                                    (snd (getCurrentColorTemp w2)))) = true)
    by (destruct (getCurrentColorTemp_world w2) as [-> | ->]; reflexivity).
  unfold postCount. rewrite Ev, Eon.
  destruct (sendTelemetry_posts_when_due "motion_detected" true r w Hdue Hup) as [Hin _].
  fold w1 in Hin. rewrite Hoff in Hin.
  split; [exact Hin|]. split; [|reflexivity].
  subst w1. unfold sendTelemetry, TELEMETRY. cbn [negb].
  change (millisNow (emit (EvTelemetry "motion_detected" true) w)) with (millisNow w).
  change (lastTelemetryMs (emit (EvTelemetry "motion_detected" true) w))
    with (lastTelemetryMs w).
  replace (_ <? TELEMETRY_DEBOUNCE_MS) with false by (symmetry; apply Z.ltb_ge; lia).
  rewrite Hup. cbn [negb].
  destruct (postCode r =? HTTP_CODE_UNAUTHORIZED).
  - unfold enterConfigMode. cbn [isInConfigMode withClock emit withLastTelemetryMs].
    destruct (isInConfigMode w); reflexivity.
  - reflexivity.
Qed.

Lemma motion_detected_reports_light_off_witness :
  In (EvPost "motion_detected" true false 60 (Some 3500))
     (events (handleMotion true (postReply 200 (mkClock 10040 (midnight2025 + 43200)))
                darkWorld)).
Proof.
  apply (motion_detected_reports_light_off
           (postReply 200 (mkClock 10040 (midnight2025 + 43200))) darkWorld);
    try reflexivity.
  vm_compute. discriminate.
Defined.

(** ** getCurrentColorTemp: an expired schedule *)

Lemma warned_lookup_keeps_world (w : World) :
  scheduleExpiredWarned (state w) = true -> snd (getCurrentColorTemp w) = w.
Proof.
  intros H. unfold getCurrentColorTemp.
  destruct (negb (scheduleLoaded (state w)) || (pointCount (schedule w) =? 0));
    [reflexivity|].
  destruct (nightModeEnabled (schedule w) && isNightTime w); [reflexivity|].
  rewrite H, andb_false_r. destruct (scanSegments _ _ _ _); reflexivity.
Qed.

(** X25. Expiry only warns: [getCurrentColorTemp] changes nothing in the
    world except that it sets [scheduleExpiredWarned], and that only when
    the clock is past [validUntil] and the flag was clear; the colour
    temperature it returns is the one an unexpired schedule gives; a second
    lookup at the same clock returns the same value and changes nothing. *)
Theorem expiry_only_warns (w : World) :
  let w' := snd (getCurrentColorTemp w) in
  (w' = w \/
   (w' = withState (setScheduleExpiredWarned true) w /\
    validUntil (schedule w) < timeNow w /\
    scheduleExpiredWarned (state w) = false)) /\
  getCurrentColorTemp w' = (fst (getCurrentColorTemp w), w') /\
  (forall v : Z,
      fst (getCurrentColorTemp
             (withSchedule
                {| profileId := profileId (schedule w);
                   sleepStartUtcSeconds := sleepStartUtcSeconds (schedule w);
                   sleepEndUtcSeconds := sleepEndUtcSeconds (schedule w);
                   minColorTemp := minColorTemp (schedule w);
                   maxColorTemp := maxColorTemp (schedule w);
                   nightModeEnabled := nightModeEnabled (schedule w);
                   motionTimeoutSeconds := motionTimeoutSeconds (schedule w);
                   generatedAt := generatedAt (schedule w);
                   validUntil := v;
                   points := points (schedule w);
                   pointCount := pointCount (schedule w) |} w))
      = fst (getCurrentColorTemp w)).
Proof.
  intros w'. subst w'. split; [|split].
  - unfold getCurrentColorTemp.
    destruct (negb (scheduleLoaded (state w)) || (pointCount (schedule w) =? 0));
      [left; reflexivity|].
    destruct (nightModeEnabled (schedule w) && isNightTime w); [left; reflexivity|].
    destruct (validUntil (schedule w) <? timeNow w) eqn:Ev;
      destruct (scheduleExpiredWarned (state w)) eqn:Ew; cbn [andb negb withState schedule];
      destruct (scanSegments _ _ _ _); cbn [snd]; auto.
    all: right; apply Z.ltb_lt in Ev; auto.
  - assert (F : fst (getCurrentColorTemp (snd (getCurrentColorTemp w)))
               = fst (getCurrentColorTemp w))
      by (apply getCurrentColorTemp_reads;
          destruct (getCurrentColorTemp_world w) as [-> | ->]; reflexivity).
    assert (S : snd (getCurrentColorTemp (snd (getCurrentColorTemp w)))
               = snd (getCurrentColorTemp w)).
    { destruct (getCurrentColorTemp_world w) as [E | E].
      - rewrite E. exact E.
      - rewrite E. apply warned_lookup_keeps_world. reflexivity. }
    rewrite (surjective_pairing (getCurrentColorTemp (snd (getCurrentColorTemp w)))).
    rewrite F, S. reflexivity.
  - intros v. rewrite !getCurrentColorTemp_value. reflexivity.
Qed.

(** ** Configuration mode from the start of a pass *)

(** X26. From the start of a pass in configuration mode, any sequence of
    passes of [loop], whatever the buttons, sensors, serial lines and
    network replies, either keeps running with the flag set and with state,
    schedule and event log untouched, or stops by the restart that follows
    an accepted credential of the required length.  Each handler, run on a
    world with the flag set, leaves it set, also in the world in which it
    stops the sketch. *)
Theorem config_mode_kept_from_pass_start :
  (forall (inputs : list TickInput) (w : World),
      isInConfigMode w = true ->
      match runLoop inputs w with
      | Running w' =>
          isInConfigMode w' = true /\ state w' = state w /\
          schedule w' = schedule w /\ events w' = events w
      | Halted h w' =>
          isInConfigMode w' = true /\
          exists key : string,
            h = RestartKeySaved key /\ Z.of_nat (String.length key) = API_KEY_LENGTH
      end) /\
  (forall (line : option SerialCommand) (r : GetReply) (p : PostReply)
          (level : bool) (reading : Z),
      keepsConfigMode (setSerialCommands line r) /\
      keepsConfigMode (fetchSchedule r) /\
      keepsConfigMode (handleTimeJump r) /\
      keepsConfigMode (fun w => Running (handleButton level p w)) /\
      keepsConfigMode (fun w => Running (handleMotion level p w)) /\
      keepsConfigMode (fun w => Running (handleBrightnessPot reading w)) /\
      keepsConfigMode (fun w => Running (sendTelemetry "mode_change" level p w))).
Proof.
  split.
  - intros inputs w H. apply runLoop_in_config_mode. exact H.
  - intros line r p level reading.
    repeat apply conj;
      auto using setSerialCommands_flag_kept, fetchSchedule_flag_kept,
        handleTimeJump_flag_kept, handleButton_flag_kept, handleMotion_flag_kept,
        handleBrightnessPot_flag_kept.
    intros w H. apply sendTelemetry_flag_kept. exact H.
Qed.

Lemma config_mode_kept_from_pass_start_witness :
  match runLoop configTicks configWorld with
  | Running w' =>
      isInConfigMode w' = true /\ state w' = state configWorld /\
      schedule w' = schedule configWorld /\ events w' = events configWorld
  | Halted h w' =>
      isInConfigMode w' = true /\
      exists key : string,
        h = RestartKeySaved key /\ Z.of_nat (String.length key) = API_KEY_LENGTH
  end.
Proof.
  exact (proj1 config_mode_kept_from_pass_start configTicks configWorld eq_refl).
Defined.
